(** * Clinic_System_Backend: appointment scheduling

    A shallow embedding of the appointment-scheduling core of the clinic
    backend (FastAPI + SQLAlchemy over PostgreSQL) and the properties of its
    slot generator, slot cleaner and booking engine.

    Embedded source functions:
    - [app_package/task_scheduler.py]: [get_next_week_dates_for_day],
      [generate_schedules], [cleanup_past_schedules];
    - [app_package/routers/student.py]: [create_visit], [book_schedule],
      [create_visit_and_complaint], [get_student_available_schedules];
    - [app_package/routers/doctor.py]: [get_current_doctor],
      [create_availability], [get_availabilities], [delete_availability],
      [create_schedule], [cancel_schedule], [complete_visit],
      [create_diagnosis], [get_diagnoses_by_visit];
    - [app_package/oauth2.py]: what [get_current_user] returns and what it
      does to the session of the request;
    - [app_package/models.py]: the enumerations, the five tables the
      functions above read and write, and the foreign keys between them.

    Modelling conventions.
    - A table is the list of its rows in insertion order.  A query
      [select(M).filter(c1, ..., cn)] is [select_where] with the conjunction
      of the conditions, and [scalar_one_or_none] is the SQLAlchemy result
      method: no row gives [None], one row gives the row, several rows raise
      [MultipleResultsFound].
    - The session factory of [database.py] is built with [autoflush=False]:
      objects passed to [db.add] reach the tables at the next explicit
      [flush] or [commit], and queries issued before that do not see them.
    - A handler is a function from the committed database to its outcome
      (the value returned or the exception raised) and the committed
      database afterwards.  What is not committed when an exception leaves
      the handler is rolled back with the session.
    - The session of a request is the one [database.get_db] yields; the
      web framework resolves it once per request, so [get_current_user]
      and the handler share it.  [get_current_user] runs a query on it,
      which begins the session's transaction before the handler starts.
    - A foreign key is checked where a modelled write can break it: the
      cleaner's DELETE against [clinic_visits.schedule_id], and the INSERT
      of a diagnosis against [complaints.complaint_id].  The other
      references written by the modelled functions are to rows the function
      has just read, or to the caller's own row.
    - [date] is the proleptic Gregorian ordinal of Python's [date], [time] a
      number of microseconds since midnight, [datetime] a number of
      microseconds since the start of ordinal day 0.
    - Auto-increment keys are allocated above every key in the table.
      PostgreSQL's sequence likewise hands out a key no row has, but it
      skips the keys of deleted rows and of rolled-back inserts.
    - Column [created_at] (a server-side timestamp no function reads) is
      left out of the rows.  Lost connections and the serialisation of a
      returned value by the web framework are outside the model. *)

From Stdlib Require Import ZArith List String Bool Lia DecimalString.
From Stdlib Require Import Sorted Permutation RelationClasses.
Import ListNotations.
Open Scope Z_scope.

(** ** Python values and exceptions *)

Module Py.

Inductive exn : Type :=
| HTTPException (status_code : Z) (detail : string)
| MultipleResultsFound
| AttributeError (msg : string)
| ValueError (msg : string)
| InvalidRequestError (msg : string)
| IntegrityError (constraint : string).

(** [str(n)] of an integer and [str(e)] of an exception.  The text of an
    [IntegrityError] is the driver's report of the violated constraint; the
    model keeps the name of the constraint. *)
Definition str_int (n : Z) : string := NilZero.string_of_int (Z.to_int n).

Definition str (e : exn) : string :=
  match e with
  | HTTPException c d => String.append (str_int c) (String.append ": " d)
  | MultipleResultsFound =>
      "Multiple rows were found when one or none was required"
  | AttributeError msg => msg
  | ValueError msg => msg
  | InvalidRequestError msg => msg
  | IntegrityError constraint => constraint
  end.

Inductive Result (A : Type) : Type :=
| OK (a : A)
| Raise (e : exn).

Arguments OK {A} a.
Arguments Raise {A} e.

Definition bind {A B : Type} (r : Result A) (k : A -> Result B) : Result B :=
  match r with
  | OK a => k a
  | Raise e => Raise e
  end.

(** [try: body except Exception: raise e'].  [HTTPException] derives from
    [Exception], so this handler catches it as well. *)
Definition except_Exception {A : Type} (body : Result A) (e' : exn) : Result A :=
  match body with
  | OK a => OK a
  | Raise _ => Raise e'
  end.

(** [try: body except HTTPException: raise except Exception: raise e']. *)
Definition except_HTTPException_reraise {A : Type} (body : Result A) (e' : exn)
  : Result A :=
  match body with
  | OK a => OK a
  | Raise (HTTPException c d) => Raise (HTTPException c d)
  | Raise _ => Raise e'
  end.

Definition is_OK {A : Type} (r : Result A) : bool :=
  match r with
  | OK _ => true
  | Raise _ => false
  end.

(** [for x in xs: s = body(x, s)], leaving at the first exception. *)
Fixpoint for_each {A S : Type} (xs : list A) (body : A -> S -> Result S) (s : S)
  : Result S :=
  match xs with
  | [] => OK s
  | x :: xs' => bind (body x s) (for_each xs' body)
  end.

(** [range(n)] *)
Definition range (n : nat) : list Z := map Z.of_nat (seq 0 n).

(** Truth value of an optional integer ([if visit.schedule_id:]): [None] and
    [0] are false. *)
Definition truthy (o : option Z) : option Z :=
  match o with
  | Some n => if n =? 0 then None else Some n
  | None => None
  end.

End Py.

Import Py.

Notation "x <- c ;; k" := (Py.bind c (fun x => k))
  (at level 61, c at next level, right associativity).

(** ** Dates and times ([datetime] module) *)

Module Datetime.

Definition date : Type := Z.
Definition time : Type := Z.
Definition datetime : Type := Z.

Definition MICROSECONDS_PER_DAY : Z := 86400000000.

Definition valid_time (t : time) : Prop := 0 <= t < MICROSECONDS_PER_DAY.

(** [time(h, m)] *)
Definition hm (h m : Z) : time := (h * 60 + m) * 60000000.

(** [date.weekday()]: Monday is 0. *)
Definition weekday (d : date) : Z := (d + 6) mod 7.

(** [timedelta(days=n)] and [timedelta(minutes=n)] as the amount they add. *)
Definition timedelta_days (n : Z) : Z := n.
Definition timedelta_minutes (n : Z) : Z := n * 60000000.

(** [datetime.combine(d, t)] *)
Definition combine (d : date) (t : time) : datetime :=
  d * MICROSECONDS_PER_DAY + t.

(** [datetime.time()] *)
Definition time_of (dt : datetime) : time := dt mod MICROSECONDS_PER_DAY.

(** [calendar.day_name] *)
Definition day_name : list string :=
  ["Monday"; "Tuesday"; "Wednesday"; "Thursday"; "Friday"; "Saturday";
   "Sunday"]%string.

Definition calendar_day_name (i : Z) : string :=
  nth (Z.to_nat i) day_name EmptyString.

End Datetime.

Import Datetime.

(** ** [models.py] *)

Module AppointmentStatus.
Inductive t : Type := available | booked | completed | cancelled | pending.

Definition eqb (a b : t) : bool :=
  match a, b with
  | available, available | booked, booked | completed, completed
  | cancelled, cancelled | pending, pending => true
  | _, _ => false
  end.
End AppointmentStatus.

Module VisitStatus.
Inductive t : Type := pending | completed | cancelled.

Definition eqb (a b : t) : bool :=
  match a, b with
  | pending, pending | completed, completed | cancelled, cancelled => true
  | _, _ => false
  end.
End VisitStatus.

Module AvailabilityStatus.
Inductive t : Type := active | inactive.

Definition eqb (a b : t) : bool :=
  match a, b with
  | active, active | inactive, inactive => true
  | _, _ => false
  end.
End AvailabilityStatus.

Module DayOfWeek.
Inductive t : Type :=
  Monday | Tuesday | Wednesday | Thursday | Friday | Saturday | Sunday.

Definition value (d : t) : string :=
  match d with
  | Monday => "Monday"
  | Tuesday => "Tuesday"
  | Wednesday => "Wednesday"
  | Thursday => "Thursday"
  | Friday => "Friday"
  | Saturday => "Saturday"
  | Sunday => "Sunday"
  end%string.

Definition eqb (a b : t) : bool :=
  match a, b with
  | Monday, Monday | Tuesday, Tuesday | Wednesday, Wednesday
  | Thursday, Thursday | Friday, Friday | Saturday, Saturday
  | Sunday, Sunday => true
  | _, _ => false
  end.
End DayOfWeek.

(** Table [availabilities]. *)
Record Availability : Type := mkAvailability {
  av_availability_id : Z;
  av_doctor_id : string;
  av_day_of_week : DayOfWeek.t;
  av_start_time : time;
  av_end_time : time;
  av_status : AvailabilityStatus.t
}.

(** Table [appointment_schedules]: the slots.  [schedule_id] of an object
    that has not been flushed yet is unset; the model stores 0 there and
    the flush overwrites it. *)
Record AppointmentSchedule : Type := mkAppointmentSchedule {
  schedule_id : Z;
  doctor_id : string;
  student_id : option Z;
  availability_id : option Z;
  start_time : time;
  end_time : time;
  date_ : date;
  status : AppointmentStatus.t
}.

(** Table [clinic_visits]. *)
Record ClinicVisit : Type := mkClinicVisit {
  visit_id : Z;
  cv_student_id : Z;
  cv_doctor_id : string;
  cv_schedule_id : option Z;
  visit_date : date;
  cv_status : VisitStatus.t
}.

(** Table [complaints]. *)
Record StudentComplaint : Type := mkStudentComplaint {
  complaint_id : Z;
  sc_visit_id : Z;
  sc_student_id : Z;
  complaint_description : string
}.

(** Table [diagnoses]. *)
Record DoctorDiagnosis : Type := mkDoctorDiagnosis {
  diagnosis_id : Z;
  dd_visit_id : Z;
  dd_student_id : Z;
  dd_complaint_id : Z;
  dd_doctor_id : string;
  diagnosis_description : string;
  treatment_plan : option string
}.

Record Database : Type := mkDatabase {
  availabilities : list Availability;
  appointment_schedules : list AppointmentSchedule;
  clinic_visits : list ClinicVisit;
  complaints : list StudentComplaint;
  diagnoses : list DoctorDiagnosis
}.

(** Column assignments on a loaded row. *)
Definition set_schedule_id (i : Z) (s : AppointmentSchedule) : AppointmentSchedule :=
  mkAppointmentSchedule i (doctor_id s) (student_id s) (availability_id s)
    (start_time s) (end_time s) (date_ s) (status s).

Definition set_status (st : AppointmentStatus.t) (s : AppointmentSchedule)
  : AppointmentSchedule :=
  mkAppointmentSchedule (schedule_id s) (doctor_id s) (student_id s)
    (availability_id s) (start_time s) (end_time s) (date_ s) st.

Definition set_student_id (p : option Z) (s : AppointmentSchedule)
  : AppointmentSchedule :=
  mkAppointmentSchedule (schedule_id s) (doctor_id s) p (availability_id s)
    (start_time s) (end_time s) (date_ s) (status s).

Definition set_availability_id (a : option Z) (s : AppointmentSchedule)
  : AppointmentSchedule :=
  mkAppointmentSchedule (schedule_id s) (doctor_id s) (student_id s) a
    (start_time s) (end_time s) (date_ s) (status s).

Definition set_visit_id (i : Z) (v : ClinicVisit) : ClinicVisit :=
  mkClinicVisit i (cv_student_id v) (cv_doctor_id v) (cv_schedule_id v)
    (visit_date v) (cv_status v).

Definition set_visit_status (st : VisitStatus.t) (v : ClinicVisit) : ClinicVisit :=
  mkClinicVisit (visit_id v) (cv_student_id v) (cv_doctor_id v)
    (cv_schedule_id v) (visit_date v) st.

Definition with_appointment_schedules (t : list AppointmentSchedule) (db : Database)
  : Database :=
  mkDatabase (availabilities db) t (clinic_visits db) (complaints db)
    (diagnoses db).

Definition with_clinic_visits (t : list ClinicVisit) (db : Database) : Database :=
  mkDatabase (availabilities db) (appointment_schedules db) t (complaints db)
    (diagnoses db).

Definition with_complaints (t : list StudentComplaint) (db : Database) : Database :=
  mkDatabase (availabilities db) (appointment_schedules db) (clinic_visits db) t
    (diagnoses db).

Definition with_diagnoses (t : list DoctorDiagnosis) (db : Database) : Database :=
  mkDatabase (availabilities db) (appointment_schedules db) (clinic_visits db)
    (complaints db) t.

Definition with_availabilities (t : list Availability) (db : Database) : Database :=
  mkDatabase t (appointment_schedules db) (clinic_visits db) (complaints db)
    (diagnoses db).

(** ** Queries and writes (SQLAlchemy session) *)

Module Session.

(** The transaction state of an [AsyncSession].  A session begins its
    transaction at its first statement ("autobegin") and keeps it until
    [commit] or [rollback]. *)
Record AsyncSession : Type := mkAsyncSession {
  in_transaction : bool
}.

(** [await db.execute(stmt)], as far as the transaction state goes. *)
Definition execute (db : AsyncSession) : AsyncSession := mkAsyncSession true.

(** [async with db.begin():] on entry.  [Session.begin] refuses a session
    whose transaction has begun. *)
Definition begin (db : AsyncSession) : Result unit :=
  if in_transaction db then
    Raise (InvalidRequestError "A transaction is already begun on this Session.")
  else OK tt.

(** [await db.refresh(obj)] inside [async with db.begin():] after
    [await db.commit()]: the transaction of the block is closed, and the
    session refuses further statements until the block is left. *)
Definition refresh_in_closed_block {A : Type} (obj : A) : Result A :=
  Raise
    (InvalidRequestError
       "Can't operate on closed transaction inside context manager.  Please complete the context manager before emitting further commands.").

(** [select(M).filter(cond)] run against a table. *)
Definition select_where {A : Type} (cond : A -> bool) (table : list A) : list A :=
  filter cond table.

(** [Result.scalar_one_or_none()] *)
Definition scalar_one_or_none {A : Type} (rows : list A) : Result (option A) :=
  match rows with
  | [] => OK None
  | [r] => OK (Some r)
  | _ :: _ :: _ => Raise MultipleResultsFound
  end.

(** The next value of an auto-increment key: the key above every key of
    the table.  (A PostgreSQL sequence also hands out a key no row has; it
    does not go back to the keys of deleted rows.) *)
Definition next_id (ids : list Z) : Z := 1 + fold_right Z.max 0 ids.

(** [UPDATE ... WHERE cond]: a changed attribute of a loaded row is written
    back to the row with its primary key. *)
Definition update_where {A : Type} (cond : A -> bool) (f : A -> A) (table : list A)
  : list A :=
  map (fun r => if cond r then f r else r) table.

(** [DELETE ... WHERE cond] *)
Definition delete_where {A : Type} (cond : A -> bool) (table : list A) : list A :=
  filter (fun r => negb (cond r)) table.

(** Flush of one new slot, and of the new slots of a session in the order
    they were added. *)
Definition insert_schedule (table : list AppointmentSchedule)
  (s : AppointmentSchedule) : list AppointmentSchedule :=
  table ++ [set_schedule_id (next_id (map schedule_id table)) s].

Definition insert_schedules (table : list AppointmentSchedule)
  (new : list AppointmentSchedule) : list AppointmentSchedule :=
  fold_left insert_schedule new table.

Definition insert_visit (table : list ClinicVisit) (v : ClinicVisit)
  : list ClinicVisit :=
  table ++ [set_visit_id (next_id (map visit_id table)) v].

(** [ORDER BY]: a stable insertion sort by a "less or equal" test.  Rows
    that compare equal stay in table order (SQL leaves their order open). *)
Fixpoint insert_sorted {A : Type} (leb : A -> A -> bool) (x : A) (l : list A)
  : list A :=
  match l with
  | [] => [x]
  | y :: l' => if leb x y then x :: l else y :: insert_sorted leb x l'
  end.

Definition order_by {A : Type} (leb : A -> A -> bool) (rows : list A) : list A :=
  fold_right (insert_sorted leb) [] rows.

End Session.

Import Session.

(** ** [task_scheduler.py] *)

Module TaskScheduler.

(** The Monday that starts the coming week ([next_monday] in
    [get_next_week_dates_for_day]). *)
Definition next_monday (today : date) : date :=
  today + timedelta_days (7 - weekday today).

Definition get_next_week_dates_for_day (today : date) (day : string) : list date :=
  map (fun i => next_monday today + timedelta_days i)
    (filter
       (fun i =>
          String.eqb
            (calendar_day_name (weekday (next_monday today + timedelta_days i)))
            day)
       (range 7)).

(** The duplicate check of [generate_schedules]:
    [filter_by(doctor_id=, date=, start_time=, end_time=)]. *)
Definition filter_by_slot (doctor : string) (d : date) (st en : time)
  (s : AppointmentSchedule) : bool :=
  String.eqb (doctor_id s) doctor && (date_ s =? d) && (start_time s =? st)
  && (end_time s =? en).

(** The slot object built inside the loop. *)
Definition new_slot (avail : Availability) (schedule_date : date)
  (slot_start slot_end : datetime) : AppointmentSchedule :=
  mkAppointmentSchedule 0 (av_doctor_id avail) None
    (Some (av_availability_id avail)) (time_of slot_start) (time_of slot_end)
    schedule_date AppointmentStatus.available.

(** [while slot_start < end: ...].  [table] is the committed slot table the
    duplicate check reads, [session_new] the objects passed to [db.add] so
    far.  [fuel] bounds the number of iterations; [slot_loop_fuel] below is
    always enough ([slot_loop_fuel_stable]). *)
Fixpoint slot_loop (fuel : nat) (table : list AppointmentSchedule)
  (avail : Availability) (schedule_date : date) (end_ slot_start : datetime)
  (session_new : list AppointmentSchedule) : Result (list AppointmentSchedule) :=
  match fuel with
  | O => OK session_new
  | S fuel' =>
      if slot_start <? end_ then
        let slot_end := slot_start + timedelta_minutes 20 in
        if slot_end >? end_ then OK session_new
        else
          existing <-
            scalar_one_or_none
              (select_where
                 (filter_by_slot (av_doctor_id avail) schedule_date
                    (time_of slot_start) (time_of slot_end))
                 table) ;;
          slot_loop fuel' table avail schedule_date end_ slot_end
            (match existing with
             | None =>
                 session_new
                 ++ [new_slot avail schedule_date slot_start slot_end]
             | Some _ => session_new
             end)
      else OK session_new
  end.

Definition slot_loop_fuel (start end_ : datetime) : nat :=
  S (Z.to_nat ((end_ - start) / timedelta_minutes 20)).

(** Body of [for schedule_date in dates]. *)
Definition generate_for_date (table : list AppointmentSchedule)
  (avail : Availability) (schedule_date : date)
  (session_new : list AppointmentSchedule) : Result (list AppointmentSchedule) :=
  let start := combine schedule_date (av_start_time avail) in
  let end_ := combine schedule_date (av_end_time avail) in
  slot_loop (slot_loop_fuel start end_) table avail schedule_date end_ start
    session_new.

(** Body of [for avail in availabilities]. *)
Definition generate_for_availability (today : date)
  (table : list AppointmentSchedule) (avail : Availability)
  (session_new : list AppointmentSchedule) : Result (list AppointmentSchedule) :=
  let day := DayOfWeek.value (av_day_of_week avail) in
  let dates := get_next_week_dates_for_day today day in
  for_each dates (generate_for_date table avail) session_new.

(** The slot objects a run adds to its session. *)
Definition generate_session (today : date) (db : Database)
  : Result (list AppointmentSchedule) :=
  let availabilities_ :=
    select_where
      (fun a => AvailabilityStatus.eqb (av_status a) AvailabilityStatus.active)
      (availabilities db) in
  for_each availabilities_
    (generate_for_availability today (appointment_schedules db)) [].

Definition generate_schedules (today : date) (db : Database)
  : Result unit * Database :=
  match generate_session today db with
  | Raise e => (Raise e, db)
  | OK session_new =>
      (OK tt,
       with_appointment_schedules
         (insert_schedules (appointment_schedules db) session_new) db)
  end.

(** The foreign key [clinic_visits.schedule_id -> appointment_schedules]
    (declared without [ondelete]): a visit refers to the slot. *)
Definition visit_refers_to (s : AppointmentSchedule) (v : ClinicVisit) : bool :=
  match cv_schedule_id v with
  | Some x => x =? schedule_id s
  | None => false
  end.

(** The DELETE is one statement: when a row it would remove is still
    referred to by a visit, PostgreSQL rejects the statement, [db.execute]
    raises [IntegrityError] and no row is removed. *)
Definition cleanup_past_schedules (today : date) (db : Database)
  : Result unit * Database :=
  let cond :=
    fun s =>
      (date_ s <? today)
      && AppointmentStatus.eqb (status s) AppointmentStatus.available in
  if existsb
       (fun s => existsb (visit_refers_to s) (clinic_visits db))
       (select_where cond (appointment_schedules db))
  then (Raise (IntegrityError "clinic_visits_schedule_id_fkey"), db)
  else
    (OK tt,
     with_appointment_schedules
       (delete_where cond (appointment_schedules db)) db).

End TaskScheduler.

Import TaskScheduler.

(** ** [oauth2.py]: the authenticated caller

    [get_current_user] returns a [StudentResponse] (which has [student_id]
    and no [user_id]) or a [UserResponse] (which has [user_id] and no
    [student_id]); reading an attribute the object does not have raises
    [AttributeError]. *)

Record CurrentUser : Type := mkCurrentUser {
  cu_role : string;
  cu_user_id : option string;
  cu_student_id : option Z
}.

(** The session of a request.  [database.get_db] yields a new session, and
    [get_current_user] awaits [db.execute(select(...))] on it (for a
    student and for a user alike) before the handler runs: a handler that
    depends on [get_current_user], directly or through
    [get_current_doctor], receives a session whose transaction has
    begun. *)
Definition get_db : AsyncSession := mkAsyncSession false.

Definition get_current_user_session (db : AsyncSession) : AsyncSession :=
  execute db.

Definition request_session : AsyncSession := get_current_user_session get_db.

Definition attr_user_id (u : CurrentUser) : Result string :=
  match cu_user_id u with
  | Some i => OK i
  | None =>
      Raise (AttributeError "'StudentResponse' object has no attribute 'user_id'")
  end.

Definition attr_student_id (u : CurrentUser) : Result Z :=
  match cu_student_id u with
  | Some i => OK i
  | None =>
      Raise (AttributeError "'UserResponse' object has no attribute 'student_id'")
  end.

Definition is_None {A : Type} (o : option A) : bool :=
  match o with
  | None => true
  | Some _ => false
  end.

(** Column [= value] on a nullable integer column. *)
Definition column_eq (o : option Z) (v : Z) : bool :=
  match o with
  | Some x => x =? v
  | None => false
  end.

(** [db.refresh(obj)]: the row that now has the object's primary key. *)
Definition refresh_schedule (s : AppointmentSchedule)
  (table : list AppointmentSchedule) : AppointmentSchedule :=
  match find (fun r => schedule_id r =? schedule_id s) table with
  | Some r => r
  | None => s
  end.

Definition refresh_visit (v : ClinicVisit) (table : list ClinicVisit) : ClinicVisit :=
  match find (fun r => visit_id r =? visit_id v) table with
  | Some r => r
  | None => v
  end.

(** Primary key column [= value] where the value may be [None]: a key is
    never NULL, so [None] selects no row. *)
Definition pk_eq (k : Z) (v : option Z) : bool :=
  match v with
  | Some x => k =? x
  | None => false
  end.

(** Nullable column [= value] where the value may be [None] ([IS NULL]). *)
Definition column_eq_opt (o v : option Z) : bool :=
  match v with
  | Some x => column_eq o x
  | None => is_None o
  end.

(** Request body [schemas.ClinicVisitCreate]. *)
Record ClinicVisitCreate : Type := mkClinicVisitCreate {
  cvc_student_id : Z;
  cvc_schedule_id : option Z;
  cvc_visit_date : date;
  cvc_status : option VisitStatus.t
}.

(** ** [routers/student.py] *)

Module Student.

(** [book_schedule] up to its first write: the role check, the entry into
    [async with db.begin():], the query and the guard.  The result is the
    loaded slot and the caller's student id. *)
Definition book_schedule_read (current_user : CurrentUser)
  (booking_schedule_id : Z) (db : Database) : Result (AppointmentSchedule * Z) :=
  if negb (String.eqb (cu_role current_user) "student") then
    Raise (HTTPException 403 "Student access required")
  else
    _ <- begin request_session ;;
    schedule <-
      scalar_one_or_none
        (select_where
           (fun s =>
              (schedule_id s =? booking_schedule_id)
              && is_None (student_id s)
              && AppointmentStatus.eqb (status s) AppointmentStatus.booked)
           (appointment_schedules db)) ;;
    match schedule with
    | None =>
        Raise
          (HTTPException 400
             "Schedule not found, already booked, or unavailable")
    | Some schedule =>
        sid <- attr_student_id current_user ;;
        OK (schedule, sid)
    end.

(** The writes of [book_schedule] and its commit: the changed attribute
    [student_id] goes to the row with the loaded slot's key, and the new
    visit is inserted.  ([updated_at], which the handler also assigns, is
    not a column of the table.) *)
Definition book_schedule_write (loaded : AppointmentSchedule * Z) (db : Database)
  : Database :=
  let (schedule, sid) := loaded in
  let schedules' :=
    update_where (fun s => schedule_id s =? schedule_id schedule)
      (set_student_id (Some sid)) (appointment_schedules db) in
  let new_visit :=
    mkClinicVisit 0 sid (doctor_id schedule) (Some (schedule_id schedule))
      (date_ schedule) VisitStatus.pending in
  with_clinic_visits (insert_visit (clinic_visits db) new_visit)
    (with_appointment_schedules schedules' db).

(** POST /students/schedules.  The commit is inside the [async with]
    block, and the [db.refresh(schedule)] that follows it is refused. *)
Definition book_schedule (current_user : CurrentUser) (booking_schedule_id : Z)
  (db : Database) : Result AppointmentSchedule * Database :=
  match book_schedule_read current_user booking_schedule_id db with
  | Raise e => (Raise e, db)
  | OK loaded =>
      (schedule <- refresh_in_closed_block (fst loaded) ;; OK schedule,
       book_schedule_write loaded db)
  end.

(** What [create_visit_and_complaint] holds when it starts writing. *)
Record ComplaintClaim : Type := mkComplaintClaim {
  cc_schedule : AppointmentSchedule;
  cc_student_id : Z;
  cc_description : string
}.

(** The [try] block of [create_visit_and_complaint] up to its first write. *)
Definition create_visit_and_complaint_checks (current_student : CurrentUser)
  (payload_schedule_id : Z) (payload_description : string) (db : Database)
  : Result ComplaintClaim :=
  schedule <-
    scalar_one_or_none
      (select_where
         (fun s =>
            (schedule_id s =? payload_schedule_id)
            && AppointmentStatus.eqb (status s) AppointmentStatus.available)
         (appointment_schedules db)) ;;
  match schedule with
  | None => Raise (HTTPException 404 "Schedule not available")
  | Some schedule =>
      sid <- attr_student_id current_student ;;
      existing_visit <-
        scalar_one_or_none
          (select_where
             (fun v =>
                column_eq (cv_schedule_id v) payload_schedule_id
                && (cv_student_id v =? sid))
             (clinic_visits db)) ;;
      match existing_visit with
      | Some _ => Raise (HTTPException 400 "You already booked this slot")
      | None => OK (mkComplaintClaim schedule sid payload_description)
      end
  end.

(** The same, inside [try: ... except Exception as e:]. *)
Definition create_visit_and_complaint_read (current_student : CurrentUser)
  (payload_schedule_id : Z) (payload_description : string) (db : Database)
  : Result ComplaintClaim :=
  except_Exception
    (create_visit_and_complaint_checks current_student payload_schedule_id
       payload_description db)
    (HTTPException 500 "Internal error while creating visit").

(** The writes of [create_visit_and_complaint] and its commit: the visit,
    the complaint that refers to it, and the changed attributes
    [student_id] and [status] of the loaded slot. *)
Definition create_visit_and_complaint_write (c : ComplaintClaim) (db : Database)
  : ClinicVisit * Database :=
  let schedule := cc_schedule c in
  let visit :=
    set_visit_id (next_id (map visit_id (clinic_visits db)))
      (mkClinicVisit 0 (cc_student_id c) (doctor_id schedule)
         (Some (schedule_id schedule)) (date_ schedule) VisitStatus.pending) in
  let visits' := clinic_visits db ++ [visit] in
  let complaint :=
    mkStudentComplaint (next_id (map complaint_id (complaints db)))
      (visit_id visit) (cc_student_id c) (cc_description c) in
  let schedules' :=
    update_where (fun s => schedule_id s =? schedule_id schedule)
      (fun s =>
         set_status AppointmentStatus.booked
           (set_student_id (Some (cc_student_id c)) s))
      (appointment_schedules db) in
  let db' :=
    with_appointment_schedules schedules'
      (with_complaints (complaints db ++ [complaint])
         (with_clinic_visits visits' db)) in
  (refresh_visit visit visits', db').

Definition create_visit_and_complaint (current_student : CurrentUser)
  (payload_schedule_id : Z) (payload_description : string) (db : Database)
  : Result ClinicVisit * Database :=
  match
    create_visit_and_complaint_read current_student payload_schedule_id
      payload_description db
  with
  | Raise e => (Raise e, db)
  | OK c =>
      let (visit, db') := create_visit_and_complaint_write c db in
      (OK visit, db')
  end.

(** [ORDER BY date ASC, start_time ASC] *)
Definition date_start_leb (a b : AppointmentSchedule) : bool :=
  (date_ a <? date_ b)
  || ((date_ a =? date_ b) && (start_time a <=? start_time b)).

(** GET /students/schedules/available; [today] is [date.today()].  The
    answer also carries the doctor's user name, read from the users table,
    which is not part of the rows here. *)
Definition get_student_available_schedules (today : date) (db : Database)
  : list AppointmentSchedule :=
  order_by date_start_leb
    (select_where
       (fun s =>
          AppointmentStatus.eqb (status s) AppointmentStatus.available
          && (date_ s >=? today))
       (appointment_schedules db)).

(** POST /students/visits.  As in [book_schedule], the handler opens
    [async with db.begin():], commits inside the block and then calls
    [db.refresh(new_visit)]. *)
Definition create_visit (visit : ClinicVisitCreate) (current_user : CurrentUser)
  (db : Database) : Result ClinicVisit * Database :=
  if negb (String.eqb (cu_role current_user) "student") then
    (Raise (HTTPException 403 "Student access required"), db)
  else
    match
      (_ <- begin request_session ;;
       schedule <-
         scalar_one_or_none
           (select_where
              (fun s => pk_eq (schedule_id s) (cvc_schedule_id visit))
              (appointment_schedules db)) ;;
       match schedule with
       | None => Raise (HTTPException 400 "Invalid schedule_id")
       | Some schedule =>
           if negb (cvc_visit_date visit =? date_ schedule) then
             Raise (HTTPException 400 "Visit date must match schedule date")
           else
             match
               select_where
                 (fun v =>
                    column_eq_opt (cv_schedule_id v) (cvc_schedule_id visit)
                    && (visit_date v =? cvc_visit_date visit))
                 (clinic_visits db)
             with
             | _ :: _ => Raise (HTTPException 400 "Schedule is already booked")
             | [] =>
                 sid <- attr_student_id current_user ;;
                 OK (schedule, sid)
             end
       end)
    with
    | Raise e => (Raise e, db)
    | OK (schedule, sid) =>
        let new_visit :=
          set_visit_id (next_id (map visit_id (clinic_visits db)))
            (mkClinicVisit 0 sid (doctor_id schedule) (cvc_schedule_id visit)
               (cvc_visit_date visit) VisitStatus.pending) in
        let visits' := clinic_visits db ++ [new_visit] in
        (new_visit <- refresh_in_closed_block new_visit ;; OK new_visit,
         with_clinic_visits visits' db)
    end.

End Student.

(** ** [routers/doctor.py] *)

Module Doctor.

Definition get_current_doctor (current_user : CurrentUser) : Result CurrentUser :=
  if negb (String.eqb (cu_role current_user) "doctor") then
    Raise (HTTPException 403 "Not authorized to perform this action")
  else OK current_user.

(** Request body [schemas.AppointmentScheduleCreate]. *)
Record AppointmentScheduleCreate : Type := mkAppointmentScheduleCreate {
  asc_availability_id : Z;
  asc_date : date;
  asc_start_time : time;
  asc_end_time : time
}.

(** The validator of its [date] field, run when the request is parsed;
    [today] is [datetime.now().date()]. *)
Definition validate_date_not_in_past (today : date) (v : date) : Result date :=
  if v <? today then Raise (ValueError "Date cannot be in the past") else OK v.

Definition weekday_names : list string :=
  ["Monday"; "Tuesday"; "Wednesday"; "Thursday"; "Friday"; "Saturday";
   "Sunday"]%string.

(** The overlap query of [create_schedule]. *)
Definition overlaps_request (doctor : string) (schedule : AppointmentScheduleCreate)
  (s : AppointmentSchedule) : bool :=
  String.eqb (doctor_id s) doctor
  && (date_ s =? asc_date schedule)
  && (start_time s <? asc_end_time schedule)
  && (end_time s >? asc_start_time schedule).

(** The [try] block of [create_schedule]. *)
Definition create_schedule_try (schedule : AppointmentScheduleCreate)
  (current_user : CurrentUser) (db : Database)
  : Result (AppointmentSchedule * Database) :=
  uid <- attr_user_id current_user ;;
  availability <-
    scalar_one_or_none
      (select_where
         (fun a =>
            (av_availability_id a =? asc_availability_id schedule)
            && String.eqb (av_doctor_id a) uid
            && AvailabilityStatus.eqb (av_status a) AvailabilityStatus.active)
         (availabilities db)) ;;
  match availability with
  | None => Raise (HTTPException 404 "Availability not found or not active")
  | Some availability =>
      let schedule_day_name :=
        nth (Z.to_nat (weekday (asc_date schedule))) weekday_names EmptyString in
      if negb
           (String.eqb schedule_day_name
              (DayOfWeek.value (av_day_of_week availability)))
      then
        Raise
          (HTTPException 400
             "Schedule date doesn't match availability day of week")
      else if (asc_start_time schedule <? av_start_time availability)
              || (asc_end_time schedule >? av_end_time availability)
      then
        Raise
          (HTTPException 400
             "Schedule time must fall within availability hours")
      else
        existing_schedule <-
          scalar_one_or_none
            (select_where (overlaps_request uid schedule)
               (appointment_schedules db)) ;;
        match existing_schedule with
        | Some _ =>
            Raise (HTTPException 409 "Schedule overlaps with existing slot")
        | None =>
            let db_schedule :=
              mkAppointmentSchedule 0 uid None
                (Some (asc_availability_id schedule)) (asc_start_time schedule)
                (asc_end_time schedule) (asc_date schedule)
                AppointmentStatus.available in
            let table' :=
              insert_schedule (appointment_schedules db) db_schedule in
            OK (last table' db_schedule, with_appointment_schedules table' db)
        end
  end.

Definition create_schedule (schedule : AppointmentScheduleCreate)
  (current_user : CurrentUser) (db : Database)
  : Result AppointmentSchedule * Database :=
  match get_current_doctor current_user with
  | Raise e => (Raise e, db)
  | OK current_user =>
      if asc_start_time schedule >=? asc_end_time schedule then
        (Raise (HTTPException 400 "Start time must be before end time"), db)
      else
        match
          except_HTTPException_reraise
            (create_schedule_try schedule current_user db)
            (HTTPException 500 "Failed to create schedule")
        with
        | Raise e => (Raise e, db)
        | OK (db_schedule, db') => (OK db_schedule, db')
        end
  end.

Definition cancel_schedule (schedule_id_ : Z) (current_user : CurrentUser)
  (db : Database) : Result AppointmentSchedule * Database :=
  match
    (current_user <- get_current_doctor current_user ;;
     schedule <-
       scalar_one_or_none
         (select_where (fun s => schedule_id s =? schedule_id_)
            (appointment_schedules db)) ;;
     match schedule with
     | None => Raise (HTTPException 404 "Schedule not found")
     | Some schedule =>
         uid <- attr_user_id current_user ;;
         if negb (String.eqb (doctor_id schedule) uid) then
           Raise (HTTPException 403 "Not authorized to cancel this schedule")
         else if AppointmentStatus.eqb (status schedule)
                   AppointmentStatus.cancelled
         then Raise (HTTPException 400 "Schedule is already cancelled")
         else OK schedule
     end)
  with
  | Raise e => (Raise e, db)
  | OK schedule =>
      let table' :=
        update_where (fun s => schedule_id s =? schedule_id schedule)
          (set_status AppointmentStatus.cancelled) (appointment_schedules db) in
      (OK (refresh_schedule schedule table'),
       with_appointment_schedules table' db)
  end.

(** The closing step shared by [complete_visit] and [create_diagnosis]:
    [if visit.schedule_id:] look the slot up and set it to completed.  The
    database passed in is already committed, and stays when the look-up
    raises. *)
Definition complete_linked_schedule (visit : ClinicVisit) (db : Database)
  : Result unit * Database :=
  match truthy (cv_schedule_id visit) with
  | None => (OK tt, db)
  | Some sid =>
      match
        scalar_one_or_none
          (select_where (fun s => schedule_id s =? sid)
             (appointment_schedules db))
      with
      | Raise e => (Raise e, db)
      | OK None => (OK tt, db)
      | OK (Some schedule) =>
          (OK tt,
           with_appointment_schedules
             (update_where (fun s => schedule_id s =? schedule_id schedule)
                (set_status AppointmentStatus.completed)
                (appointment_schedules db))
             db)
      end
  end.

Definition complete_visit (visit_id_ : Z) (current_user : CurrentUser)
  (db : Database) : Result ClinicVisit * Database :=
  match
    (current_user <- get_current_doctor current_user ;;
     uid <- attr_user_id current_user ;;
     visit <-
       scalar_one_or_none
         (select_where
            (fun v =>
               (visit_id v =? visit_id_)
               && String.eqb (cv_doctor_id v) uid
               && VisitStatus.eqb (cv_status v) VisitStatus.pending)
            (clinic_visits db)) ;;
     match visit with
     | None =>
         Raise
           (HTTPException 404
              "Visit not found, not assigned to this doctor, or not pending")
     | Some visit => OK visit
     end)
  with
  | Raise e => (Raise e, db)
  | OK visit =>
      let visits' :=
        update_where (fun v => visit_id v =? visit_id visit)
          (set_visit_status VisitStatus.completed) (clinic_visits db) in
      let db1 := with_clinic_visits visits' db in
      let visit := refresh_visit visit visits' in
      match complete_linked_schedule visit db1 with
      | (Raise e, db2) => (Raise e, db2)
      | (OK _, db2) => (OK visit, db2)
      end
  end.

(** Request body [schemas.DiagnosisCreate]. *)
Record DiagnosisCreate : Type := mkDiagnosisCreate {
  dc_visit_id : Z;
  dc_complaint_id : Z;
  dc_student_id : Z;
  dc_diagnosis_description : string;
  dc_treatment_plan : option string
}.

(** The foreign key [diagnoses.complaint_id -> complaints]: the INSERT of
    a diagnosis needs the complaint it names. *)
Definition complaint_exists (cid : Z) (db : Database) : bool :=
  existsb (fun c => complaint_id c =? cid) (complaints db).

(** POST /doctor/diagnoses.  The first [db.commit()] is inside
    [try: ... except Exception as e:]; when the INSERT breaks the foreign
    key on [complaint_id] the handler rolls back and answers 500.  The
    other references of the new row are to the visit that was just read,
    to its student and to the caller. *)
Definition create_diagnosis (diagnosis : DiagnosisCreate)
  (current_user : CurrentUser) (db : Database)
  : Result DoctorDiagnosis * Database :=
  match
    (current_user <- get_current_doctor current_user ;;
     uid <- attr_user_id current_user ;;
     visit <-
       scalar_one_or_none
         (select_where
            (fun v =>
               (visit_id v =? dc_visit_id diagnosis)
               && String.eqb (cv_doctor_id v) uid)
            (clinic_visits db)) ;;
     match visit with
     | None =>
         Raise
           (HTTPException 404 "Visit not found or not assigned to this doctor")
     | Some visit =>
         if negb (cv_student_id visit =? dc_student_id diagnosis) then
           Raise (HTTPException 400 "Student ID does not match visit")
         else OK (visit, uid)
     end)
  with
  | Raise e => (Raise e, db)
  | OK (visit, uid) =>
      let db_diagnosis :=
        mkDoctorDiagnosis (next_id (map diagnosis_id (diagnoses db)))
          (dc_visit_id diagnosis) (dc_student_id diagnosis)
          (dc_complaint_id diagnosis) uid (dc_diagnosis_description diagnosis)
          (dc_treatment_plan diagnosis) in
      if negb (complaint_exists (dc_complaint_id diagnosis) db) then
        (Raise
           (HTTPException 500
              (String.append "Error creating diagnosis: "
                 (str (IntegrityError "diagnoses_complaint_id_fkey")))),
         db)
      else
      let db1 := with_diagnoses (diagnoses db ++ [db_diagnosis]) db in
      match complete_linked_schedule visit db1 with
      | (Raise e, db2) =>
          (Raise
             (HTTPException 500
                (String.append "Error creating diagnosis: " (str e))),
           db2)
      | (OK _, db2) => (OK db_diagnosis, db2)
      end
  end.

(** Request body [schemas.AvailabilityCreate]; [status] defaults to
    active. *)
Record AvailabilityCreate : Type := mkAvailabilityCreate {
  ac_day_of_week : DayOfWeek.t;
  ac_start_time : time;
  ac_end_time : time;
  ac_status : AvailabilityStatus.t
}.

(** The overlap query of [create_availability]. *)
Definition overlaps_window_request (doctor : string)
  (availability : AvailabilityCreate) (w : Availability) : bool :=
  String.eqb (av_doctor_id w) doctor
  && DayOfWeek.eqb (av_day_of_week w) (ac_day_of_week availability)
  && (av_start_time w <? ac_end_time availability)
  && (av_end_time w >? ac_start_time availability).

(** POST /doctor/availabilities *)
Definition create_availability (availability : AvailabilityCreate)
  (current_user : CurrentUser) (db : Database) : Result Availability * Database :=
  match get_current_doctor current_user with
  | Raise e => (Raise e, db)
  | OK current_user =>
      if ac_start_time availability >=? ac_end_time availability then
        (Raise (HTTPException 400 "Start time must be before end time"), db)
      else
        match
          (uid <- attr_user_id current_user ;;
           existing <-
             scalar_one_or_none
               (select_where (overlaps_window_request uid availability)
                  (availabilities db)) ;;
           match existing with
           | Some _ =>
               Raise
                 (HTTPException 409 "Availability overlaps with existing slot")
           | None => OK uid
           end)
        with
        | Raise e => (Raise e, db)
        | OK uid =>
            let db_availability :=
              mkAvailability
                (next_id (map av_availability_id (availabilities db))) uid
                (ac_day_of_week availability) (ac_start_time availability)
                (ac_end_time availability) (ac_status availability) in
            (OK db_availability,
             with_availabilities (availabilities db ++ [db_availability]) db)
        end
  end.

(** GET /doctor/availabilities *)
Definition get_availabilities (current_user : CurrentUser) (db : Database)
  : Result (list Availability) :=
  current_user <- get_current_doctor current_user ;;
  uid <- attr_user_id current_user ;;
  OK (select_where (fun a => String.eqb (av_doctor_id a) uid) (availabilities db)).

(** DELETE /doctor/availability/{availability_id}.  The handler body is
    one [async with db.begin():] block.  [db.delete(availability)] on a
    window whose relationship [schedules] has no delete cascade sets
    [availability_id] of the window's slots to NULL before the window's
    row is removed. *)
Definition delete_availability (availability_id_ : Z) (current_user : CurrentUser)
  (db : Database) : Result string * Database :=
  match
    (current_user <- get_current_doctor current_user ;;
     _ <- begin request_session ;;
     uid <- attr_user_id current_user ;;
     availability <-
       scalar_one_or_none
         (select_where
            (fun a =>
               (av_availability_id a =? availability_id_)
               && String.eqb (av_doctor_id a) uid)
            (availabilities db)) ;;
     match availability with
     | None => Raise (HTTPException 404 "Availability not found")
     | Some availability => OK availability
     end)
  with
  | Raise e => (Raise e, db)
  | OK availability =>
      (OK "Availability deleted"%string,
       with_availabilities
         (delete_where
            (fun a => av_availability_id a =? av_availability_id availability)
            (availabilities db))
         (with_appointment_schedules
            (update_where
               (fun s =>
                  column_eq (availability_id s)
                    (av_availability_id availability))
               (set_availability_id None) (appointment_schedules db))
            db))
  end.

(** GET /doctor/visits/{visit_id}/diagnoses *)
Definition get_diagnoses_by_visit (visit_id_ : Z) (current_user : CurrentUser)
  (db : Database) : Result (list DoctorDiagnosis) :=
  current_user <- get_current_doctor current_user ;;
  uid <- attr_user_id current_user ;;
  visit <-
    scalar_one_or_none
      (select_where
         (fun v => (visit_id v =? visit_id_) && String.eqb (cv_doctor_id v) uid)
         (clinic_visits db)) ;;
  match visit with
  | None =>
      Raise (HTTPException 404 "Visit not found or not assigned to this doctor")
  | Some _ =>
      OK (select_where (fun d => dd_visit_id d =? visit_id_) (diagnoses db))
  end.

End Doctor.

Import Student Doctor.

(** ** Vocabulary of the properties *)

(** Length of a slot, in microseconds. *)
Definition SLOT : Z := timedelta_minutes 20.

(** Position of a day in the week, as [date.weekday()] numbers it. *)
Definition day_index (d : DayOfWeek.t) : Z :=
  match d with
  | DayOfWeek.Monday => 0
  | DayOfWeek.Tuesday => 1
  | DayOfWeek.Wednesday => 2
  | DayOfWeek.Thursday => 3
  | DayOfWeek.Friday => 4
  | DayOfWeek.Saturday => 5
  | DayOfWeek.Sunday => 6
  end.

(** The first [k] consecutive 20-minute intervals from [start]. *)
Fixpoint sub_intervals (start : datetime) (k : nat) : list (datetime * datetime) :=
  match k with
  | O => []
  | S k' => (start, start + SLOT) :: sub_intervals (start + SLOT) k'
  end.

(** The [i]-th slot of a window on a date: the window's start plus [i]
    slot lengths, one slot long. *)
Definition window_slot (avail : Availability) (d : date) (i : Z)
  : AppointmentSchedule :=
  mkAppointmentSchedule 0 (av_doctor_id avail) None
    (Some (av_availability_id avail)) (av_start_time avail + i * SLOT)
    (av_start_time avail + (i + 1) * SLOT) d AppointmentStatus.available.

(** Number of whole slots between two instants. *)
Definition slot_count (start end_ : datetime) : nat :=
  Z.to_nat ((end_ - start) / SLOT).

(** One pass of the loop body of [slot_loop] on a given interval. *)
Definition add_slot (table : list AppointmentSchedule) (avail : Availability)
  (schedule_date : date) (iv : datetime * datetime)
  (session_new : list AppointmentSchedule) : Result (list AppointmentSchedule) :=
  existing <-
    scalar_one_or_none
      (select_where
         (filter_by_slot (av_doctor_id avail) schedule_date (time_of (fst iv))
            (time_of (snd iv)))
         table) ;;
  OK (match existing with
      | None =>
          session_new ++ [new_slot avail schedule_date (fst iv) (snd iv)]
      | Some _ => session_new
      end).

(** A candidate slot of a run: the window, the date and the interval. *)
Definition Candidate : Type := (Availability * date * (datetime * datetime))%type.

Definition candidates_of_availability (today : date) (avail : Availability)
  : list Candidate :=
  flat_map
    (fun d =>
       map (fun iv => (avail, d, iv))
         (sub_intervals (combine d (av_start_time avail))
            (slot_count (combine d (av_start_time avail))
               (combine d (av_end_time avail)))))
    (get_next_week_dates_for_day today (DayOfWeek.value (av_day_of_week avail))).

Definition active_availabilities (db : Database) : list Availability :=
  select_where
    (fun a => AvailabilityStatus.eqb (av_status a) AvailabilityStatus.active)
    (availabilities db).

Definition candidates (today : date) (db : Database) : list Candidate :=
  flat_map (candidates_of_availability today) (active_availabilities db).

(** The (doctor, date, start, end) tuple of a candidate and of a slot. *)
Definition SlotKey : Type := (string * date * time * time)%type.

Definition candidate_key (c : Candidate) : SlotKey :=
  let '(avail, d, iv) := c in
  (av_doctor_id avail, d, time_of (fst iv), time_of (snd iv)).

Definition slot_key (s : AppointmentSchedule) : SlotKey :=
  (doctor_id s, date_ s, start_time s, end_time s).

Definition has_key (k : SlotKey) (s : AppointmentSchedule) : bool :=
  let '(doc, d, st, en) := k in filter_by_slot doc d st en s.

Definition candidate_slot (c : Candidate) : AppointmentSchedule :=
  let '(avail, d, iv) := c in new_slot avail d (fst iv) (snd iv).

Definition add_candidate (table : list AppointmentSchedule) (c : Candidate)
  (session_new : list AppointmentSchedule) : Result (list AppointmentSchedule) :=
  let '(avail, d, iv) := c in add_slot table avail d iv session_new.

(** The candidate has no slot in the table yet. *)
Definition absent (table : list AppointmentSchedule) (c : Candidate) : bool :=
  match select_where (has_key (candidate_key c)) table with
  | [] => true
  | _ :: _ => false
  end.

(** Two slots of one doctor on one date whose time ranges overlap (the test
    of the overlap query of [create_schedule]). *)
Definition overlaps (a b : AppointmentSchedule) : bool :=
  String.eqb (doctor_id a) (doctor_id b)
  && (date_ a =? date_ b)
  && (start_time a <? end_time b)
  && (end_time a >? start_time b).

Definition no_overlap (table : list AppointmentSchedule) : Prop :=
  ForallOrdPairs (fun a b => overlaps a b = false) table.

(** [schedule_id] and [visit_id] are primary keys. *)
Definition schedules_pk (db : Database) : Prop :=
  NoDup (map schedule_id (appointment_schedules db)).

Definition visits_pk (db : Database) : Prop :=
  NoDup (map visit_id (clinic_visits db)).

(** The slot with a given id, and the visits linked to it. *)
Definition slot_rows (sid : Z) (db : Database) : list AppointmentSchedule :=
  select_where (fun s => schedule_id s =? sid) (appointment_schedules db).

Definition linked_visits (sid : Z) (db : Database) : list ClinicVisit :=
  select_where (fun v => column_eq (cv_schedule_id v) sid) (clinic_visits db).

(** The slot table after the closing step that marks the slot of a visit
    completed. *)
Definition slots_after_completion (visit : ClinicVisit)
  (table : list AppointmentSchedule) : list AppointmentSchedule :=
  match truthy (cv_schedule_id visit) with
  | Some sid =>
      update_where (fun s => schedule_id s =? sid)
        (set_status AppointmentStatus.completed) table
  | None => table
  end.

(** The query of [complete_visit]. *)
Definition pending_visit_of (vid : Z) (uid : string) (v : ClinicVisit) : bool :=
  (visit_id v =? vid) && String.eqb (cv_doctor_id v) uid
  && VisitStatus.eqb (cv_status v) VisitStatus.pending.

(** ** Two claim requests on one slot *)

Inductive Endpoint : Type := POST_students_schedules | POST_students_complaints.

Record ClaimRequest : Type := mkClaimRequest {
  cr_endpoint : Endpoint;
  cr_user : CurrentUser;
  cr_schedule_id : Z;
  cr_description : string
}.

(** What a request holds between its queries and its commit. *)
Inductive Loaded : Type :=
| LoadedBooking (l : AppointmentSchedule * Z)
| LoadedComplaint (c : ComplaintClaim).

Definition claim_read (r : ClaimRequest) (db : Database) : Result Loaded :=
  match cr_endpoint r with
  | POST_students_schedules =>
      l <- book_schedule_read (cr_user r) (cr_schedule_id r) db ;;
      OK (LoadedBooking l)
  | POST_students_complaints =>
      c <- create_visit_and_complaint_read (cr_user r) (cr_schedule_id r)
             (cr_description r) db ;;
      OK (LoadedComplaint c)
  end.

Definition claim_commit (l : Result Loaded) (db : Database)
  : Result unit * Database :=
  match l with
  | Raise e => (Raise e, db)
  | OK (LoadedBooking l) =>
      (_ <- refresh_in_closed_block (fst l) ;; OK tt, book_schedule_write l db)
  | OK (LoadedComplaint c) => (OK tt, snd (create_visit_and_complaint_write c db))
  end.

(** One request run on its own: the handler of its endpoint. *)
Definition claim (r : ClaimRequest) (db : Database) : Result unit * Database :=
  match cr_endpoint r with
  | POST_students_schedules =>
      let (res, db') := book_schedule (cr_user r) (cr_schedule_id r) db in
      (_ <- res ;; OK tt, db')
  | POST_students_complaints =>
      let (res, db') :=
        create_visit_and_complaint (cr_user r) (cr_schedule_id r)
          (cr_description r) db in
      (_ <- res ;; OK tt, db')
  end.

(** How the two requests meet: the second starts after the first has
    committed, or both run their queries before either commits. *)
Inductive Schedule : Type := Serial | Overlapped.

Definition run_two (sch : Schedule) (r1 r2 : ClaimRequest) (db : Database)
  : Result unit * Result unit * Database :=
  match sch with
  | Serial =>
      let (o1, db1) := claim r1 db in
      let (o2, db2) := claim r2 db1 in
      (o1, o2, db2)
  | Overlapped =>
      let l1 := claim_read r1 db in
      let l2 := claim_read r2 db in
      let (o1, db1) := claim_commit l1 db in
      let (o2, db2) := claim_commit l2 db1 in
      (o1, o2, db2)
  end.

(** A slot a claim may take, as the claim puts it. *)
Definition claimable (s : AppointmentSchedule) : Prop :=
  status s = AppointmentStatus.available
  \/ (status s = AppointmentStatus.booked /\ student_id s = None).

(** A typed rejection of the request (an HTTP 4xx answer). *)
Definition rejected (o : Result unit) : Prop :=
  exists c d, o = Raise (HTTPException c d) /\ 400 <= c < 500.

(** Exactly one of the two requests wins, the other is rejected, and the
    slot ends booked with one linked visit. *)
Definition exclusive_outcome (sid : Z) (out : Result unit * Result unit * Database)
  : Prop :=
  let '(o1, o2, db') := out in
  ((o1 = OK tt /\ rejected o2) \/ (rejected o1 /\ o2 = OK tt))
  /\ (exists s, slot_rows sid db' = [s] /\ status s = AppointmentStatus.booked)
  /\ List.length (linked_visits sid db') = 1%nat.

(** ** Vocabulary of the further properties *)

(** Two windows of one doctor on one day of the week whose time ranges
    overlap (the test of the overlap query of [create_availability]). *)
Definition windows_overlap (a b : Availability) : bool :=
  String.eqb (av_doctor_id a) (av_doctor_id b)
  && DayOfWeek.eqb (av_day_of_week a) (av_day_of_week b)
  && (av_start_time a <? av_end_time b)
  && (av_end_time a >? av_start_time b).

Definition windows_no_overlap (windows : list Availability) : Prop :=
  ForallOrdPairs (fun a b => windows_overlap a b = false) windows.

(** The times of a window are times of day. *)
Definition valid_window (w : Availability) : Prop :=
  valid_time (av_start_time w) /\ valid_time (av_end_time w).

(** The condition of the slot cleaner's DELETE. *)
Definition stale (today : date) (s : AppointmentSchedule) : bool :=
  (date_ s <? today)
  && AppointmentStatus.eqb (status s) AppointmentStatus.available.

(** The slots of window [w] for the week after [today]: on the window's
    day of that week, one slot for each whole 20-minute step of the window,
    in order, the [i]-th from [start + 20 i] to [start + 20 (i + 1)]
    minutes; each with the window's doctor and id, no student and status
    available.  The key is unset. *)
Definition tiling (today : date) (w : Availability) : list AppointmentSchedule :=
  map
    (fun i =>
       mkAppointmentSchedule 0 (av_doctor_id w) None
         (Some (av_availability_id w)) (av_start_time w + i * SLOT)
         (av_start_time w + (i + 1) * SLOT)
         (next_monday today + day_index (av_day_of_week w))
         AppointmentStatus.available)
    (range (slot_count (av_start_time w) (av_end_time w))).

(** Row [r] has the columns of [s], under a key of its own. *)
Definition same_but_key (s r : AppointmentSchedule) : Prop :=
  doctor_id r = doctor_id s
  /\ student_id r = student_id s
  /\ availability_id r = availability_id s
  /\ start_time r = start_time s
  /\ end_time r = end_time s
  /\ date_ r = date_ s
  /\ status r = status s.

(** The rows of the table with the (doctor, date, start, end) of [s], and
    whether there is none. *)
Definition rows_like (table : list AppointmentSchedule) (s : AppointmentSchedule)
  : list AppointmentSchedule :=
  select_where
    (fun o =>
       String.eqb (doctor_id o) (doctor_id s) && (date_ o =? date_ s)
       && (start_time o =? start_time s) && (end_time o =? end_time s))
    table.

Definition missing (table : list AppointmentSchedule) (s : AppointmentSchedule)
  : bool :=
  match rows_like table s with
  | [] => true
  | _ :: _ => false
  end.

(** A slot the cleaner's DELETE selects is still referred to by a visit. *)
Definition cleaner_blocked (today : date) (db : Database) : Prop :=
  exists s v,
    In s (appointment_schedules db)
    /\ date_ s < today
    /\ status s = AppointmentStatus.available
    /\ In v (clinic_visits db)
    /\ cv_schedule_id v = Some (schedule_id s).

(** A value of a PostgreSQL INTEGER column or parameter. *)
Definition int32 (n : Z) : Prop := - 2 ^ 31 <= n < 2 ^ 31.

(** The order of GET /students/schedules/available: by date, then by
    start time. *)
Definition date_start_le (a b : AppointmentSchedule) : Prop :=
  date_ a < date_ b \/ (date_ a = date_ b /\ start_time a <= start_time b).

(** The keys of the slot, visit and window tables are unique. *)
Definition keys_unique (db : Database) : Prop :=
  schedules_pk db /\ visits_pk db
  /\ NoDup (map av_availability_id (availabilities db)).

(** The slots the listing of [today] offers. *)
Definition offered (today : date) (s : AppointmentSchedule) : Prop :=
  status s = AppointmentStatus.available /\ today <= date_ s.

(** The slot comes from window [w] in the week after [today]: it is the
    [i]-th slot of the window on the window's day of that week, under some
    key. *)
Definition slot_of_window (today : date) (w : Availability)
  (r : AppointmentSchedule) : Prop :=
  exists i id,
    0 <= i < Z.of_nat (slot_count (av_start_time w) (av_end_time w))
    /\ r = set_schedule_id id
             (window_slot w (next_monday today + day_index (av_day_of_week w)) i).

(** ** Sample data

    Tuesday 2026-11-03 is ordinal day 739923; the Monday after it,
    2026-11-09, is day 739929.  Doctor DOC001 has one active window, Monday
    09:00 to 09:40. *)

Definition ex_today : date := 739923.
Definition ex_monday : date := 739929.

Definition ex_doctor : CurrentUser := mkCurrentUser "doctor" (Some "DOC001"%string) None.
Definition ex_student_a : CurrentUser := mkCurrentUser "student" None (Some 10).
Definition ex_student_b : CurrentUser := mkCurrentUser "student" None (Some 11).

Definition ex_window : Availability :=
  mkAvailability 1 "DOC001" DayOfWeek.Monday (hm 9 0) (hm 9 40)
    AvailabilityStatus.active.

(** Slot 1 of DOC001: next Monday, 09:00 to 09:20. *)
Definition ex_slot (st : AppointmentStatus.t) (student : option Z)
  : AppointmentSchedule :=
  mkAppointmentSchedule 1 "DOC001" student (Some 1) (hm 9 0) (hm 9 20) ex_monday
    st.

(** A slot the doctor entered by hand: next Monday, 09:10 to 09:30. *)
Definition ex_manual_slot : AppointmentSchedule :=
  mkAppointmentSchedule 1 "DOC001" None (Some 1) (hm 9 10) (hm 9 30) ex_monday
    AppointmentStatus.available.

Definition ex_db (slots : list AppointmentSchedule) (visits : list ClinicVisit)
  : Database :=
  mkDatabase [ex_window] slots visits [] [].

(** A pending visit of student 10 with DOC001, linked to slot 1. *)
Definition ex_visit : ClinicVisit :=
  mkClinicVisit 1 10 "DOC001" (Some 1) ex_monday VisitStatus.pending.

Definition ex_claim (e : Endpoint) (u : CurrentUser) : ClaimRequest :=
  mkClaimRequest e u 1 "headache".

(** The complaint of student 10 on visit 1, and a database that has it. *)
Definition ex_complaint : StudentComplaint :=
  mkStudentComplaint 1 1 10 "headache".

Definition ex_db_complaint (slots : list AppointmentSchedule)
  (visits : list ClinicVisit) : Database :=
  mkDatabase [ex_window] slots visits [ex_complaint] [].

(** A diagnosis of visit 1 by DOC001. *)
Definition ex_diagnosis : DiagnosisCreate :=
  mkDiagnosisCreate 1 1 10 "malaria" None.

(** The request that enters [ex_manual_slot]. *)
Definition ex_manual_request : AppointmentScheduleCreate :=
  mkAppointmentScheduleCreate 1 ex_monday (hm 9 10) (hm 9 30).

(** * Properties *)

(** ** The error monad and the loops *)

Lemma bind_assoc {A B C : Type} (m : Result A) (f : A -> Result B)
  (g : B -> Result C) :
  Py.bind (Py.bind m f) g = Py.bind m (fun a => Py.bind (f a) g).
Proof. destruct m; reflexivity. Qed.

Lemma for_each_app {A S : Type} (xs ys : list A) (body : A -> S -> Result S)
  (s : S) :
  for_each (xs ++ ys) body s = Py.bind (for_each xs body s) (for_each ys body).
Proof.
  revert s; induction xs as [|x xs IH]; intros s; simpl.
  - reflexivity.
  - destruct (body x s) as [s'|e]; simpl; [apply IH | reflexivity].
Qed.

Lemma for_each_ext {A S : Type} (xs : list A) (f g : A -> S -> Result S) (s : S) :
  (forall x s', f x s' = g x s') -> for_each xs f s = for_each xs g s.
Proof.
  intros H; revert s; induction xs as [|x xs IH]; intros s; simpl.
  - reflexivity.
  - rewrite H. destruct (g x s); simpl; [apply IH | reflexivity].
Qed.

(** A loop over a [flat_map] is the nested loop. *)
Lemma for_each_flat_map {A B S : Type} (f : A -> list B) (xs : list A)
  (body : B -> S -> Result S) (s : S) :
  for_each (flat_map f xs) body s
  = for_each xs (fun x s' => for_each (f x) body s') s.
Proof.
  revert s; induction xs as [|x xs IH]; intros s; simpl.
  - reflexivity.
  - rewrite for_each_app.
    destruct (for_each (f x) body s); simpl; [apply IH | reflexivity].
Qed.

Lemma for_each_map {A B S : Type} (f : A -> B) (xs : list A)
  (body : B -> S -> Result S) (s : S) :
  for_each (map f xs) body s = for_each xs (fun x s' => body (f x) s') s.
Proof.
  revert s; induction xs as [|x xs IH]; intros s; simpl.
  - reflexivity.
  - destruct (body (f x) s); simpl; [apply IH | reflexivity].
Qed.

(** ** Dates of the coming week *)

Lemma SLOT_value : SLOT = 1200000000.
Proof. reflexivity. Qed.

Lemma weekday_range (d : date) : 0 <= weekday d < 7.
Proof. unfold weekday. apply Z.mod_pos_bound. lia. Qed.

Lemma weekday_next_monday (today : date) : weekday (next_monday today) = 0.
Proof.
  unfold next_monday, timedelta_days, weekday.
  replace (today + (7 - (today + 6) mod 7) + 6)
    with ((today + 6) - (today + 6) mod 7 + 1 * 7) by lia.
  rewrite Z.mod_add by lia.
  rewrite (Z.div_mod (today + 6) 7) at 1 by lia.
  replace (7 * ((today + 6) / 7) + (today + 6) mod 7 - (today + 6) mod 7)
    with (((today + 6) / 7) * 7) by lia.
  apply Z.mod_mul. lia.
Qed.

Lemma next_monday_bounds (today : date) :
  today < next_monday today <= today + 7.
Proof.
  unfold next_monday, timedelta_days.
  pose proof (weekday_range today). lia.
Qed.

Lemma weekday_in_next_week (today : date) (i : Z) :
  0 <= i < 7 -> weekday (next_monday today + timedelta_days i) = i.
Proof.
  intros Hi. pose proof (weekday_next_monday today) as H0.
  unfold weekday, timedelta_days in *.
  replace (next_monday today + i + 6) with (i + (next_monday today + 6)) by lia.
  rewrite Z.add_mod by lia. rewrite H0.
  rewrite Z.add_0_r, Z.mod_mod by lia. apply Z.mod_small. lia.
Qed.

Lemma day_index_range (d : DayOfWeek.t) : 0 <= day_index d < 7.
Proof. destruct d; simpl; lia. Qed.

Lemma calendar_day_name_index (d : DayOfWeek.t) :
  calendar_day_name (day_index d) = DayOfWeek.value d.
Proof. destruct d; reflexivity. Qed.

Lemma next_week_dates (today : date) (d : DayOfWeek.t) :
  get_next_week_dates_for_day today (DayOfWeek.value d)
  = [next_monday today + day_index d].
Proof.
  unfold get_next_week_dates_for_day, range.
  change (map Z.of_nat (seq 0 7)) with [0; 1; 2; 3; 4; 5; 6].
  cbn [filter].
  rewrite !weekday_in_next_week by lia.
  destruct d; reflexivity.
Qed.

(** ** The slot loop *)

Lemma slot_count_zero (start end_ : datetime) :
  slot_count start end_ = O -> end_ - start < SLOT.
Proof.
  unfold slot_count. rewrite SLOT_value. intros H.
  assert (Hq : (end_ - start) / 1200000000 <= 0) by lia.
  pose proof (Z.mod_pos_bound (end_ - start) 1200000000 ltac:(lia)).
  pose proof (Z.div_mod (end_ - start) 1200000000 ltac:(lia)). lia.
Qed.

Lemma slot_count_succ (start end_ : datetime) (k : nat) :
  slot_count start end_ = S k ->
  start + SLOT <= end_ /\ slot_count (start + SLOT) end_ = k.
Proof.
  unfold slot_count. rewrite SLOT_value. intros H.
  assert (Hq : (end_ - start) / 1200000000 = Z.of_nat (S k)) by lia.
  pose proof (Z.mod_pos_bound (end_ - start) 1200000000 ltac:(lia)).
  pose proof (Z.div_mod (end_ - start) 1200000000 ltac:(lia)).
  split; [lia|].
  replace (end_ - (start + 1200000000))
    with (end_ - start + (-1) * 1200000000) by lia.
  rewrite Z.div_add by lia. lia.
Qed.

(** The loop visits the whole slots of the window in order, and any fuel
    above their number gives this result. *)
Lemma slot_loop_unroll (table : list AppointmentSchedule) (avail : Availability)
  (d : date) (end_ : datetime) :
  forall (k fuel : nat) (cur : datetime) (acc : list AppointmentSchedule),
    (k < fuel)%nat ->
    slot_count cur end_ = k ->
    slot_loop fuel table avail d end_ cur acc
    = for_each (sub_intervals cur k) (add_slot table avail d) acc.
Proof.
  induction k as [|k IH]; intros fuel cur acc Hfuel Hk.
  - destruct fuel as [|fuel]; [lia|].
    cbn [slot_loop sub_intervals for_each].
    apply slot_count_zero in Hk. fold SLOT.
    destruct (cur <? end_) eqn:Hlt; [|reflexivity].
    destruct (cur + SLOT >? end_) eqn:Hgt; [reflexivity|]. lia.
  - destruct fuel as [|fuel]; [lia|].
    apply slot_count_succ in Hk. destruct Hk as [Hle Hk].
    pose proof SLOT_value as HS.
    cbn [slot_loop sub_intervals for_each]. fold SLOT.
    destruct (cur <? end_) eqn:Hlt; [|lia].
    destruct (cur + SLOT >? end_) eqn:Hgt; [lia|].
    unfold add_slot. rewrite bind_assoc. cbn [fst snd].
    destruct (scalar_one_or_none _) as [existing|e]; [|reflexivity].
    cbn [Py.bind]. apply IH; [lia | exact Hk].
Qed.

Lemma slot_loop_fuel_stable (table : list AppointmentSchedule)
  (avail : Availability) (d : date) (end_ start : datetime)
  (acc : list AppointmentSchedule) (fuel : nat) :
  (slot_loop_fuel start end_ <= fuel)%nat ->
  slot_loop fuel table avail d end_ start acc
  = slot_loop (slot_loop_fuel start end_) table avail d end_ start acc.
Proof.
  intros Hf. unfold slot_loop_fuel in *. fold SLOT in *.
  fold (slot_count start end_) in *.
  rewrite (slot_loop_unroll table avail d end_ (slot_count start end_) fuel)
    by (lia || reflexivity).
  rewrite (slot_loop_unroll table avail d end_ (slot_count start end_)
             (S (slot_count start end_))) by (lia || reflexivity).
  reflexivity.
Qed.

Lemma generate_for_date_spec (table : list AppointmentSchedule)
  (avail : Availability) (d : date) (acc : list AppointmentSchedule) :
  generate_for_date table avail d acc
  = for_each
      (sub_intervals (combine d (av_start_time avail))
         (slot_count (combine d (av_start_time avail))
            (combine d (av_end_time avail))))
      (add_slot table avail d) acc.
Proof.
  unfold generate_for_date, slot_loop_fuel. fold SLOT.
  apply slot_loop_unroll; [|reflexivity].
  unfold slot_count. lia.
Qed.

(** A run is one loop over its candidates. *)
Lemma generate_session_spec (today : date) (db : Database) :
  generate_session today db
  = for_each (candidates today db) (add_candidate (appointment_schedules db)) [].
Proof.
  unfold generate_session, candidates. fold (active_availabilities db).
  rewrite for_each_flat_map. apply for_each_ext. intros avail acc.
  unfold generate_for_availability, candidates_of_availability.
  rewrite for_each_flat_map. apply for_each_ext. intros d acc'.
  rewrite for_each_map. apply generate_for_date_spec.
Qed.

(** ** Candidates against a fixed table *)

Lemma add_candidate_cases (table : list AppointmentSchedule) (c : Candidate)
  (acc : list AppointmentSchedule) :
  add_candidate table c acc
  = match select_where (has_key (candidate_key c)) table with
    | [] => OK (acc ++ [candidate_slot c])
    | [_] => OK acc
    | _ :: _ :: _ => Raise MultipleResultsFound
    end.
Proof.
  destruct c as [[avail d] iv]. unfold add_candidate, add_slot.
  cbn [candidate_key has_key candidate_slot].
  destruct (select_where _ table) as [|r [|r' rows]]; reflexivity.
Qed.

(** The duplicate check reads the committed table only, so a run that
    completes adds exactly the candidates that are absent from it. *)
Lemma run_candidates_OK (table : list AppointmentSchedule) :
  forall (cands : list Candidate) (acc new : list AppointmentSchedule),
    for_each cands (add_candidate table) acc = OK new ->
    new = acc ++ map candidate_slot (filter (absent table) cands).
Proof.
  induction cands as [|c cands IH]; intros acc new H.
  - simpl in H. injection H as <-. simpl. now rewrite app_nil_r.
  - cbn [for_each] in H. rewrite add_candidate_cases in H.
    cbn [filter]. unfold absent at 1.
    destruct (select_where (has_key (candidate_key c)) table)
      as [|r [|r' rows]]; cbn [Py.bind] in H.
    + apply IH in H. rewrite H. cbn [map]. now rewrite <- app_assoc.
    + apply IH in H. exact H.
    + discriminate.
Qed.

(** When every candidate already has a slot, a run adds nothing: it
    completes with an empty session or stops at a duplicated slot. *)
Lemma run_candidates_present (table : list AppointmentSchedule) :
  forall (cands : list Candidate) (acc : list AppointmentSchedule),
    Forall (fun c => absent table c = false) cands ->
    for_each cands (add_candidate table) acc = OK acc
    \/ for_each cands (add_candidate table) acc = Raise MultipleResultsFound.
Proof.
  induction cands as [|c cands IH]; intros acc H.
  - left; reflexivity.
  - inversion H as [|c' cs Hc Hcs]; subst.
    cbn [for_each]. rewrite add_candidate_cases. unfold absent in Hc.
    destruct (select_where (has_key (candidate_key c)) table)
      as [|r [|r' rows]]; [discriminate| |right; reflexivity].
    cbn [Py.bind]. apply IH; assumption.
Qed.

Lemma run_candidates_unique (table : list AppointmentSchedule) :
  forall (cands : list Candidate) (acc : list AppointmentSchedule),
    Forall
      (fun c =>
         List.length (select_where (has_key (candidate_key c)) table) = 1%nat)
      cands ->
    for_each cands (add_candidate table) acc = OK acc.
Proof.
  induction cands as [|c cands IH]; intros acc H.
  - reflexivity.
  - inversion H as [|c' cs Hc Hcs]; subst.
    cbn [for_each]. rewrite add_candidate_cases.
    destruct (select_where (has_key (candidate_key c)) table)
      as [|r [|r' rows]]; [discriminate| |discriminate].
    cbn [Py.bind]. apply IH; assumption.
Qed.

(** ** Flushing new slots *)

Lemma has_key_set_schedule_id (k : SlotKey) (i : Z) (s : AppointmentSchedule) :
  has_key k (set_schedule_id i s) = has_key k s.
Proof. destruct k as [[[doc d] st] en]. reflexivity. Qed.

Lemma has_key_candidate_slot (c : Candidate) :
  has_key (candidate_key c) (candidate_slot c) = true.
Proof.
  destruct c as [[avail d] iv]. cbn.
  unfold filter_by_slot. cbn.
  now rewrite String.eqb_refl, !Z.eqb_refl.
Qed.

Lemma has_key_slot_key (k : SlotKey) (s : AppointmentSchedule) :
  has_key k s = true <-> slot_key s = k.
Proof.
  destruct k as [[[doc d] st] en]. unfold has_key, filter_by_slot, slot_key.
  rewrite !andb_true_iff, String.eqb_eq, !Z.eqb_eq.
  split; [intros [[[-> ->] ->] ->]; reflexivity | intros [= -> -> -> ->]; auto].
Qed.

(** The flush appends the new slots in order, each with a key of its own
    and its other columns as they were. *)
Lemma insert_schedules_spec :
  forall (new table : list AppointmentSchedule),
    exists new',
      insert_schedules table new = table ++ new'
      /\ Forall2 (fun r r' => exists i, r' = set_schedule_id i r) new new'.
Proof.
  induction new as [|r new IH]; intros table.
  - exists []. split; [simpl; now rewrite app_nil_r | constructor].
  - destruct (IH (insert_schedule table r)) as [new' [Heq HF]].
    exists (set_schedule_id (next_id (map schedule_id table)) r :: new').
    split.
    + unfold insert_schedules in *. cbn [fold_left]. rewrite Heq.
      unfold insert_schedule. now rewrite <- app_assoc.
    + constructor; [eexists; reflexivity | exact HF].
Qed.

Lemma select_has_key_insert (k : SlotKey) :
  forall (new table : list AppointmentSchedule),
    List.length (select_where (has_key k) (insert_schedules table new))
    = (List.length (select_where (has_key k) table)
       + List.length (select_where (has_key k) new))%nat.
Proof.
  induction new as [|r new IH]; intros table.
  - simpl. lia.
  - unfold insert_schedules in *. cbn [fold_left]. rewrite IH.
    unfold insert_schedule, select_where. rewrite filter_app, length_app.
    cbn [filter]. rewrite has_key_set_schedule_id.
    destruct (has_key k r); simpl; lia.
Qed.

Lemma slot_key_candidate_slot (c : Candidate) :
  slot_key (candidate_slot c) = candidate_key c.
Proof. destruct c as [[avail d] iv]. reflexivity. Qed.

Lemma has_key_candidate_slot_iff (k : SlotKey) (c : Candidate) :
  has_key k (candidate_slot c) = true <-> candidate_key c = k.
Proof. now rewrite has_key_slot_key, slot_key_candidate_slot. Qed.

Lemma absent_length (table : list AppointmentSchedule) (c : Candidate) :
  absent table c = true
  <-> List.length (select_where (has_key (candidate_key c)) table) = O.
Proof.
  unfold absent.
  destruct (select_where (has_key (candidate_key c)) table); simpl;
    split; intros H; (reflexivity || discriminate).
Qed.

Lemma run_candidates_OK_at_most_one (table : list AppointmentSchedule) :
  forall (cands : list Candidate) (acc new : list AppointmentSchedule),
    for_each cands (add_candidate table) acc = OK new ->
    Forall
      (fun c =>
         (List.length (select_where (has_key (candidate_key c)) table) <= 1)%nat)
      cands.
Proof.
  induction cands as [|c cands IH]; intros acc new H; constructor.
  - cbn [for_each] in H. rewrite add_candidate_cases in H.
    destruct (select_where (has_key (candidate_key c)) table)
      as [|r [|r' rows]]; simpl; try lia. discriminate.
  - cbn [for_each] in H.
    destruct (add_candidate table c acc) as [acc'|e]; [|discriminate].
    exact (IH _ _ H).
Qed.

Lemma select_where_cons {A : Type} (cond : A -> bool) (x : A) (l : list A) :
  select_where cond (x :: l)
  = if cond x then x :: select_where cond l else select_where cond l.
Proof. reflexivity. Qed.

Lemma select_other_keys (k : SlotKey) (P : Candidate -> bool) :
  forall cands : list Candidate,
    ~ In k (map candidate_key cands) ->
    select_where (has_key k) (map candidate_slot (filter P cands)) = [].
Proof.
  induction cands as [|c cands IH]; intros Hk; [reflexivity|].
  cbn [map In] in Hk. cbn [filter].
  assert (Hc : has_key k (candidate_slot c) = false).
  { destruct (has_key k (candidate_slot c)) eqn:E; [|reflexivity].
    apply has_key_candidate_slot_iff in E. tauto. }
  destruct (P c); cbn [map].
  - rewrite select_where_cons, Hc. apply IH. tauto.
  - apply IH. tauto.
Qed.

(** Among candidates with pairwise different tuples, a candidate's tuple is
    found once in the kept ones if the candidate is kept, and not at all
    otherwise. *)
Lemma select_own_key (P : Candidate -> bool) :
  forall cands : list Candidate,
    NoDup (map candidate_key cands) ->
    forall c, In c cands ->
      List.length
        (select_where (has_key (candidate_key c))
           (map candidate_slot (filter P cands)))
      = if P c then 1%nat else O.
Proof.
  induction cands as [|c0 cands IH]; intros Hnd c Hin; [destruct Hin|].
  cbn [map] in Hnd. inversion Hnd as [|k ks Hnotin Hnd']; subst.
  destruct Hin as [<-|Hin].
  - pose proof (select_other_keys (candidate_key c0) P cands Hnotin) as Hrest.
    cbn [filter]. destruct (P c0); cbn [map].
    + rewrite select_where_cons, has_key_candidate_slot. cbn [List.length].
      now rewrite Hrest.
    + now rewrite Hrest.
  - assert (Hne : candidate_key c0 <> candidate_key c).
    { intros E. apply Hnotin. rewrite E. now apply in_map. }
    assert (Hc : has_key (candidate_key c) (candidate_slot c0) = false).
    { destruct (has_key (candidate_key c) (candidate_slot c0)) eqn:E;
        [|reflexivity].
      apply has_key_candidate_slot_iff in E. tauto. }
    cbn [filter]. destruct (P c0); cbn [map].
    + rewrite select_where_cons, Hc. now apply IH.
    + now apply IH.
Qed.

Lemma with_appointment_schedules_same (db : Database) :
  with_appointment_schedules (appointment_schedules db) db = db.
Proof. destruct db; reflexivity. Qed.

Lemma candidates_with_appointment_schedules (today : date)
  (table : list AppointmentSchedule) (db : Database) :
  candidates today (with_appointment_schedules table db) = candidates today db.
Proof. reflexivity. Qed.

(** After a completed run every candidate has a slot. *)
Lemma candidates_present_after_run (today : date) (db : Database)
  (new : list AppointmentSchedule) :
  generate_session today db = OK new ->
  Forall
    (fun c =>
       absent (insert_schedules (appointment_schedules db) new) c = false)
    (candidates today db).
Proof.
  intros Hrun. rewrite generate_session_spec in Hrun.
  apply run_candidates_OK in Hrun. cbn [app] in Hrun.
  apply Forall_forall. intros c Hin.
  destruct (absent (insert_schedules _ new) c) eqn:E; [|reflexivity].
  apply absent_length in E. rewrite select_has_key_insert in E.
  destruct (absent (appointment_schedules db) c) eqn:Eabs.
  - assert (Hnew : In (candidate_slot c) new).
    { rewrite Hrun. apply in_map. apply filter_In. auto. }
    assert (Hsel : In (candidate_slot c)
                     (select_where (has_key (candidate_key c)) new)).
    { apply filter_In. split; [exact Hnew | apply has_key_candidate_slot]. }
    destruct (select_where (has_key (candidate_key c)) new);
      [destruct Hsel | simpl in E; lia].
  - assert (Hn : List.length
                   (select_where (has_key (candidate_key c))
                      (appointment_schedules db)) <> O).
    { intros H0. apply absent_length in H0. congruence. }
    lia.
Qed.

Lemma candidates_unique_after_run (today : date) (db : Database)
  (new : list AppointmentSchedule) :
  generate_session today db = OK new ->
  NoDup (map candidate_key (candidates today db)) ->
  Forall
    (fun c =>
       List.length
         (select_where (has_key (candidate_key c))
            (insert_schedules (appointment_schedules db) new)) = 1%nat)
    (candidates today db).
Proof.
  intros Hrun Hnd. rewrite generate_session_spec in Hrun.
  pose proof (run_candidates_OK_at_most_one _ _ _ _ Hrun) as Hle.
  apply run_candidates_OK in Hrun. cbn [app] in Hrun.
  rewrite Forall_forall in Hle. apply Forall_forall. intros c Hin.
  rewrite select_has_key_insert, Hrun.
  rewrite (select_own_key (absent (appointment_schedules db)) _ Hnd c Hin).
  specialize (Hle c Hin). cbv beta in Hle.
  destruct (absent (appointment_schedules db) c) eqn:Eabs.
  - apply absent_length in Eabs. lia.
  - assert (Hn : List.length
                   (select_where (has_key (candidate_key c))
                      (appointment_schedules db)) <> O).
    { intros H0. apply absent_length in H0. congruence. }
    lia.
Qed.

(** ** C3: the slot generator is idempotent *)

(** C3.  Running the slot generator a second time on the database the first
    run left (same current date, same availability windows) leaves the
    database as it is: the second run inserts no slot row, because every
    candidate tuple (doctor, date, start, end) now has a slot.  When the
    first run completed and the candidate tuples are pairwise different,
    the second run completes as well. *)
Theorem slot_generator_idempotent (today : date) (db : Database) :
  let db1 := snd (generate_schedules today db) in
  snd (generate_schedules today db1) = db1
  /\ (fst (generate_schedules today db) = OK tt ->
      NoDup (map candidate_key (candidates today db)) ->
      generate_schedules today db1 = (OK tt, db1)).
Proof.
  unfold generate_schedules.
  destruct (generate_session today db) as [new|e] eqn:Hrun; cbn [fst snd].
  - set (t1 := insert_schedules (appointment_schedules db) new).
    rewrite (generate_session_spec today (with_appointment_schedules t1 db)).
    rewrite candidates_with_appointment_schedules.
    change (appointment_schedules (with_appointment_schedules t1 db)) with t1.
    split.
    + pose proof (candidates_present_after_run today db new Hrun) as Hpres.
      destruct (run_candidates_present t1 _ [] Hpres) as [H|H]; rewrite H;
        reflexivity.
    + intros _ Hnd.
      rewrite (run_candidates_unique t1 _ []
                 (candidates_unique_after_run today db new Hrun Hnd)).
      reflexivity.
  - rewrite Hrun. split; [reflexivity | intros H; discriminate H].
Qed.

(** ** C2: the slots of a window *)

Lemma range_succ (k : nat) : range (S k) = 0 :: map (fun i => i + 1) (range k).
Proof.
  unfold range. cbn [seq map]. f_equal.
  rewrite <- seq_shift, !map_map. apply map_ext. intros i. lia.
Qed.

Lemma sub_intervals_range :
  forall (k : nat) (start : datetime),
    sub_intervals start k
    = map (fun i => (start + i * SLOT, start + (i + 1) * SLOT)) (range k).
Proof.
  induction k as [|k IH]; intros start; [reflexivity|].
  rewrite range_succ. cbn [sub_intervals map]. rewrite IH, map_map.
  f_equal; [f_equal; lia|]. apply map_ext. intros i. f_equal; lia.
Qed.

Lemma in_range (k : nat) (i : Z) : In i (range k) <-> 0 <= i < Z.of_nat k.
Proof.
  unfold range. rewrite in_map_iff. split.
  - intros [n [<- Hn]]. apply in_seq in Hn. lia.
  - intros Hi. exists (Z.to_nat i). split; [lia|]. apply in_seq. lia.
Qed.

Lemma time_of_combine (d : date) (t : time) :
  valid_time t -> time_of (combine d t) = t.
Proof.
  unfold valid_time, time_of, combine. intros Ht.
  rewrite Z.add_comm, Z.mod_add by (unfold MICROSECONDS_PER_DAY; lia).
  now apply Z.mod_small.
Qed.

Lemma slot_count_combine (d : date) (s e : time) :
  slot_count (combine d s) (combine d e) = slot_count s e.
Proof. unfold slot_count, combine. f_equal. f_equal. lia. Qed.

Lemma slot_count_bounds (s e : time) :
  s < e ->
  Z.of_nat (slot_count s e) = (e - s) / SLOT
  /\ s + Z.of_nat (slot_count s e) * SLOT <= e
     < s + (Z.of_nat (slot_count s e) + 1) * SLOT.
Proof.
  intros Hlt. unfold slot_count. rewrite SLOT_value.
  pose proof (Z.div_pos (e - s) 1200000000 ltac:(lia) ltac:(lia)) as Hq.
  pose proof (Z.mod_pos_bound (e - s) 1200000000 ltac:(lia)).
  pose proof (Z.div_mod (e - s) 1200000000 ltac:(lia)).
  rewrite Z2Nat.id by exact Hq. split; [reflexivity | lia].
Qed.

(** The slot objects built for a window lie inside the day, so their times
    are the window's start plus whole slot lengths. *)
Lemma new_slot_window_slot (avail : Availability) (d : date) (i : Z) :
  valid_time (av_start_time avail) ->
  valid_time (av_end_time avail) ->
  av_start_time avail < av_end_time avail ->
  0 <= i < Z.of_nat (slot_count (av_start_time avail) (av_end_time avail)) ->
  new_slot avail d (combine d (av_start_time avail) + i * SLOT)
    (combine d (av_start_time avail) + (i + 1) * SLOT)
  = window_slot avail d i.
Proof.
  intros Hs He Hlt Hi.
  destruct (slot_count_bounds _ _ Hlt) as [_ Hb].
  pose proof SLOT_value as HS.
  unfold new_slot, window_slot. f_equal.
  - replace (combine d (av_start_time avail) + i * SLOT)
      with (combine d (av_start_time avail + i * SLOT))
      by (unfold combine; lia).
    apply time_of_combine. unfold valid_time in *. nia.
  - replace (combine d (av_start_time avail) + (i + 1) * SLOT)
      with (combine d (av_start_time avail + (i + 1) * SLOT))
      by (unfold combine; lia).
    apply time_of_combine. unfold valid_time in *. nia.
Qed.

(** ** C8: the slot cleaner *)

Lemma stale_spec (today : date) (s : AppointmentSchedule) :
  stale today s = true
  <-> date_ s < today /\ status s = AppointmentStatus.available.
Proof.
  unfold stale. rewrite andb_true_iff, Z.ltb_lt. split; intros [Hd Hs].
  - split; [exact Hd|]. destruct (status s); (reflexivity || discriminate Hs).
  - split; [exact Hd|]. now rewrite Hs.
Qed.

Lemma cleaner_blocked_spec (today : date) (db : Database) :
  existsb (fun s => existsb (visit_refers_to s) (clinic_visits db))
    (select_where (stale today) (appointment_schedules db)) = true
  <-> cleaner_blocked today db.
Proof.
  unfold cleaner_blocked. rewrite existsb_exists. split.
  - intros [s [Hs Hv]]. apply filter_In in Hs. destruct Hs as [Hin Hst].
    apply stale_spec in Hst. destruct Hst as [Hd Hav].
    apply existsb_exists in Hv. destruct Hv as [v [Hvin Hv]].
    exists s, v. repeat split; try assumption.
    unfold visit_refers_to in Hv. destruct (cv_schedule_id v) as [x|];
      [|discriminate]. apply Z.eqb_eq in Hv. now subst.
  - intros [s [v [Hin [Hd [Hav [Hvin Hv]]]]]]. exists s. split.
    + apply filter_In. split; [exact Hin|]. apply stale_spec. now split.
    + apply existsb_exists. exists v. split; [exact Hvin|].
      unfold visit_refers_to. rewrite Hv. apply Z.eqb_refl.
Qed.

(** The two outcomes of a cleaner run. *)
Lemma cleanup_cases (today : date) (db : Database) :
  (cleaner_blocked today db
   /\ cleanup_past_schedules today db
      = (Raise (IntegrityError "clinic_visits_schedule_id_fkey"), db))
  \/ (~ cleaner_blocked today db
      /\ cleanup_past_schedules today db
         = (OK tt,
            with_appointment_schedules
              (delete_where (stale today) (appointment_schedules db)) db)).
Proof.
  pose proof (cleaner_blocked_spec today db) as Hspec.
  unfold cleanup_past_schedules. fold (stale today).
  destruct (existsb _ (select_where (stale today) (appointment_schedules db))).
  - left. split; [now apply Hspec | reflexivity].
  - right. split; [|reflexivity]. intros H. apply Hspec in H. discriminate H.
Qed.

(** C8, as the code has it.  The cleaner's DELETE is one statement and the
    visits refer to the slots through a foreign key.  When no slot dated
    strictly before [today] in status available is referred to by a visit,
    the run completes and keeps, in their order and unchanged, exactly the
    slots that are not both dated strictly before [today] and in status
    available: every slot that is both is removed, every other slot is
    still there, and no other table changes.  When a visit refers to such a
    slot, the run raises [IntegrityError] and removes nothing. *)
Theorem slot_cleaner_exact (today : date) (db : Database) :
  let db' := snd (cleanup_past_schedules today db) in
  (~ cleaner_blocked today db ->
   fst (cleanup_past_schedules today db) = OK tt
   /\ appointment_schedules db'
      = filter
          (fun s =>
             negb
               ((date_ s <? today)
                && AppointmentStatus.eqb (status s) AppointmentStatus.available))
          (appointment_schedules db)
   /\ (forall s,
          In s (appointment_schedules db) ->
          date_ s < today -> status s = AppointmentStatus.available ->
          ~ In s (appointment_schedules db'))
   /\ (forall s,
          In s (appointment_schedules db) ->
          today <= date_ s \/ status s <> AppointmentStatus.available ->
          In s (appointment_schedules db'))
   /\ (forall s, In s (appointment_schedules db') -> In s (appointment_schedules db))
   /\ availabilities db' = availabilities db
   /\ clinic_visits db' = clinic_visits db
   /\ complaints db' = complaints db
   /\ diagnoses db' = diagnoses db)
  /\ (cleaner_blocked today db ->
      fst (cleanup_past_schedules today db)
      = Raise (IntegrityError "clinic_visits_schedule_id_fkey")
      /\ db' = db).
Proof.
  cbv zeta.
  destruct (cleanup_cases today db) as [[Hb ->]|[Hfree ->]]; cbn [fst snd].
  - split; [intros Hn; contradiction | intros _; now split].
  - split; [intros _ | intros Hb; contradiction].
    cbn [with_appointment_schedules appointment_schedules availabilities
           clinic_visits complaints diagnoses].
    unfold delete_where, stale.
    repeat split.
    + intros s _ Hd Hs Hin. apply filter_In in Hin. destruct Hin as [_ Hk].
      rewrite Hs in Hk. apply Z.ltb_lt in Hd. rewrite Hd in Hk. discriminate.
    + intros s Hin Hkeep. apply filter_In. split; [exact Hin|].
      destruct Hkeep as [Hd|Hs].
      * replace (date_ s <? today) with false by (symmetry; apply Z.ltb_ge; lia).
        reflexivity.
      * destruct (status s); try (now rewrite andb_false_r). congruence.
    + intros s Hin. apply filter_In in Hin. tauto.
Qed.

(** The claim fails where a visit refers to a past slot that is still
    available (the state POST /doctor/visits leaves when the doctor links a
    visit to an available slot): the run of the day after raises and the
    slot is still in the table. *)
Lemma cleaner_stops_on_linked_slot :
  let db := ex_db [ex_slot AppointmentStatus.available None] [ex_visit] in
  let today := ex_monday + 1 in
  let db' := snd (cleanup_past_schedules today db) in
  fst (cleanup_past_schedules today db)
  = Raise (IntegrityError "clinic_visits_schedule_id_fkey")
  /\ ~ (forall s,
           In s (appointment_schedules db) ->
           date_ s < today -> status s = AppointmentStatus.available ->
           ~ In s (appointment_schedules db')).
Proof.
  split; [reflexivity|].
  intros H.
  apply (H (ex_slot AppointmentStatus.available None)).
  - left; reflexivity.
  - vm_compute. reflexivity.
  - reflexivity.
  - left; reflexivity.
Qed.

(** A past available slot, a past booked slot with its visit and a coming
    available slot: the run removes the first and keeps the other two. *)
Lemma slot_cleaner_exact_witness :
  let past := ex_monday - 7 in
  let s1 :=
    mkAppointmentSchedule 2 "DOC001" None (Some 1) (hm 9 0) (hm 9 20) past
      AppointmentStatus.available in
  let s2 :=
    mkAppointmentSchedule 3 "DOC001" (Some 10) (Some 1) (hm 9 20) (hm 9 40)
      past AppointmentStatus.booked in
  let db :=
    ex_db [s1; s2; ex_slot AppointmentStatus.available None]
      [mkClinicVisit 1 10 "DOC001" (Some 3) past VisitStatus.pending] in
  cleanup_past_schedules ex_today db
  = (OK tt,
     ex_db [s2; ex_slot AppointmentStatus.available None]
       [mkClinicVisit 1 10 "DOC001" (Some 3) past VisitStatus.pending]).
Proof.
  intros past s1 s2 db.
  assert (Hfree : ~ cleaner_blocked ex_today db).
  { intros H. apply cleaner_blocked_spec in H. vm_compute in H. discriminate H. }
  destruct (proj1 (slot_cleaner_exact ex_today db) Hfree)
    as [Hok [Hslots [_ [_ [_ [Hav [Hvis [Hco Hdi]]]]]]]].
  destruct (cleanup_past_schedules ex_today db) as [o db'] eqn:E.
  cbn [fst snd] in *. subst o. f_equal.
  destruct db' as [a sl v c d]. cbn in Hslots, Hav, Hvis, Hco, Hdi.
  subst a sl v c d. reflexivity.
Defined.

(** ** Primary keys, look-ups and updates *)

Lemma fold_max_bound (ids : list Z) :
  forall x, In x ids -> x <= fold_right Z.max 0 ids.
Proof.
  induction ids as [|i ids IH]; intros x Hin; [destruct Hin|].
  cbn [fold_right]. destruct Hin as [<-|Hin]; [lia|].
  specialize (IH x Hin). lia.
Qed.

Lemma next_id_fresh (ids : list Z) : ~ In (next_id ids) ids.
Proof.
  intros Hin. apply fold_max_bound in Hin. unfold next_id in Hin. lia.
Qed.

Lemma select_where_In {A : Type} (cond : A -> bool) (table : list A) (r : A) :
  In r (select_where cond table) <-> In r table /\ cond r = true.
Proof. apply filter_In. Qed.

Lemma select_update_where {A : Type} (cond : A -> bool) (f : A -> A)
  (table : list A) :
  (forall r, cond (f r) = cond r) ->
  select_where cond (update_where cond f table)
  = map f (select_where cond table).
Proof.
  intros Hf. induction table as [|r table IH]; [reflexivity|].
  unfold update_where in *. cbn [map]. rewrite !select_where_cons.
  destruct (cond r) eqn:E.
  - rewrite Hf, E. cbn [map]. now rewrite IH.
  - rewrite E. exact IH.
Qed.

Lemma find_select_where {A : Type} (cond : A -> bool) (table : list A) :
  find cond table = hd_error (select_where cond table).
Proof.
  induction table as [|r table IH]; [reflexivity|].
  cbn [find]. rewrite select_where_cons. destruct (cond r); [reflexivity | exact IH].
Qed.

(** Rows outside the condition are not touched by an update. *)
Lemma update_where_other {A : Type} (cond : A -> bool) (f : A -> A)
  (table : list A) (r : A) :
  (forall x, cond (f x) = cond x) ->
  cond r = false ->
  (In r (update_where cond f table) <-> In r table).
Proof.
  intros Hf Hr. unfold update_where. rewrite in_map_iff. split.
  - intros [x [Hx Hin]]. destruct (cond x) eqn:E.
    + subst r. rewrite Hf in Hr. congruence.
    + now subst.
  - intros Hin. exists r. now rewrite Hr.
Qed.

Lemma update_where_none {A : Type} (cond : A -> bool) (f : A -> A)
  (table : list A) :
  select_where cond table = [] -> update_where cond f table = table.
Proof.
  induction table as [|r table IH]; [reflexivity|].
  rewrite select_where_cons. unfold update_where in *. cbn [map].
  destruct (cond r); [discriminate|]. intros H. now rewrite IH.
Qed.

(** With a primary key, the rows selected by a condition that fixes the key
    are at most one. *)
Lemma pk_select_at_most_one {A : Type} (key : A -> Z) (cond : A -> bool) (k : Z) :
  forall table : list A,
    NoDup (map key table) ->
    (forall r, cond r = true -> key r = k) ->
    (List.length (select_where cond table) <= 1)%nat.
Proof.
  intros table Hnd Hk. induction table as [|r table IH]; [simpl; lia|].
  cbn [map] in Hnd. inversion Hnd as [|? ? Hnotin Hnd']; subst.
  rewrite select_where_cons. destruct (cond r) eqn:E; [|now apply IH].
  assert (Hnone : select_where cond table = []).
  { destruct (select_where cond table) as [|r' rest] eqn:Hsel; [reflexivity|].
    assert (Hin : In r' (select_where cond table)) by (rewrite Hsel; now left).
    apply select_where_In in Hin. destruct Hin as [Hin Hc].
    exfalso. apply Hnotin. rewrite (Hk r E), <- (Hk r' Hc). now apply in_map. }
  rewrite Hnone. simpl. lia.
Qed.

Lemma pk_select_In {A : Type} (key : A -> Z) (cond : A -> bool) (k : Z)
  (table : list A) (r : A) :
  NoDup (map key table) ->
  (forall x, cond x = true -> key x = k) ->
  In r table -> cond r = true ->
  select_where cond table = [r].
Proof.
  intros Hnd Hk Hin Hc.
  pose proof (pk_select_at_most_one key cond k table Hnd Hk) as Hle.
  assert (Hsel : In r (select_where cond table))
    by (apply select_where_In; auto).
  destruct (select_where cond table) as [|x [|y rest]];
    [destruct Hsel | | simpl in Hle; lia].
  destruct Hsel as [->|[]]. reflexivity.
Qed.

Lemma scalar_one_or_none_OK {A : Type} (rows : list A) (o : option A) :
  scalar_one_or_none rows = OK o ->
  (rows = [] /\ o = None) \/ (exists r, rows = [r] /\ o = Some r).
Proof.
  destruct rows as [|r [|r' rows]]; simpl; intros H; try discriminate;
    injection H as <-; [left | right; exists r]; auto.
Qed.

Lemma role_eqb (u : CurrentUser) (r : string) :
  cu_role u = r -> negb (String.eqb (cu_role u) r) = false.
Proof. intros ->. now rewrite String.eqb_refl. Qed.

Lemma role_of_eqb (u : CurrentUser) (r : string) :
  negb (String.eqb (cu_role u) r) = false -> cu_role u = r.
Proof.
  intros H. apply negb_false_iff in H. now apply String.eqb_eq in H.
Qed.

Lemma slot_rows_id (sid : Z) (db : Database) (slot : AppointmentSchedule) :
  slot_rows sid db = [slot] -> schedule_id slot = sid.
Proof.
  intros H. assert (Hin : In slot (slot_rows sid db)) by (rewrite H; now left).
  apply select_where_In in Hin. now apply Z.eqb_eq.
Qed.

Lemma refresh_schedule_updated (slot : AppointmentSchedule)
  (f : AppointmentSchedule -> AppointmentSchedule)
  (table : list AppointmentSchedule) :
  (forall r, schedule_id (f r) = schedule_id r) ->
  select_where (fun s => schedule_id s =? schedule_id slot) table = [slot] ->
  refresh_schedule slot
    (update_where (fun s => schedule_id s =? schedule_id slot) f table)
  = f slot.
Proof.
  intros Hf Hsel. unfold refresh_schedule.
  rewrite find_select_where, select_update_where, Hsel; [reflexivity|].
  intros r. now rewrite Hf.
Qed.

(** ** C6: cancelling a slot *)

(** The acting doctor owns the slot with id [sid]. *)
Lemma cancel_schedule_guard (sid : Z) (cu : CurrentUser) (db : Database)
  (slot : AppointmentSchedule) :
  slot_rows sid db = [slot] ->
  cu_role cu = "doctor"%string ->
  cu_user_id cu = Some (doctor_id slot) ->
  cancel_schedule sid cu db
  = if AppointmentStatus.eqb (status slot) AppointmentStatus.cancelled then
      (Raise (HTTPException 400 "Schedule is already cancelled"), db)
    else
      (OK (set_status AppointmentStatus.cancelled slot),
       with_appointment_schedules
         (update_where (fun s => schedule_id s =? sid)
            (set_status AppointmentStatus.cancelled) (appointment_schedules db))
         db).
Proof.
  intros Hrows Hrole Huid.
  pose proof (slot_rows_id _ _ _ Hrows) as Hid.
  unfold cancel_schedule, get_current_doctor.
  rewrite (role_eqb _ _ Hrole). cbn [Py.bind].
  unfold slot_rows in Hrows. rewrite Hrows. cbn [scalar_one_or_none Py.bind].
  unfold attr_user_id. rewrite Huid. cbn [Py.bind].
  rewrite String.eqb_refl. cbn [negb].
  destruct (AppointmentStatus.eqb (status slot) AppointmentStatus.cancelled);
    [reflexivity|].
  rewrite refresh_schedule_updated;
    [now rewrite Hid | reflexivity | now rewrite Hid].
Qed.

(** C6, as the code has it.  For a slot and the doctor who owns it: Cancel
    on a slot whose status is cancelled fails with the rejection
    "Schedule is already cancelled" (HTTP 400) and leaves the database
    unchanged; Cancel on a slot in any other status (available, booked,
    pending, and also completed) succeeds, sets that slot to cancelled and
    changes no other slot and no other table. *)
Theorem cancel_schedule_transitions (sid : Z) (cu : CurrentUser) (db : Database)
  (slot : AppointmentSchedule) :
  slot_rows sid db = [slot] ->
  cu_role cu = "doctor"%string ->
  cu_user_id cu = Some (doctor_id slot) ->
  (status slot = AppointmentStatus.cancelled ->
   cancel_schedule sid cu db
   = (Raise (HTTPException 400 "Schedule is already cancelled"), db))
  /\ (status slot <> AppointmentStatus.cancelled ->
      let db' := snd (cancel_schedule sid cu db) in
      fst (cancel_schedule sid cu db)
      = OK (set_status AppointmentStatus.cancelled slot)
      /\ slot_rows sid db' = [set_status AppointmentStatus.cancelled slot]
      /\ (forall s,
             schedule_id s <> sid ->
             (In s (appointment_schedules db')
              <-> In s (appointment_schedules db)))
      /\ availabilities db' = availabilities db
      /\ clinic_visits db' = clinic_visits db
      /\ complaints db' = complaints db
      /\ diagnoses db' = diagnoses db).
Proof.
  intros Hrows Hrole Huid.
  rewrite (cancel_schedule_guard sid cu db slot Hrows Hrole Huid).
  split.
  - intros Hst. now rewrite Hst.
  - intros Hst.
    replace (AppointmentStatus.eqb (status slot) AppointmentStatus.cancelled)
      with false by (destruct (status slot); (reflexivity || congruence)).
    cbn [fst snd]. split; [reflexivity|]. split.
    + unfold slot_rows in *.
      change (appointment_schedules (with_appointment_schedules ?t db)) with t.
      rewrite select_update_where by reflexivity. now rewrite Hrows.
    + split; [|repeat split].
      intros s Hs.
      change (appointment_schedules (with_appointment_schedules ?t db)) with t.
      apply update_where_other; [reflexivity|]. now apply Z.eqb_neq.
Qed.

(** Cancel succeeds only on a slot that exists, belongs to the acting
    doctor and is not cancelled. *)
Lemma cancel_schedule_success (sid : Z) (cu : CurrentUser) (db db' : Database)
  (s : AppointmentSchedule) :
  cancel_schedule sid cu db = (OK s, db') ->
  exists slot,
    slot_rows sid db = [slot]
    /\ cu_role cu = "doctor"%string
    /\ cu_user_id cu = Some (doctor_id slot)
    /\ status slot <> AppointmentStatus.cancelled.
Proof.
  unfold cancel_schedule, get_current_doctor, slot_rows.
  destruct (negb (String.eqb (cu_role cu) "doctor")) eqn:Hrole;
    cbn [Py.bind]; [discriminate|].
  apply role_of_eqb in Hrole.
  destruct (select_where _ (appointment_schedules db)) as [|slot [|r rows]];
    cbn [scalar_one_or_none Py.bind]; try discriminate.
  unfold attr_user_id. destruct (cu_user_id cu) as [uid|];
    cbn [Py.bind]; [|discriminate].
  destruct (String.eqb (doctor_id slot) uid) eqn:Hdoc; cbn [negb];
    [|discriminate].
  apply String.eqb_eq in Hdoc. subst uid.
  destruct (AppointmentStatus.eqb (status slot) AppointmentStatus.cancelled)
    eqn:Hst; [discriminate|].
  intros _. exists slot. repeat split; try assumption; try reflexivity.
  intros E. rewrite E in Hst. discriminate.
Qed.

(** A completed slot is cancelled when its doctor asks for it. *)
Lemma cancel_completed_slot_succeeds :
  status (ex_slot AppointmentStatus.completed (Some 10))
  = AppointmentStatus.completed
  /\ cancel_schedule 1 ex_doctor
       (ex_db [ex_slot AppointmentStatus.completed (Some 10)] [])
     = (OK (ex_slot AppointmentStatus.cancelled (Some 10)),
        ex_db [ex_slot AppointmentStatus.cancelled (Some 10)] []).
Proof. split; reflexivity. Qed.

Lemma cancel_schedule_transitions_witness :
  cancel_schedule 1 ex_doctor
    (ex_db [ex_slot AppointmentStatus.cancelled (Some 10)] [])
  = (Raise (HTTPException 400 "Schedule is already cancelled"),
     ex_db [ex_slot AppointmentStatus.cancelled (Some 10)] []).
Proof.
  apply (cancel_schedule_transitions 1 ex_doctor
           (ex_db [ex_slot AppointmentStatus.cancelled (Some 10)] [])
           (ex_slot AppointmentStatus.cancelled (Some 10)));
    reflexivity.
Defined.

(** ** C7 and C10: completing a visit, recording a diagnosis *)

Lemma complete_linked_schedule_OK (visit : ClinicVisit) (db db' : Database)
  (r : unit) :
  complete_linked_schedule visit db = (OK r, db') ->
  db'
  = with_appointment_schedules
      (slots_after_completion visit (appointment_schedules db)) db.
Proof.
  unfold complete_linked_schedule, slots_after_completion.
  destruct (truthy (cv_schedule_id visit)) as [sid|].
  - destruct (scalar_one_or_none _) as [[schedule|]|e] eqn:Hsel;
      intros H; try discriminate; injection H as _ <-.
    + apply scalar_one_or_none_OK in Hsel.
      destruct Hsel as [[_ E]|[r' [Hrows E]]]; [discriminate|].
      injection E as <-.
      assert (Hid : schedule_id schedule = sid).
      { assert (Hin : In schedule [schedule]) by now left.
        rewrite <- Hrows in Hin. apply select_where_In in Hin.
        now apply Z.eqb_eq. }
      now rewrite Hid.
    + apply scalar_one_or_none_OK in Hsel.
      destruct Hsel as [[Hrows _]|[r' [_ E]]]; [|discriminate].
      rewrite update_where_none by exact Hrows.
      now rewrite with_appointment_schedules_same.
  - intros H. injection H as _ <-.
    now rewrite with_appointment_schedules_same.
Qed.

Lemma complete_linked_schedule_total (visit : ClinicVisit) (db : Database) :
  schedules_pk db ->
  exists db', complete_linked_schedule visit db = (OK tt, db').
Proof.
  intros Hpk. unfold complete_linked_schedule.
  destruct (truthy (cv_schedule_id visit)) as [sid|]; [|eexists; reflexivity].
  pose proof (pk_select_at_most_one schedule_id
                (fun s => schedule_id s =? sid) sid (appointment_schedules db)
                Hpk (fun r H => proj1 (Z.eqb_eq _ _) H)) as Hle.
  destruct (select_where _ (appointment_schedules db)) as [|s [|s' rows]];
    [eexists; reflexivity | eexists; reflexivity | simpl in Hle; lia].
Qed.

(** After the closing step every slot with the visit's slot id is
    completed, whatever its status was. *)
Lemma slots_after_completion_status (visit : ClinicVisit) (sid : Z)
  (table : list AppointmentSchedule) :
  truthy (cv_schedule_id visit) = Some sid ->
  select_where (fun s => schedule_id s =? sid)
    (slots_after_completion visit table)
  = map (set_status AppointmentStatus.completed)
      (select_where (fun s => schedule_id s =? sid) table).
Proof.
  intros H. unfold slots_after_completion. rewrite H.
  now apply select_update_where.
Qed.

Lemma refresh_visit_updated (visit : ClinicVisit)
  (f : ClinicVisit -> ClinicVisit) (table : list ClinicVisit) :
  (forall r, visit_id (f r) = visit_id r) ->
  select_where (fun v => visit_id v =? visit_id visit) table = [visit] ->
  refresh_visit visit
    (update_where (fun v => visit_id v =? visit_id visit) f table)
  = f visit.
Proof.
  intros Hf Hsel. unfold refresh_visit.
  rewrite find_select_where, select_update_where, Hsel; [reflexivity|].
  intros r. now rewrite Hf.
Qed.

Lemma pending_visit_of_spec (vid : Z) (uid : string) (v : ClinicVisit) :
  pending_visit_of vid uid v = true
  <-> visit_id v = vid /\ cv_doctor_id v = uid
      /\ cv_status v = VisitStatus.pending.
Proof.
  unfold pending_visit_of. rewrite !andb_true_iff, Z.eqb_eq, String.eqb_eq.
  destruct (cv_status v); simpl; intuition discriminate.
Qed.

(** [complete_visit] once the pending visit of the acting doctor is
    loaded. *)
Lemma complete_visit_loaded (vid : Z) (cu : CurrentUser) (db : Database)
  (v0 : ClinicVisit) :
  visits_pk db ->
  cu_role cu = "doctor"%string ->
  cu_user_id cu = Some (cv_doctor_id v0) ->
  In v0 (clinic_visits db) ->
  visit_id v0 = vid ->
  cv_status v0 = VisitStatus.pending ->
  complete_visit vid cu db
  = let db1 :=
      with_clinic_visits
        (update_where (fun v => visit_id v =? vid)
           (set_visit_status VisitStatus.completed) (clinic_visits db))
        db in
    match
      complete_linked_schedule (set_visit_status VisitStatus.completed v0) db1
    with
    | (Raise e, db2) => (Raise e, db2)
    | (OK _, db2) => (OK (set_visit_status VisitStatus.completed v0), db2)
    end.
Proof.
  intros Hpk Hrole Huid Hin Hid Hst.
  unfold complete_visit, get_current_doctor.
  rewrite (role_eqb _ _ Hrole). cbn [Py.bind].
  unfold attr_user_id. rewrite Huid. cbn [Py.bind].
  fold (pending_visit_of vid (cv_doctor_id v0)).
  rewrite (pk_select_In visit_id (pending_visit_of vid (cv_doctor_id v0)) vid
             (clinic_visits db) v0 Hpk).
  - cbn [scalar_one_or_none Py.bind].
    rewrite refresh_visit_updated; [now rewrite Hid | reflexivity|].
    rewrite Hid.
    apply (pk_select_In visit_id _ vid _ v0 Hpk);
      [intros x Hx; now apply Z.eqb_eq | exact Hin | now apply Z.eqb_eq].
  - intros x Hx. now apply pending_visit_of_spec in Hx.
  - exact Hin.
  - now apply pending_visit_of_spec.
Qed.

Lemma complete_visit_success (vid : Z) (cu : CurrentUser) (db db' : Database)
  (v : ClinicVisit) :
  complete_visit vid cu db = (OK v, db') ->
  exists v0,
    In v0 (clinic_visits db)
    /\ visit_id v0 = vid
    /\ cv_status v0 = VisitStatus.pending
    /\ cu_role cu = "doctor"%string
    /\ cu_user_id cu = Some (cv_doctor_id v0).
Proof.
  unfold complete_visit, get_current_doctor.
  destruct (negb (String.eqb (cu_role cu) "doctor")) eqn:Hrole;
    cbn [Py.bind]; [discriminate|].
  apply role_of_eqb in Hrole.
  unfold attr_user_id. destruct (cu_user_id cu) as [uid|];
    cbn [Py.bind]; [|discriminate].
  fold (pending_visit_of vid uid).
  destruct (select_where (pending_visit_of vid uid) (clinic_visits db))
    as [|v0 [|r rows]] eqn:Hsel; cbn [scalar_one_or_none Py.bind];
    try discriminate.
  intros _. exists v0.
  assert (Hin : In v0 (select_where (pending_visit_of vid uid) (clinic_visits db)))
    by (rewrite Hsel; now left).
  apply select_where_In in Hin. destruct Hin as [Hin Hc].
  apply pending_visit_of_spec in Hc. destruct Hc as [Hid [Hdoc Hst]].
  subst uid. auto.
Qed.

(** C7.  Complete(visit_id) succeeds only when the visit exists, has status
    pending and belongs to the acting doctor, and for such a visit it does
    succeed.  On success the visit is returned and stored with status
    completed and its other columns as they were, and no other visit
    changes; when the visit references a slot, every slot row with that id
    has status completed afterwards and its other columns as they were;
    slots with another id and the other tables are unchanged. *)
Theorem complete_visit_spec (vid : Z) (cu : CurrentUser) (db : Database) :
  visits_pk db ->
  (forall v db',
      complete_visit vid cu db = (OK v, db') ->
      exists v0,
        In v0 (clinic_visits db)
        /\ visit_id v0 = vid
        /\ cv_status v0 = VisitStatus.pending
        /\ cu_role cu = "doctor"%string
        /\ cu_user_id cu = Some (cv_doctor_id v0)
        /\ v = mkClinicVisit (visit_id v0) (cv_student_id v0) (cv_doctor_id v0)
                 (cv_schedule_id v0) (visit_date v0) VisitStatus.completed
        /\ select_where (fun x => visit_id x =? vid) (clinic_visits db') = [v]
        /\ clinic_visits db'
           = map
               (fun x =>
                  if visit_id x =? vid then
                    mkClinicVisit (visit_id x) (cv_student_id x)
                      (cv_doctor_id x) (cv_schedule_id x) (visit_date x)
                      VisitStatus.completed
                  else x)
               (clinic_visits db)
        /\ (forall x,
               visit_id x <> vid ->
               (In x (clinic_visits db') <-> In x (clinic_visits db)))
        /\ match truthy (cv_schedule_id v0) with
           | Some sid =>
               appointment_schedules db'
               = map
                   (fun s =>
                      if schedule_id s =? sid then
                        mkAppointmentSchedule (schedule_id s) (doctor_id s)
                          (student_id s) (availability_id s) (start_time s)
                          (end_time s) (date_ s) AppointmentStatus.completed
                      else s)
                   (appointment_schedules db)
               /\ Forall
                    (fun s => status s = AppointmentStatus.completed)
                    (slot_rows sid db')
               /\ List.length (slot_rows sid db')
                  = List.length (slot_rows sid db)
           | None => appointment_schedules db' = appointment_schedules db
           end
        /\ availabilities db' = availabilities db
        /\ complaints db' = complaints db
        /\ diagnoses db' = diagnoses db)
  /\ (forall v0,
         In v0 (clinic_visits db) ->
         visit_id v0 = vid ->
         cv_status v0 = VisitStatus.pending ->
         cu_role cu = "doctor"%string ->
         cu_user_id cu = Some (cv_doctor_id v0) ->
         schedules_pk db ->
         exists db',
           complete_visit vid cu db
           = (OK
                (mkClinicVisit (visit_id v0) (cv_student_id v0)
                   (cv_doctor_id v0) (cv_schedule_id v0) (visit_date v0)
                   VisitStatus.completed),
              db')).
Proof.
  intros Hpk. split.
  - intros v db' Hrun.
    destruct (complete_visit_success _ _ _ _ _ Hrun)
      as [v0 [Hin [Hid [Hst [Hrole Huid]]]]].
    exists v0. do 5 (split; [assumption|]).
    rewrite (complete_visit_loaded vid cu db v0 Hpk Hrole Huid Hin Hid Hst)
      in Hrun.
    cbv zeta in Hrun.
    destruct (complete_linked_schedule _ _) as [[r|e] db2] eqn:Hlink;
      [|discriminate].
    injection Hrun as <- <-.
    apply complete_linked_schedule_OK in Hlink. subst db2.
    assert (Hsel : select_where (fun x => visit_id x =? vid) (clinic_visits db)
                   = [v0]).
    { apply (pk_select_In visit_id _ vid _ v0 Hpk);
        [intros x Hx; now apply Z.eqb_eq | exact Hin | now apply Z.eqb_eq]. }
    split; [reflexivity|]. split.
    { cbn [clinic_visits with_appointment_schedules with_clinic_visits].
      rewrite select_update_where by reflexivity. now rewrite Hsel. }
    split; [reflexivity|].
    split.
    { intros x Hx.
      cbn [clinic_visits with_appointment_schedules with_clinic_visits].
      apply update_where_other; [reflexivity | now apply Z.eqb_neq]. }
    split; [|repeat split].
    cbn [appointment_schedules with_appointment_schedules with_clinic_visits].
    unfold slots_after_completion.
    cbn [cv_schedule_id set_visit_status].
    destruct (truthy (cv_schedule_id v0)) as [sid|] eqn:Hsid; [|reflexivity].
    split; [reflexivity|].
    unfold slot_rows.
    cbn [appointment_schedules with_appointment_schedules with_clinic_visits].
    rewrite select_update_where by reflexivity.
    split; [|apply length_map].
    apply Forall_forall. intros s Hs. apply in_map_iff in Hs.
    destruct Hs as [s0 [<- _]]. reflexivity.
  - intros v0 Hin Hid Hst Hrole Huid Hspk.
    rewrite (complete_visit_loaded vid cu db v0 Hpk Hrole Huid Hin Hid Hst).
    cbv zeta.
    destruct (complete_linked_schedule_total
                (set_visit_status VisitStatus.completed v0)
                (with_clinic_visits
                   (update_where (fun v => visit_id v =? vid)
                      (set_visit_status VisitStatus.completed)
                      (clinic_visits db)) db) Hspk) as [db2 Hlink].
    rewrite Hlink. now exists db2.
Qed.

(** Doctor DOC001 completes pending visit 1 on booked slot 1: the visit
    and the slot end completed. *)
Lemma complete_visit_spec_witness :
  complete_visit 1 ex_doctor
    (ex_db [ex_slot AppointmentStatus.booked (Some 10)] [ex_visit])
  = (OK (mkClinicVisit 1 10 "DOC001" (Some 1) ex_monday VisitStatus.completed),
     ex_db [ex_slot AppointmentStatus.completed (Some 10)]
       [mkClinicVisit 1 10 "DOC001" (Some 1) ex_monday VisitStatus.completed]).
Proof.
  assert (Hpk : visits_pk
                  (ex_db [ex_slot AppointmentStatus.booked (Some 10)] [ex_visit])).
  { unfold visits_pk. simpl. constructor; [simpl; tauto | constructor]. }
  assert (Hspk : schedules_pk
                   (ex_db [ex_slot AppointmentStatus.booked (Some 10)] [ex_visit])).
  { unfold schedules_pk. simpl. constructor; [simpl; tauto | constructor]. }
  destruct (proj2 (complete_visit_spec 1 ex_doctor _ Hpk) ex_visit
              (or_introl eq_refl) eq_refl eq_refl eq_refl eq_refl Hspk)
    as [db' Hrun].
  rewrite Hrun. f_equal.
  destruct (proj1 (complete_visit_spec 1 ex_doctor _ Hpk) _ _ Hrun)
    as [v0 [Hin [_ [_ [_ [_ [_ [_ [Hvis [_ [Hslots [Hav [Hco Hdi]]]]]]]]]]]]].
  destruct Hin as [<-|[]].
  cbn [truthy cv_schedule_id ex_visit Z.eqb] in Hslots.
  destruct Hslots as [Hslots _].
  destruct db' as [a sl v c d]. cbn in Hvis, Hslots, Hav, Hco, Hdi.
  subst a sl v c d. reflexivity.
Defined.

(** C10.  When a diagnosis creation (POST /doctor/diagnoses) succeeds, the
    visit it names exists and belongs to the acting doctor, and the
    complaint it names exists; the visit table is left exactly as it was,
    so the visit keeps its status (a pending visit stays pending); and when
    the visit references a slot, every slot row with that id has status
    completed afterwards whatever its status was (cancelled included),
    with its other columns as they were and with no call of
    Complete(visit_id) involved. *)
Theorem create_diagnosis_completes_slot (diagnosis : DiagnosisCreate)
  (cu : CurrentUser) (db db' : Database) (dg : DoctorDiagnosis) :
  create_diagnosis diagnosis cu db = (OK dg, db') ->
  exists visit,
    In visit (clinic_visits db)
    /\ visit_id visit = dc_visit_id diagnosis
    /\ cu_role cu = "doctor"%string
    /\ cu_user_id cu = Some (cv_doctor_id visit)
    /\ cv_student_id visit = dc_student_id diagnosis
    /\ (exists c,
           In c (complaints db) /\ complaint_id c = dc_complaint_id diagnosis)
    /\ clinic_visits db' = clinic_visits db
    /\ match truthy (cv_schedule_id visit) with
       | Some sid =>
           appointment_schedules db'
           = map
               (fun s =>
                  if schedule_id s =? sid then
                    mkAppointmentSchedule (schedule_id s) (doctor_id s)
                      (student_id s) (availability_id s) (start_time s)
                      (end_time s) (date_ s) AppointmentStatus.completed
                  else s)
               (appointment_schedules db)
           /\ Forall
                (fun s => status s = AppointmentStatus.completed)
                (slot_rows sid db')
           /\ List.length (slot_rows sid db') = List.length (slot_rows sid db)
       | None => appointment_schedules db' = appointment_schedules db
       end
    /\ diagnoses db' = diagnoses db ++ [dg]
    /\ dd_visit_id dg = dc_visit_id diagnosis
    /\ availabilities db' = availabilities db
    /\ complaints db' = complaints db.
Proof.
  unfold create_diagnosis, get_current_doctor.
  destruct (negb (String.eqb (cu_role cu) "doctor")) eqn:Hrole;
    cbn [Py.bind]; [discriminate|].
  apply role_of_eqb in Hrole.
  unfold attr_user_id. destruct (cu_user_id cu) as [uid|];
    cbn [Py.bind]; [|discriminate].
  destruct (select_where _ (clinic_visits db)) as [|visit [|r rows]] eqn:Hsel;
    cbn [scalar_one_or_none Py.bind]; try discriminate.
  destruct (cv_student_id visit =? dc_student_id diagnosis) eqn:Hstu;
    cbn [negb]; [|discriminate].
  destruct (complaint_exists (dc_complaint_id diagnosis) db) eqn:Hfk;
    cbn [negb]; [|discriminate].
  destruct (complete_linked_schedule _ _) as [[r|e] db2] eqn:Hlink;
    [|discriminate].
  intros H. injection H as <- <-.
  apply complete_linked_schedule_OK in Hlink. subst db2.
  assert (Hin : In visit (select_where
                            (fun v =>
                               (visit_id v =? dc_visit_id diagnosis)
                               && String.eqb (cv_doctor_id v) uid)
                            (clinic_visits db)))
    by (rewrite Hsel; now left).
  apply select_where_In in Hin. destruct Hin as [Hin Hc].
  apply andb_true_iff in Hc. destruct Hc as [Hid Hdoc].
  apply Z.eqb_eq in Hid. apply String.eqb_eq in Hdoc. apply Z.eqb_eq in Hstu.
  exists visit. subst uid.
  do 5 (split; [assumption || reflexivity|]).
  split.
  { unfold complaint_exists in Hfk. apply existsb_exists in Hfk.
    destruct Hfk as [c [Hc Hcid]]. exists c. split; [exact Hc|].
    now apply Z.eqb_eq. }
  split; [reflexivity|]. split; [|repeat split].
  cbn [appointment_schedules with_appointment_schedules with_diagnoses].
  unfold slots_after_completion.
  destruct (truthy (cv_schedule_id visit)) as [sid|] eqn:Hsid; [|reflexivity].
  split; [reflexivity|].
  unfold slot_rows.
  cbn [appointment_schedules with_appointment_schedules with_diagnoses].
  rewrite select_update_where by reflexivity.
  split; [|apply length_map].
  apply Forall_forall. intros s Hs. apply in_map_iff in Hs.
  destruct Hs as [s0 [<- _]]. reflexivity.
Qed.

(** A cancelled slot with a pending visit: recording a diagnosis sets the
    slot to completed and leaves the visit pending. *)
Lemma diagnosis_completes_cancelled_slot :
  let db :=
    ex_db_complaint [ex_slot AppointmentStatus.cancelled (Some 10)] [ex_visit] in
  let db' := snd (create_diagnosis ex_diagnosis ex_doctor db) in
  Py.is_OK (fst (create_diagnosis ex_diagnosis ex_doctor db)) = true
  /\ appointment_schedules db' = [ex_slot AppointmentStatus.completed (Some 10)]
  /\ clinic_visits db' = [ex_visit]
  /\ cv_status ex_visit = VisitStatus.pending.
Proof. repeat split. Qed.

Lemma create_diagnosis_completes_slot_witness :
  let db :=
    ex_db_complaint [ex_slot AppointmentStatus.cancelled (Some 10)] [ex_visit] in
  let out := create_diagnosis ex_diagnosis ex_doctor db in
  Py.is_OK (fst out) = true
  /\ clinic_visits (snd out) = [ex_visit]
  /\ appointment_schedules (snd out)
     = [mkAppointmentSchedule 1 "DOC001" (Some 10) (Some 1) (hm 9 0) (hm 9 20)
          ex_monday AppointmentStatus.completed].
Proof.
  intros db out. split; [reflexivity|].
  destruct (create_diagnosis_completes_slot ex_diagnosis ex_doctor db (snd out)
              (mkDoctorDiagnosis 1 1 10 1 "DOC001" "malaria" None) eq_refl)
    as [visit [Hin [_ [_ [_ [_ [_ [Hvisits [Hslot _]]]]]]]]].
  split; [exact Hvisits|].
  destruct Hin as [<-|[]].
  cbn [truthy cv_schedule_id ex_visit Z.eqb] in Hslot.
  destruct Hslot as [Hslot _]. rewrite Hslot. reflexivity.
Defined.

(** ** C4: the state after a successful claim *)

Lemma set_status_same (s : AppointmentSchedule) (st : AppointmentStatus.t) :
  status s = st -> set_status st s = s.
Proof. destruct s. simpl. now intros ->. Qed.

Lemma pk_slot_rows (sid : Z) (db : Database) (slot : AppointmentSchedule) :
  schedules_pk db ->
  In slot (appointment_schedules db) ->
  schedule_id slot = sid ->
  slot_rows sid db = [slot].
Proof.
  intros Hpk Hin Hid. unfold slot_rows.
  apply (pk_select_In schedule_id _ sid _ slot Hpk);
    [intros x Hx; now apply Z.eqb_eq | exact Hin | now apply Z.eqb_eq].
Qed.

(** The session a handler receives has begun its transaction, so
    [async with db.begin():] raises. *)
Lemma begin_request_session :
  begin request_session
  = Raise (InvalidRequestError "A transaction is already begun on this Session.").
Proof. reflexivity. Qed.

(** [book_schedule] never gets to its query: a caller who is not a student
    is answered 403, and for a student [db.begin()] raises. *)
Lemma book_schedule_read_fails (cu : CurrentUser) (sid : Z) (db : Database) :
  book_schedule_read cu sid db
  = if negb (String.eqb (cu_role cu) "student") then
      Raise (HTTPException 403 "Student access required")
    else
      Raise
        (InvalidRequestError "A transaction is already begun on this Session.").
Proof.
  unfold book_schedule_read. now rewrite begin_request_session.
Qed.

Lemma book_schedule_fails (cu : CurrentUser) (sid : Z) (db : Database) :
  exists e, book_schedule cu sid db = (Raise e, db).
Proof.
  unfold book_schedule. rewrite book_schedule_read_fails.
  destruct (negb _); eexists; reflexivity.
Qed.

(** [create_visit_and_complaint] succeeds exactly on a slot in status
    available on which the caller has no visit yet. *)
Lemma create_visit_and_complaint_read_OK (cu : CurrentUser) (sid : Z)
  (desc : string) (db : Database) (c : ComplaintClaim) :
  create_visit_and_complaint_read cu sid desc db = OK c ->
  In (cc_schedule c) (appointment_schedules db)
  /\ schedule_id (cc_schedule c) = sid
  /\ status (cc_schedule c) = AppointmentStatus.available
  /\ cu_student_id cu = Some (cc_student_id c)
  /\ cc_description c = desc.
Proof.
  unfold create_visit_and_complaint_read, create_visit_and_complaint_checks.
  destruct (select_where _ (appointment_schedules db)) as [|r [|r' rows]] eqn:Hsel;
    cbn [scalar_one_or_none Py.bind except_Exception]; try discriminate.
  unfold attr_student_id. destruct (cu_student_id cu) as [i|];
    cbn [Py.bind except_Exception]; [|discriminate].
  destruct (scalar_one_or_none _) as [[v|]|e];
    cbn [Py.bind except_Exception]; try discriminate.
  intros H. injection H as <-. cbn [cc_schedule cc_student_id cc_description].
  assert (Hin : In r (select_where
                        (fun s =>
                           (schedule_id s =? sid)
                           && AppointmentStatus.eqb (status s)
                                AppointmentStatus.available)
                        (appointment_schedules db)))
    by (rewrite Hsel; now left).
  apply select_where_In in Hin. destruct Hin as [Hin Hc].
  rewrite andb_true_iff in Hc. destruct Hc as [Hid Hst].
  apply Z.eqb_eq in Hid.
  repeat split; try assumption.
  destruct (status r); (reflexivity || discriminate).
Qed.

(** The state a successful [create_visit_and_complaint] leaves. *)
Lemma complaint_post_state (cu : CurrentUser) (sid : Z) (desc : string)
  (db db' : Database) (vis : ClinicVisit) :
  schedules_pk db ->
  create_visit_and_complaint cu sid desc db = (OK vis, db') ->
  exists slot st v,
    slot_rows sid db = [slot]
    /\ cu_student_id cu = Some st
    /\ slot_rows sid db'
       = [set_status AppointmentStatus.booked (set_student_id (Some st) slot)]
    /\ clinic_visits db' = clinic_visits db ++ [v]
    /\ ~ In (visit_id v) (map visit_id (clinic_visits db))
    /\ cv_schedule_id v = Some sid
    /\ cv_status v = VisitStatus.pending
    /\ visit_date v = date_ slot
    /\ cv_student_id v = st
    /\ cv_doctor_id v = doctor_id slot.
Proof.
  intros Hpk. unfold create_visit_and_complaint.
  destruct (create_visit_and_complaint_read cu sid desc db) as [c|e] eqn:Hread;
    [|discriminate].
  apply create_visit_and_complaint_read_OK in Hread.
  destruct Hread as [Hin [Hid [Hst [Hstu _]]]].
  pose proof (pk_slot_rows _ _ _ Hpk Hin Hid) as Hrows.
  cbn [create_visit_and_complaint_write]. intros H. injection H as _ <-.
  exists (cc_schedule c), (cc_student_id c). eexists.
  split; [exact Hrows|]. split; [exact Hstu|]. split.
  { unfold slot_rows in *.
    cbn [appointment_schedules with_clinic_visits with_appointment_schedules
           with_complaints].
    rewrite Hid. rewrite select_update_where by reflexivity.
    now rewrite Hrows. }
  split; [reflexivity|]. split; [apply next_id_fresh|].
  cbn. rewrite Hid. repeat split.
Qed.

(** A claim through POST /students/schedules fails and writes nothing. *)
Lemma claim_by_booking_fails (r : ClaimRequest) (db : Database) :
  cr_endpoint r = POST_students_schedules ->
  exists e, claim r db = (Raise e, db).
Proof.
  intros Hep. unfold claim. rewrite Hep.
  destruct (book_schedule_fails (cr_user r) (cr_schedule_id r) db) as [e ->].
  now exists e.
Qed.

Lemma claim_OK_endpoint (r : ClaimRequest) (db db' : Database) :
  claim r db = (OK tt, db') -> cr_endpoint r = POST_students_complaints.
Proof.
  intros Hrun. destruct (cr_endpoint r) eqn:Hep; [|reflexivity].
  destruct (claim_by_booking_fails r db Hep) as [e He].
  rewrite He in Hrun. discriminate Hrun.
Qed.

(** The state a successful claim leaves. *)
Lemma claim_post_state (r : ClaimRequest) (db db' : Database) :
  schedules_pk db ->
  claim r db = (OK tt, db') ->
  exists slot st v,
    slot_rows (cr_schedule_id r) db = [slot]
    /\ cu_student_id (cr_user r) = Some st
    /\ slot_rows (cr_schedule_id r) db'
       = [set_status AppointmentStatus.booked (set_student_id (Some st) slot)]
    /\ clinic_visits db' = clinic_visits db ++ [v]
    /\ ~ In (visit_id v) (map visit_id (clinic_visits db))
    /\ cv_schedule_id v = Some (cr_schedule_id r)
    /\ cv_status v = VisitStatus.pending
    /\ visit_date v = date_ slot
    /\ cv_student_id v = st
    /\ cv_doctor_id v = doctor_id slot.
Proof.
  intros Hpk Hrun. pose proof (claim_OK_endpoint r db db' Hrun) as Hep.
  revert Hrun. unfold claim. rewrite Hep.
  destruct (create_visit_and_complaint _ _ _ db) as [[vis|e] db0] eqn:Hrun;
    cbn [Py.bind]; intros H; [|discriminate H]. injection H as <-.
  exact (complaint_post_state _ _ _ _ _ _ Hpk Hrun).
Qed.

(** The slot table after a successful claim. *)
Lemma claim_slots (r : ClaimRequest) (db db' : Database) :
  claim r db = (OK tt, db') ->
  exists st,
    cu_student_id (cr_user r) = Some st
    /\ appointment_schedules db'
       = update_where (fun s => schedule_id s =? cr_schedule_id r)
           (fun s =>
              set_status AppointmentStatus.booked (set_student_id (Some st) s))
           (appointment_schedules db).
Proof.
  intros Hrun. pose proof (claim_OK_endpoint r db db' Hrun) as Hep.
  revert Hrun. unfold claim, create_visit_and_complaint. rewrite Hep.
  destruct (create_visit_and_complaint_read _ _ _ db) as [c|e] eqn:Hread;
    cbn [Py.bind]; [|discriminate].
  intros H. injection H as <-.
  apply create_visit_and_complaint_read_OK in Hread.
  destruct Hread as [_ [Hid [_ [Hstu _]]]].
  exists (cc_student_id c). split; [exact Hstu|].
  unfold create_visit_and_complaint_write.
  cbn [appointment_schedules with_appointment_schedules]. now rewrite Hid.
Qed.

(** C4.  A Claim that succeeds came through POST /students/complaints (a
    POST /students/schedules never returns success), and after it the slot
    has the claiming student as its student and status booked, its other
    columns are as before and no other slot has changed; the visit table
    has one more row: a visit with a new id, linked to the slot, of the
    claiming student with the slot's doctor, in status pending and dated as
    the slot. *)
Theorem successful_claim_books_slot (r : ClaimRequest) (db db' : Database) :
  schedules_pk db ->
  claim r db = (OK tt, db') ->
  cr_endpoint r = POST_students_complaints
  /\ exists slot st v,
       slot_rows (cr_schedule_id r) db = [slot]
       /\ cu_student_id (cr_user r) = Some st
       /\ slot_rows (cr_schedule_id r) db'
          = [mkAppointmentSchedule (schedule_id slot) (doctor_id slot) (Some st)
               (availability_id slot) (start_time slot) (end_time slot)
               (date_ slot) AppointmentStatus.booked]
       /\ (forall s,
              schedule_id s <> cr_schedule_id r ->
              (In s (appointment_schedules db')
               <-> In s (appointment_schedules db)))
       /\ clinic_visits db' = clinic_visits db ++ [v]
       /\ ~ In (visit_id v) (map visit_id (clinic_visits db))
       /\ cv_schedule_id v = Some (cr_schedule_id r)
       /\ cv_status v = VisitStatus.pending
       /\ visit_date v = date_ slot
       /\ cv_student_id v = st
       /\ cv_doctor_id v = doctor_id slot.
Proof.
  intros Hpk Hrun. split; [exact (claim_OK_endpoint r db db' Hrun)|].
  destruct (claim_post_state r db db' Hpk Hrun)
    as [slot [st [v [Hrows [Hstu [Hpost Hrest]]]]]].
  destruct (claim_slots r db db' Hrun) as [st' [Hstu' Htab]].
  exists slot, st, v.
  split; [exact Hrows|]. split; [exact Hstu|]. split; [exact Hpost|].
  split; [|exact Hrest].
  intros s Hs. rewrite Htab.
  apply update_where_other; [reflexivity | now apply Z.eqb_neq].
Qed.

(** Student 10 claims available slot 1 through POST /students/complaints:
    the slot ends booked for student 10, with one pending visit of that
    student on the slot's date. *)
Lemma successful_claim_books_slot_witness :
  let db := ex_db [ex_slot AppointmentStatus.available None] [] in
  let out := claim (ex_claim POST_students_complaints ex_student_a) db in
  fst out = OK tt
  /\ slot_rows 1 (snd out)
     = [mkAppointmentSchedule 1 "DOC001" (Some 10) (Some 1) (hm 9 0) (hm 9 20)
          ex_monday AppointmentStatus.booked]
  /\ exists v,
       clinic_visits (snd out) = [v]
       /\ cv_schedule_id v = Some 1
       /\ cv_student_id v = 10
       /\ cv_status v = VisitStatus.pending
       /\ visit_date v = ex_monday.
Proof.
  intros db out. split; [reflexivity|].
  assert (Hpk : schedules_pk db).
  { unfold schedules_pk. simpl. constructor; [simpl; tauto | constructor]. }
  destruct (successful_claim_books_slot
              (ex_claim POST_students_complaints ex_student_a) db (snd out)
              Hpk eq_refl)
    as (_ & slot & st & v & Hrows & Hst & Hpost & _ & Hvis & _ & Hlink
        & Hpend & Hdate & Hstu & _).
  injection Hrows as <-. injection Hst as <-.
  split; [exact Hpost|].
  exists v. split; [exact Hvis|]. split; [exact Hlink|].
  split; [exact Hstu|]. split; [exact Hpend | exact Hdate].
Defined.

(** ** C5: how a failed claim is reported *)

(** Whatever goes wrong in [create_visit_and_complaint], the caller gets the
    500 answer of the [except Exception] handler and nothing is written. *)
Lemma create_visit_and_complaint_failure (cu : CurrentUser) (sid : Z)
  (desc : string) (db db' : Database) (e : exn) :
  create_visit_and_complaint cu sid desc db = (Raise e, db') ->
  e = HTTPException 500 "Internal error while creating visit" /\ db' = db.
Proof.
  unfold create_visit_and_complaint, create_visit_and_complaint_read.
  destruct (create_visit_and_complaint_checks cu sid desc db) as [c|e0];
    cbn [except_Exception]; [discriminate|].
  intros H. injection H as <- <-. auto.
Qed.

(** C5 at its failing inputs.  A claim through POST /students/complaints on
    a slot id that does not exist raises the 404 "Schedule not available"
    inside the handler's [try] block, and a claim on a slot that is already
    booked raises it as well; in both cases the [except Exception] clause
    turns it into the 500 answer "Internal error while creating visit",
    and the database is unchanged. *)
Theorem complaint_claim_failures_are_internal :
  let db0 := ex_db [ex_slot AppointmentStatus.available None] [] in
  let db1 := ex_db [ex_slot AppointmentStatus.booked (Some 10)] [ex_visit] in
  create_visit_and_complaint_checks ex_student_a 99 "headache" db0
  = Raise (HTTPException 404 "Schedule not available")
  /\ create_visit_and_complaint ex_student_a 99 "headache" db0
     = (Raise (HTTPException 500 "Internal error while creating visit"), db0)
  /\ create_visit_and_complaint_checks ex_student_b 1 "headache" db1
     = Raise (HTTPException 404 "Schedule not available")
  /\ create_visit_and_complaint ex_student_b 1 "headache" db1
     = (Raise (HTTPException 500 "Internal error while creating visit"), db1).
Proof. repeat split. Qed.

(** [book_schedule] does not reach its own 400 rejection: for a student
    the request ends at [db.begin()], whatever the slot. *)
Lemma book_schedule_rejections :
  let db1 := ex_db [ex_slot AppointmentStatus.booked (Some 10)] [ex_visit] in
  let db2 := ex_db [ex_slot AppointmentStatus.booked None] [] in
  book_schedule ex_student_b 99 db1
  = (Raise
       (InvalidRequestError "A transaction is already begun on this Session."),
     db1)
  /\ book_schedule ex_student_b 1 db2
     = (Raise
          (InvalidRequestError
             "A transaction is already begun on this Session."),
        db2).
Proof. split; reflexivity. Qed.

(** ** C9: overlapping slots *)

Lemma ForallOrdPairs_snoc {A : Type} (R : A -> A -> Prop) (l : list A) (x : A) :
  ForallOrdPairs R l -> Forall (fun a => R a x) l -> ForallOrdPairs R (l ++ [x]).
Proof.
  induction 1 as [|a l Ha Hl IH]; intros HF; cbn [app].
  - constructor; constructor.
  - inversion HF as [|? ? Hax HF']; subst. constructor.
    + apply Forall_app. split; [exact Ha | constructor; [exact Hax | constructor]].
    + now apply IH.
Qed.

Lemma select_where_nil {A : Type} (cond : A -> bool) (table : list A) :
  select_where cond table = [] -> Forall (fun a => cond a = false) table.
Proof.
  induction table as [|r table IH]; [constructor|].
  rewrite select_where_cons. destruct (cond r) eqn:E; [discriminate|].
  intros H. constructor; [exact E | now apply IH].
Qed.

Lemma create_schedule_try_OK (schedule : AppointmentScheduleCreate)
  (cu : CurrentUser) (db db' : Database) (s : AppointmentSchedule) :
  create_schedule_try schedule cu db = OK (s, db') ->
  exists uid,
    cu_user_id cu = Some uid
    /\ select_where (overlaps_request uid schedule) (appointment_schedules db)
       = []
    /\ appointment_schedules db'
       = insert_schedule (appointment_schedules db)
           (mkAppointmentSchedule 0 uid None
              (Some (asc_availability_id schedule)) (asc_start_time schedule)
              (asc_end_time schedule) (asc_date schedule)
              AppointmentStatus.available).
Proof.
  unfold create_schedule_try, attr_user_id.
  destruct (cu_user_id cu) as [uid|]; cbn [Py.bind]; [|discriminate].
  destruct (scalar_one_or_none _) as [[availability|]|e]; cbn [Py.bind];
    try discriminate.
  destruct (negb _); [discriminate|].
  destruct (_ || _); [discriminate|].
  destruct (select_where (overlaps_request uid schedule) _)
    as [|r [|r' rows]] eqn:Hsel; cbn [scalar_one_or_none Py.bind];
    try discriminate.
  intros H. injection H as _ <-.
  exists uid. split; [reflexivity|]. split; [exact Hsel|].
  reflexivity.
Qed.

(** Manual creation keeps the slots of a doctor on a date from
    overlapping. *)
Lemma create_schedule_no_overlap (schedule : AppointmentScheduleCreate)
  (cu : CurrentUser) (db db' : Database) (s : AppointmentSchedule) :
  no_overlap (appointment_schedules db) ->
  create_schedule schedule cu db = (OK s, db') ->
  no_overlap (appointment_schedules db').
Proof.
  intros Hinv. unfold create_schedule.
  destruct (get_current_doctor cu) as [cu'|e] eqn:Hdoc; [|discriminate].
  assert (cu' = cu) as ->.
  { unfold get_current_doctor in Hdoc. destruct (negb _); [discriminate|].
    now injection Hdoc. }
  destruct (asc_start_time schedule >=? asc_end_time schedule); [discriminate|].
  destruct (create_schedule_try schedule cu db) as [[s0 db0]|e] eqn:Htry;
    cbn [except_HTTPException_reraise].
  - intros H. injection H as <- <-.
    apply create_schedule_try_OK in Htry.
    destruct Htry as [uid [_ [Hsel Htab]]]. rewrite Htab.
    unfold insert_schedule. apply ForallOrdPairs_snoc; [exact Hinv|].
    apply select_where_nil in Hsel. exact Hsel.
  - destruct e; discriminate.
Qed.

(** A completed run of the generator appends slots whose (doctor, date,
    start, end) tuple no slot of the table had. *)
Lemma generate_schedules_new_keys (today : date) (db db' : Database) :
  generate_schedules today db = (OK tt, db') ->
  exists new,
    appointment_schedules db' = appointment_schedules db ++ new
    /\ Forall
         (fun r =>
            Forall (fun o => slot_key o <> slot_key r) (appointment_schedules db))
         new.
Proof.
  unfold generate_schedules.
  destruct (generate_session today db) as [new0|e] eqn:Hrun; [|discriminate].
  intros H. injection H as <-.
  rewrite generate_session_spec in Hrun. apply run_candidates_OK in Hrun.
  cbn [app] in Hrun.
  destruct (insert_schedules_spec new0 (appointment_schedules db))
    as [new [Heq HF]].
  exists new. split; [exact Heq|].
  assert (Hnew0 : Forall
                    (fun r =>
                       Forall (fun o => slot_key o <> slot_key r)
                         (appointment_schedules db)) new0).
  { rewrite Hrun. apply Forall_forall. intros r Hr.
    apply in_map_iff in Hr. destruct Hr as [c [<- Hc]].
    apply filter_In in Hc. destruct Hc as [_ Habs].
    unfold absent in Habs.
    destruct (select_where (has_key (candidate_key c)) (appointment_schedules db))
      eqn:Hsel; [|discriminate].
    apply select_where_nil in Hsel.
    eapply Forall_impl; [|exact Hsel]. intros o Ho E. cbv beta in Ho.
    rewrite slot_key_candidate_slot in E. apply has_key_slot_key in E.
    congruence. }
  clear Hrun Heq. induction HF as [|r r' l l' [i ->] _ IH]; [constructor|].
  inversion Hnew0 as [|? ? Hr Hl]; subst. constructor; [|now apply IH].
  destruct r; exact Hr.
Qed.

(** C9, as the code has it.  Manual single-slot creation by the doctor
    preserves the no-overlap invariant from any state that satisfies it.
    Bulk generation checks only for a slot with the exact same (doctor,
    date, start, end) tuple: the slots of a completed run are appended to
    the table and each differs in that tuple from every slot that was
    already there. *)
Theorem slot_creation_invariants :
  (forall schedule cu db db' s,
      no_overlap (appointment_schedules db) ->
      create_schedule schedule cu db = (OK s, db') ->
      no_overlap (appointment_schedules db'))
  /\ (forall today db db',
         generate_schedules today db = (OK tt, db') ->
         exists new,
           appointment_schedules db' = appointment_schedules db ++ new
           /\ Forall
                (fun r =>
                   Forall (fun o => slot_key o <> slot_key r)
                     (appointment_schedules db))
                new).
Proof.
  split.
  - intros schedule cu db db' s. apply create_schedule_no_overlap.
  - apply generate_schedules_new_keys.
Qed.

(** The doctor enters a slot from 09:10 to 09:30 for next Monday by hand;
    the generator then adds 09:00-09:20 and 09:20-09:40 from the window,
    and both overlap the manual slot. *)
Lemma generator_breaks_no_overlap :
  let db := ex_db [ex_manual_slot] [] in
  validate_date_not_in_past ex_today (asc_date ex_manual_request) = OK ex_monday
  /\ create_schedule ex_manual_request ex_doctor (ex_db [] [])
     = (OK ex_manual_slot, db)
  /\ no_overlap (appointment_schedules db)
  /\ fst (generate_schedules ex_today db) = OK tt
  /\ ~ no_overlap (appointment_schedules (snd (generate_schedules ex_today db))).
Proof.
  split; [reflexivity|].
  split; [vm_compute; reflexivity|].
  split; [repeat constructor|].
  split; [vm_compute; reflexivity|].
  intros H. inversion H as [|a l HF _]; subst.
  inversion HF as [|b l' Hab _]; subst.
  vm_compute in Hab. discriminate Hab.
Qed.

Lemma slot_creation_invariants_witness :
  let db := ex_db [ex_slot AppointmentStatus.available None] [] in
  let request := mkAppointmentScheduleCreate 1 ex_monday (hm 9 20) (hm 9 40) in
  Py.is_OK (fst (create_schedule request ex_doctor db)) = true
  /\ no_overlap (appointment_schedules (snd (create_schedule request ex_doctor db))).
Proof.
  intros db request. split; [vm_compute; reflexivity|].
  apply (proj1 slot_creation_invariants request ex_doctor db
           (snd (create_schedule request ex_doctor db))
           (mkAppointmentSchedule 2 "DOC001" None (Some 1) (hm 9 20) (hm 9 40)
              ex_monday AppointmentStatus.available)).
  - repeat constructor.
  - vm_compute. reflexivity.
Defined.

Lemma ex_window_times :
  valid_time (av_start_time ex_window)
  /\ valid_time (av_end_time ex_window)
  /\ av_start_time ex_window < av_end_time ex_window.
Proof. unfold valid_time. vm_compute. intuition discriminate. Defined.

Lemma slot_generator_idempotent_witness :
  let db1 := snd (generate_schedules ex_today (ex_db [] [])) in
  generate_schedules ex_today db1 = (OK tt, db1).
Proof.
  apply (proj2 (slot_generator_idempotent ex_today (ex_db [] []))).
  - vm_compute. reflexivity.
  - vm_compute. constructor.
    + intros [H|[]]. discriminate H.
    + constructor; [intros [] | constructor].
Defined.

(** ** C1: two claims on one slot *)

Lemma select_where_and {A : Type} (cond c1 c2 : A -> bool) (table : list A) :
  (forall x, cond x = c1 x && c2 x) ->
  select_where cond table = select_where c2 (select_where c1 table).
Proof.
  intros H. induction table as [|r table IH]; [reflexivity|].
  rewrite !select_where_cons, H. destruct (c1 r); cbn [andb].
  - rewrite select_where_cons. destruct (c2 r); now rewrite IH.
  - exact IH.
Qed.

(** One request on its own is its queries followed by its commit. *)
Lemma claim_read_commit (r : ClaimRequest) (db : Database) :
  claim r db = claim_commit (claim_read r db) db.
Proof.
  unfold claim, claim_commit, claim_read, book_schedule,
    create_visit_and_complaint.
  destruct (cr_endpoint r).
  - destruct (book_schedule_read _ _ db) as [l|e]; reflexivity.
  - destruct (create_visit_and_complaint_read _ _ _ db) as [c|e];
      cbn [Py.bind]; [|reflexivity].
    destruct (create_visit_and_complaint_write c db); reflexivity.
Qed.

(** A failed claim writes nothing. *)
Lemma claim_failure_unchanged (r : ClaimRequest) (db db' : Database) (e : exn) :
  claim r db = (Raise e, db') -> db' = db.
Proof.
  destruct (cr_endpoint r) eqn:Hep.
  - destruct (claim_by_booking_fails r db Hep) as [e0 ->].
    intros H. now injection H.
  - unfold claim. rewrite Hep.
    destruct (create_visit_and_complaint _ _ _ db) as [[v|e0] db0] eqn:Hrun;
      cbn [Py.bind]; intros H; [discriminate H|].
    injection H as _ <-.
    now destruct (create_visit_and_complaint_failure _ _ _ _ _ _ Hrun).
Qed.

(** No claim gets through on a slot that has a student and is booked. *)
Lemma claim_taken_slot_fails (r : ClaimRequest) (db : Database)
  (s : AppointmentSchedule) (st : Z) :
  slot_rows (cr_schedule_id r) db = [s] ->
  status s = AppointmentStatus.booked ->
  student_id s = Some st ->
  exists e, claim r db = (Raise e, db).
Proof.
  intros Hrows Hst Hstu. unfold slot_rows in Hrows.
  destruct (cr_endpoint r) eqn:Hep; [now apply claim_by_booking_fails|].
  unfold claim. rewrite Hep.
  unfold create_visit_and_complaint, create_visit_and_complaint_read,
    create_visit_and_complaint_checks.
  rewrite (select_where_and _
             (fun s => schedule_id s =? cr_schedule_id r)
             (fun s =>
                AppointmentStatus.eqb (status s) AppointmentStatus.available))
    by reflexivity.
  rewrite Hrows, select_where_cons, Hst. cbn. eexists; reflexivity.
Qed.

Lemma linked_visits_snoc (sid : Z) (db db' : Database) (v : ClinicVisit) :
  clinic_visits db' = clinic_visits db ++ [v] ->
  cv_schedule_id v = Some sid ->
  linked_visits sid db' = linked_visits sid db ++ [v].
Proof.
  intros Hv Hsid. unfold linked_visits, select_where.
  rewrite Hv, filter_app. cbn [filter]. rewrite Hsid. cbn [column_eq].
  now rewrite Z.eqb_refl.
Qed.

(** POST /students/complaints takes an available slot. *)
Lemma claim_by_complaint_succeeds (cu : CurrentUser) (sid st : Z) (desc : string)
  (db : Database) (slot : AppointmentSchedule) :
  slot_rows sid db = [slot] ->
  status slot = AppointmentStatus.available ->
  cu_student_id cu = Some st ->
  select_where (fun v => column_eq (cv_schedule_id v) sid && (cv_student_id v =? st))
    (clinic_visits db) = [] ->
  fst (claim (mkClaimRequest POST_students_complaints cu sid desc) db) = OK tt.
Proof.
  intros Hrows Hst Hstu Hnone. unfold slot_rows in Hrows.
  unfold claim. cbn [cr_endpoint cr_user cr_schedule_id cr_description].
  unfold create_visit_and_complaint, create_visit_and_complaint_read,
    create_visit_and_complaint_checks.
  rewrite (select_where_and _
             (fun s => schedule_id s =? sid)
             (fun s =>
                AppointmentStatus.eqb (status s) AppointmentStatus.available))
    by reflexivity.
  rewrite Hrows, select_where_cons, Hst.
  cbn [AppointmentStatus.eqb select_where filter scalar_one_or_none Py.bind].
  unfold attr_student_id. rewrite Hstu. cbn [Py.bind].
  rewrite Hnone. reflexivity.
Qed.

(** C1, as the code has it.  Two Claim requests on the same slot, through
    either endpoint, that run one after the other (the second starts after
    the first has committed): when the first succeeds, the second fails and
    writes nothing, the slot ends in status booked with the first caller as
    its student, and the slot has exactly one linked visit more than
    before.  The first request succeeds when it is a POST
    /students/complaints on an available slot on which the caller has no
    visit. *)
Theorem serial_claims_exclusive (r1 r2 : ClaimRequest) (db : Database) :
  schedules_pk db ->
  cr_schedule_id r2 = cr_schedule_id r1 ->
  let sid := cr_schedule_id r1 in
  let out := run_two Serial r1 r2 db in
  (fst (fst out) = OK tt ->
   (exists e, snd (fst out) = Raise e)
   /\ snd out = snd (claim r1 db)
   /\ (exists s st,
          slot_rows sid (snd out) = [s]
          /\ status s = AppointmentStatus.booked
          /\ student_id s = Some st
          /\ cu_student_id (cr_user r1) = Some st)
   /\ List.length (linked_visits sid (snd out))
      = S (List.length (linked_visits sid db)))
  /\ (forall slot st,
         slot_rows sid db = [slot] ->
         cu_student_id (cr_user r1) = Some st ->
         cr_endpoint r1 = POST_students_complaints ->
         status slot = AppointmentStatus.available ->
         select_where
           (fun v => column_eq (cv_schedule_id v) sid && (cv_student_id v =? st))
           (clinic_visits db) = [] ->
         fst (fst out) = OK tt).
Proof.
  intros Hpk Hsame sid out. subst out. cbn [run_two].
  destruct (claim r1 db) as [o1 db1] eqn:H1.
  destruct (claim r2 db1) as [o2 db2] eqn:H2.
  cbn [fst snd]. split.
  - intros ->.
    destruct (claim_post_state r1 db db1 Hpk H1)
      as [slot [st [v [Hrows [Hstu [Hpost [Hvis [_ [Hlink _]]]]]]]]].
    fold sid in Hrows, Hpost, Hlink.
    destruct (claim_taken_slot_fails r2 db1 _ st
                ltac:(rewrite Hsame; exact Hpost) eq_refl eq_refl) as [e He].
    rewrite He in H2. injection H2 as <- <-.
    split; [now exists e|]. split; [reflexivity|]. split.
    + eexists. exists st. split; [exact Hpost|]. auto.
    + rewrite (linked_visits_snoc sid db db1 v Hvis Hlink), length_app.
      simpl. lia.
  - intros slot st Hrows Hstu Hep Hst Hnone.
    destruct r1 as [ep cu sid1 desc].
    cbn [cr_endpoint cr_user cr_schedule_id] in *. subst sid ep.
    pose proof (claim_by_complaint_succeeds cu sid1 st desc db slot Hrows
                  Hst Hstu Hnone) as Hok.
    rewrite H1 in Hok. exact Hok.
Qed.

(** Students 10 and 11 both claim available slot 1 through POST
    /students/complaints, and both run their queries before either commits:
    both requests succeed, the slot ends with student 11, and two visits
    are linked to it. *)
Lemma overlapped_claims_both_succeed :
  run_two Overlapped (ex_claim POST_students_complaints ex_student_a)
    (ex_claim POST_students_complaints ex_student_b)
    (ex_db [ex_slot AppointmentStatus.available None] [])
  = (OK tt, OK tt,
     mkDatabase [ex_window] [ex_slot AppointmentStatus.booked (Some 11)]
       [mkClinicVisit 1 10 "DOC001" (Some 1) ex_monday VisitStatus.pending;
        mkClinicVisit 2 11 "DOC001" (Some 1) ex_monday VisitStatus.pending]
       [mkStudentComplaint 1 1 10 "headache";
        mkStudentComplaint 2 2 11 "headache"]
       []).
Proof. vm_compute. reflexivity. Qed.

(** The claim fails on an available slot in three ways: with overlapped
    requests both win; through POST /students/schedules neither wins, even
    one after the other; and through POST /students/complaints one after
    the other, the loser gets the 500 answer and not a rejection. *)
Lemma concurrent_claims_not_exclusive :
  let db0 := ex_db [ex_slot AppointmentStatus.available None] [] in
  claimable (ex_slot AppointmentStatus.available None)
  /\ ~ exclusive_outcome 1
         (run_two Overlapped (ex_claim POST_students_complaints ex_student_a)
            (ex_claim POST_students_complaints ex_student_b) db0)
  /\ ~ exclusive_outcome 1
         (run_two Serial (ex_claim POST_students_schedules ex_student_a)
            (ex_claim POST_students_schedules ex_student_b) db0)
  /\ ~ exclusive_outcome 1
         (run_two Serial (ex_claim POST_students_complaints ex_student_a)
            (ex_claim POST_students_complaints ex_student_b) db0).
Proof.
  intros db0. split; [left; reflexivity|].
  split; [|split].
  - remember (run_two Overlapped _ _ db0) as out eqn:E.
    vm_compute in E. subst out.
    intros [[[_ [c [d [H _]]]]|[[c [d [H _]]] _]] _]; discriminate H.
  - remember (run_two Serial _ _ db0) as out eqn:E.
    vm_compute in E. subst out.
    intros [[[H _]|[_ H]] _]; discriminate H.
  - remember (run_two Serial _ _ db0) as out eqn:E.
    vm_compute in E. subst out.
    intros [[[_ [c [d [H Hc]]]]|[[c [d [H _]]] _]] _]; [|discriminate H].
    injection H as <- _. lia.
Qed.

Lemma serial_claims_exclusive_witness :
  let db0 := ex_db [ex_slot AppointmentStatus.available None] [] in
  let out :=
    run_two Serial (ex_claim POST_students_complaints ex_student_a)
      (ex_claim POST_students_complaints ex_student_b) db0 in
  fst (fst out) = OK tt
  /\ (exists e, snd (fst out) = Raise e)
  /\ List.length (linked_visits 1 (snd out)) = 1%nat.
Proof.
  intros db0 out.
  assert (Hpk : schedules_pk db0).
  { unfold schedules_pk. simpl. constructor; [simpl; tauto | constructor]. }
  destruct (serial_claims_exclusive
              (ex_claim POST_students_complaints ex_student_a)
              (ex_claim POST_students_complaints ex_student_b) db0 Hpk eq_refl)
    as [Hexcl Hwin].
  assert (Hok : fst (fst out) = OK tt).
  { apply (Hwin (ex_slot AppointmentStatus.available None) 10); reflexivity. }
  split; [exact Hok|].
  destruct (Hexcl Hok) as [Hfail [_ [_ Hlen]]].
  split; [exact Hfail | exact Hlen].
Defined.

(** ** Primary keys stay unique *)

Lemma NoDup_snoc_fresh (ids : list Z) : NoDup ids -> NoDup (ids ++ [next_id ids]).
Proof.
  intros H. apply NoDup_app; [exact H | repeat constructor; intros [] |].
  intros x Hx [<-|[]]. exact (next_id_fresh ids Hx).
Qed.

Lemma insert_schedule_pk (table : list AppointmentSchedule)
  (s : AppointmentSchedule) :
  NoDup (map schedule_id table) ->
  NoDup (map schedule_id (insert_schedule table s)).
Proof.
  intros H. unfold insert_schedule. rewrite map_app. cbn [map set_schedule_id
    schedule_id]. now apply NoDup_snoc_fresh.
Qed.

Lemma insert_schedules_pk (new table : list AppointmentSchedule) :
  NoDup (map schedule_id table) ->
  NoDup (map schedule_id (insert_schedules table new)).
Proof.
  revert table. induction new as [|s new IH]; intros table H; [exact H|].
  unfold insert_schedules in *. cbn [fold_left]. apply IH.
  now apply insert_schedule_pk.
Qed.

Lemma update_where_keys {A : Type} (key : A -> Z) (cond : A -> bool) (f : A -> A)
  (table : list A) :
  (forall r, key (f r) = key r) ->
  map key (update_where cond f table) = map key table.
Proof.
  intros Hf. unfold update_where. rewrite map_map. apply map_ext.
  intros r. destruct (cond r); [apply Hf | reflexivity].
Qed.

Lemma delete_where_pk {A : Type} (key : A -> Z) (cond : A -> bool)
  (table : list A) :
  NoDup (map key table) -> NoDup (map key (delete_where cond table)).
Proof.
  unfold delete_where. induction table as [|r table IH]; intros H; [exact H|].
  cbn [map] in H. inversion H as [|? ? Hnotin Hnd]; subst.
  cbn [filter]. destruct (negb (cond r)); [|now apply IH].
  cbn [map]. constructor; [|now apply IH].
  intros Hin. apply Hnotin. apply in_map_iff in Hin.
  destruct Hin as [x [Hx Hin]]. apply filter_In in Hin.
  rewrite <- Hx. apply in_map. tauto.
Qed.

(** Every operation of the scheduling core keeps [schedule_id] a key of the
    slot table, and a claim keeps [visit_id] a key of the visit table. *)
Lemma schedules_pk_preserved (db : Database) :
  schedules_pk db ->
  (forall today, schedules_pk (snd (generate_schedules today db)))
  /\ (forall today, schedules_pk (snd (cleanup_past_schedules today db)))
  /\ (forall r, schedules_pk (snd (claim r db)))
  /\ (forall sid cu, schedules_pk (snd (cancel_schedule sid cu db)))
  /\ (forall request cu, schedules_pk (snd (create_schedule request cu db))).
Proof.
  unfold schedules_pk. intros Hpk. repeat split.
  - intros today. unfold generate_schedules.
    destruct (generate_session today db); cbn; [|exact Hpk].
    now apply insert_schedules_pk.
  - intros today.
    destruct (cleanup_cases today db) as [[_ ->]|[_ ->]]; cbn;
      [exact Hpk | now apply delete_where_pk].
  - intros r. rewrite claim_read_commit. unfold claim_commit.
    destruct (claim_read r db) as [[[s st]|c]|e]; cbn; try exact Hpk;
      now rewrite update_where_keys.
  - intros sid cu. unfold cancel_schedule.
    destruct (Py.bind _ _) as [s|e]; cbn; [|exact Hpk].
    now rewrite update_where_keys.
  - intros request cu. unfold create_schedule.
    destruct (get_current_doctor cu) as [cu'|e]; [|exact Hpk].
    destruct (_ >=? _); [exact Hpk|].
    destruct (create_schedule_try request cu' db) as [[s db']|e] eqn:Htry;
      cbn [except_HTTPException_reraise].
    + apply create_schedule_try_OK in Htry.
      destruct Htry as [uid [_ [_ Htab]]]. cbn [snd].
      rewrite Htab. now apply insert_schedule_pk.
    + destruct e; exact Hpk.
Qed.

Lemma visits_pk_preserved (db : Database) (r : ClaimRequest) :
  visits_pk db -> visits_pk (snd (claim r db)).
Proof.
  unfold visits_pk. intros Hpk. rewrite claim_read_commit. unfold claim_commit.
  destruct (claim_read r db) as [[[s st]|c]|e]; cbn; try exact Hpk;
    unfold insert_visit; rewrite map_app; cbn [map visit_id set_visit_id];
    now apply NoDup_snoc_fresh.
Qed.

(** * Further properties *)

(** ** The generator: when a run completes, and what it inserts *)

Lemma run_candidates_result (table : list AppointmentSchedule) :
  forall (cands : list Candidate) (acc : list AppointmentSchedule),
    (exists new, for_each cands (add_candidate table) acc = OK new)
    \/ for_each cands (add_candidate table) acc = Raise MultipleResultsFound.
Proof.
  induction cands as [|c cands IH]; intros acc.
  - left. now exists acc.
  - cbn [for_each]. rewrite add_candidate_cases.
    destruct (select_where (has_key (candidate_key c)) table)
      as [|r [|r' rows]]; cbn [Py.bind]; [apply IH | apply IH | now right].
Qed.

Lemma run_candidates_at_most_one_OK (table : list AppointmentSchedule) :
  forall (cands : list Candidate) (acc : list AppointmentSchedule),
    Forall
      (fun c =>
         (List.length (select_where (has_key (candidate_key c)) table) <= 1)%nat)
      cands ->
    exists new, for_each cands (add_candidate table) acc = OK new.
Proof.
  induction cands as [|c cands IH]; intros acc H.
  - now exists acc.
  - inversion H as [|? ? Hc Hcs]; subst.
    cbn [for_each]. rewrite add_candidate_cases.
    destruct (select_where (has_key (candidate_key c)) table)
      as [|r [|r' rows]]; cbn [Py.bind];
      [now apply IH | now apply IH | simpl in Hc; lia].
Qed.

(** X1.  A run of the generator completes exactly when no candidate tuple
    (doctor, date, start, end) has two or more slots in the table.  One
    tuple with two slots makes the whole run raise [MultipleResultsFound]
    and commit nothing, also for the windows that come before it. *)
Theorem generate_schedules_completes_iff (today : date) (db : Database) :
  (Forall
     (fun c =>
        (List.length
           (select_where (has_key (candidate_key c)) (appointment_schedules db))
         <= 1)%nat)
     (candidates today db) ->
   fst (generate_schedules today db) = OK tt)
  /\ (Exists
        (fun c =>
           (2 <= List.length
                   (select_where (has_key (candidate_key c))
                      (appointment_schedules db)))%nat)
        (candidates today db) ->
      generate_schedules today db = (Raise MultipleResultsFound, db)).
Proof.
  unfold generate_schedules. rewrite generate_session_spec. split.
  - intros H.
    destruct (run_candidates_at_most_one_OK _ _ [] H) as [new ->]. reflexivity.
  - intros H.
    destruct (run_candidates_result (appointment_schedules db)
                (candidates today db) []) as [[new Hok]|Hraise].
    + apply run_candidates_OK_at_most_one in Hok.
      apply Exists_exists in H. destruct H as [c [Hin Hc]].
      rewrite Forall_forall in Hok. specialize (Hok c Hin). cbv beta in Hok.
      lia.
    + now rewrite Hraise.
Qed.

Lemma generate_schedules_completes_iff_witness :
  let twice :=
    [ex_slot AppointmentStatus.available None;
     set_schedule_id 2 (ex_slot AppointmentStatus.booked (Some 10))] in
  fst (generate_schedules ex_today (ex_db [ex_manual_slot] [])) = OK tt
  /\ generate_schedules ex_today (ex_db twice [])
     = (Raise MultipleResultsFound, ex_db twice []).
Proof.
  intros twice. split.
  - apply (proj1 (generate_schedules_completes_iff ex_today
                    (ex_db [ex_manual_slot] []))).
    let cs := eval vm_compute in (candidates ex_today (ex_db [ex_manual_slot] []))
    in change (candidates ex_today (ex_db [ex_manual_slot] [])) with cs.
    repeat (constructor; [vm_compute; repeat constructor|]). constructor.
  - apply (proj2 (generate_schedules_completes_iff ex_today (ex_db twice []))).
    apply Exists_exists.
    exists (ex_window, ex_monday,
            (combine ex_monday (hm 9 0), combine ex_monday (hm 9 0) + SLOT)).
    split; [vm_compute; left; reflexivity | vm_compute; repeat constructor].
Defined.

(** The candidates of a run, one by one. *)
Lemma candidates_In (today : date) (db : Database) (c : Candidate) :
  In c (candidates today db) ->
  exists w i,
    In w (availabilities db)
    /\ av_status w = AvailabilityStatus.active
    /\ 0 <= i < Z.of_nat (slot_count (av_start_time w) (av_end_time w))
    /\ c = (w, next_monday today + day_index (av_day_of_week w),
            (combine (next_monday today + day_index (av_day_of_week w))
               (av_start_time w) + i * SLOT,
             combine (next_monday today + day_index (av_day_of_week w))
               (av_start_time w) + (i + 1) * SLOT)).
Proof.
  unfold candidates, active_availabilities. rewrite in_flat_map.
  intros [w [Hw Hc]]. apply select_where_In in Hw. destruct Hw as [Hw Hact].
  unfold candidates_of_availability in Hc. rewrite next_week_dates in Hc.
  cbn [flat_map] in Hc. rewrite app_nil_r, slot_count_combine in Hc.
  rewrite sub_intervals_range, map_map in Hc.
  apply in_map_iff in Hc. destruct Hc as [i [<- Hi]]. apply in_range in Hi.
  exists w, i. repeat split; try assumption; try lia.
  destruct (av_status w); [reflexivity | discriminate].
Qed.

Lemma candidates_of_active (today : date) (db : Database) (w : Availability) :
  In w (availabilities db) ->
  av_status w = AvailabilityStatus.active ->
  incl (candidates_of_availability today w) (candidates today db).
Proof.
  intros Hw Hact c Hc. unfold candidates. apply in_flat_map. exists w.
  split; [|exact Hc]. apply select_where_In. split; [exact Hw|].
  now rewrite Hact.
Qed.

(** The new slots of a completed run, as slots of windows. *)
Lemma generate_schedules_new_slots (today : date) (db db' : Database) :
  generate_schedules today db = (OK tt, db') ->
  exists new,
    db' = with_appointment_schedules (appointment_schedules db ++ new) db
    /\ Forall
         (fun r =>
            exists c id,
              In c (candidates today db)
              /\ absent (appointment_schedules db) c = true
              /\ r = set_schedule_id id (candidate_slot c))
         new.
Proof.
  unfold generate_schedules.
  destruct (generate_session today db) as [new0|e] eqn:Hrun; [|discriminate].
  intros H. injection H as <-.
  rewrite generate_session_spec in Hrun. apply run_candidates_OK in Hrun.
  cbn [app] in Hrun.
  destruct (insert_schedules_spec new0 (appointment_schedules db))
    as [new [Heq HF]].
  exists new. split; [now rewrite Heq|].
  assert (Hnew0 : Forall
                    (fun r =>
                       exists c,
                         In c (candidates today db)
                         /\ absent (appointment_schedules db) c = true
                         /\ r = candidate_slot c) new0).
  { rewrite Hrun. apply Forall_forall. intros r Hr.
    apply in_map_iff in Hr. destruct Hr as [c [<- Hc]].
    apply filter_In in Hc. exists c. tauto. }
  clear Hrun Heq. induction HF as [|r r' l l' [i ->] _ IH]; [constructor|].
  inversion Hnew0 as [|? ? [c [Hin [Habs ->]]] Hl]; subst.
  constructor; [|now apply IH]. now exists c, i.
Qed.

Lemma slot_count_pos (s e : time) (i : Z) :
  0 <= i < Z.of_nat (slot_count s e) -> s < e.
Proof.
  intros Hi. destruct (slot_count s e) as [|k] eqn:Hk; [lia|].
  apply slot_count_succ in Hk. pose proof SLOT_value. lia.
Qed.

Lemma candidate_slot_of_window (today : date) (db : Database) (c : Candidate)
  (id : Z) :
  Forall valid_window (availabilities db) ->
  In c (candidates today db) ->
  exists w,
    In w (availabilities db)
    /\ av_status w = AvailabilityStatus.active
    /\ slot_of_window today w (set_schedule_id id (candidate_slot c)).
Proof.
  intros Hvalid Hc.
  destruct (candidates_In today db c Hc) as [w [i [Hw [Hact [Hi ->]]]]].
  exists w. split; [exact Hw|]. split; [exact Hact|].
  exists i, id. split; [exact Hi|].
  rewrite Forall_forall in Hvalid. destruct (Hvalid w Hw) as [Hs He].
  cbn [candidate_slot fst snd].
  rewrite new_slot_window_slot;
    [reflexivity | exact Hs | exact He | exact (slot_count_pos _ _ _ Hi)
    | exact Hi].
Qed.

(** What a slot of a window looks like. *)
Lemma slot_of_window_facts (today : date) (w : Availability)
  (r : AppointmentSchedule) :
  slot_of_window today w r ->
  doctor_id r = av_doctor_id w
  /\ availability_id r = Some (av_availability_id w)
  /\ student_id r = None
  /\ status r = AppointmentStatus.available
  /\ date_ r = next_monday today + day_index (av_day_of_week w)
  /\ today < date_ r <= today + 13
  /\ calendar_day_name (weekday (date_ r)) = DayOfWeek.value (av_day_of_week w)
  /\ av_start_time w <= start_time r
  /\ end_time r = start_time r + SLOT
  /\ end_time r <= av_end_time w
  /\ (start_time r - av_start_time w) mod SLOT = 0.
Proof.
  intros [i [id [Hi ->]]].
  pose proof (slot_count_bounds _ _ (slot_count_pos _ _ _ Hi)) as [_ Hb].
  pose proof (day_index_range (av_day_of_week w)) as Hidx.
  pose proof (next_monday_bounds today) as Hnm.
  pose proof SLOT_value as HS.
  cbn [set_schedule_id window_slot doctor_id availability_id student_id status
         date_ start_time end_time].
  do 5 (split; [reflexivity|]).
  split; [lia|]. split.
  { change (day_index (av_day_of_week w))
      with (timedelta_days (day_index (av_day_of_week w))).
    rewrite weekday_in_next_week by exact Hidx.
    apply calendar_day_name_index. }
  split; [nia|]. split; [lia|]. split; [nia|].
  replace (av_start_time w + i * SLOT - av_start_time w) with (i * SLOT) by lia.
  apply Z.mod_mul. lia.
Qed.

(** X2.  Whatever the windows and the table, the slots a completed run
    inserts are appended to the table, and each of them comes from an
    active window: it has the window's doctor and id, no student and status
    available; its date is the window's day of the week in the coming
    Monday-to-Sunday week, so after today; it starts a whole number of
    20-minute steps after the window's start, lasts 20 minutes and ends
    inside the window.  No other table changes. *)
Theorem generated_slots_shape (today : date) (db db' : Database) :
  Forall valid_window (availabilities db) ->
  generate_schedules today db = (OK tt, db') ->
  exists new,
    db' = with_appointment_schedules (appointment_schedules db ++ new) db
    /\ Forall
         (fun r =>
            exists w,
              In w (availabilities db)
              /\ av_status w = AvailabilityStatus.active
              /\ doctor_id r = av_doctor_id w
              /\ availability_id r = Some (av_availability_id w)
              /\ student_id r = None
              /\ status r = AppointmentStatus.available
              /\ date_ r = next_monday today + day_index (av_day_of_week w)
              /\ today < date_ r <= today + 13
              /\ calendar_day_name (weekday (date_ r))
                 = DayOfWeek.value (av_day_of_week w)
              /\ av_start_time w <= start_time r
              /\ end_time r = start_time r + SLOT
              /\ end_time r <= av_end_time w
              /\ (start_time r - av_start_time w) mod SLOT = 0)
         new.
Proof.
  intros Hvalid Hrun.
  destruct (generate_schedules_new_slots today db db' Hrun) as [new [Hdb HF]].
  exists new. split; [exact Hdb|].
  eapply Forall_impl; [|exact HF]. intros r [c [id [Hc [_ ->]]]].
  destruct (candidate_slot_of_window today db c id Hvalid Hc)
    as [w [Hw [Hact Hslot]]].
  exists w. split; [exact Hw|]. split; [exact Hact|].
  exact (slot_of_window_facts today w _ Hslot).
Qed.

Lemma ex_window_valid : Forall valid_window [ex_window].
Proof.
  constructor; [|constructor]. destruct ex_window_times as [Hs [He _]].
  split; assumption.
Defined.

Lemma generated_slots_shape_witness :
  let db := ex_db [ex_manual_slot] [] in
  exists new,
    snd (generate_schedules ex_today db)
    = with_appointment_schedules (appointment_schedules db ++ new) db
    /\ Forall
         (fun r =>
            ex_today < date_ r /\ status r = AppointmentStatus.available)
         new.
Proof.
  intros db.
  destruct (generated_slots_shape ex_today db (snd (generate_schedules ex_today db))
              ex_window_valid ltac:(vm_compute; reflexivity))
    as [new [Hdb HF]].
  exists new. split; [exact Hdb|].
  eapply Forall_impl; [|exact HF]. intros r [w H]. cbv beta. tauto.
Defined.

Lemma slot_count_short (s e : time) : e - s < SLOT -> slot_count s e = O.
Proof.
  unfold slot_count. rewrite SLOT_value. intros H.
  pose proof (Z.mod_pos_bound (e - s) 1200000000 ltac:(lia)).
  pose proof (Z.div_mod (e - s) 1200000000 ltac:(lia)). lia.
Qed.

(** X3.  A window that cannot hold a whole slot (its end less than 20
    minutes after its start, or not after it at all) is passed over without
    an error, and so is an inactive window: when every active window is
    like that, the run completes and leaves the database as it is. *)
Theorem generator_skips_short_windows (today : date) (db : Database) :
  (forall w,
      In w (availabilities db) ->
      av_status w = AvailabilityStatus.active ->
      av_end_time w - av_start_time w < SLOT) ->
  generate_schedules today db = (OK tt, db).
Proof.
  intros Hshort.
  assert (Hnil : candidates today db = []).
  { destruct (candidates today db) as [|c cs] eqn:E; [reflexivity|].
    destruct (candidates_In today db c ltac:(rewrite E; now left))
      as [w [i [Hw [Hact [Hi _]]]]].
    rewrite (slot_count_short _ _ (Hshort w Hw Hact)) in Hi. simpl in Hi. lia. }
  unfold generate_schedules. rewrite generate_session_spec, Hnil.
  cbn [for_each insert_schedules fold_left].
  now rewrite with_appointment_schedules_same.
Qed.

Lemma generator_skips_short_windows_witness :
  let db :=
    mkDatabase
      [mkAvailability 1 "DOC001" DayOfWeek.Monday (hm 9 0) (hm 9 19)
         AvailabilityStatus.active;
       mkAvailability 2 "DOC001" DayOfWeek.Tuesday (hm 11 0) (hm 10 0)
         AvailabilityStatus.active;
       mkAvailability 3 "DOC001" DayOfWeek.Friday (hm 9 0) (hm 12 0)
         AvailabilityStatus.inactive]
      [ex_manual_slot] [] [] [] in
  generate_schedules ex_today db = (OK tt, db).
Proof.
  intros db. apply generator_skips_short_windows.
  intros w [<-|[<-|[<-|[]]]] Hact; vm_compute; (reflexivity || discriminate Hact).
Defined.

(** ** The cleaner: repeated runs, and runs after the generator *)

Lemma filter_filter_implies {A : Type} (p q : A -> bool) (l : list A) :
  (forall x, p x = true -> q x = true) -> filter p (filter q l) = filter p l.
Proof.
  intros H. induction l as [|x l IH]; [reflexivity|].
  cbn [filter]. destruct (q x) eqn:Eq; cbn [filter].
  - now rewrite IH.
  - destruct (p x) eqn:Ep; [|exact IH]. apply H in Ep. congruence.
Qed.

Lemma filter_all {A : Type} (p : A -> bool) (l : list A) :
  Forall (fun x => p x = true) l -> filter p l = l.
Proof.
  induction 1 as [|x l Hx _ IH]; [reflexivity|].
  cbn [filter]. now rewrite Hx, IH.
Qed.

Lemma stale_mono (t1 t2 : date) (s : AppointmentSchedule) :
  t1 <= t2 -> stale t1 s = true -> stale t2 s = true.
Proof.
  unfold stale. rewrite !andb_true_iff, !Z.ltb_lt. intros Hle [Hd Hs].
  split; [lia | exact Hs].
Qed.

Lemma cleanup_free (today : date) (db : Database) :
  ~ cleaner_blocked today db ->
  cleanup_past_schedules today db
  = (OK tt,
     with_appointment_schedules
       (delete_where (stale today) (appointment_schedules db)) db).
Proof.
  intros Hfree. destruct (cleanup_cases today db) as [[Hb _]|[_ H]];
    [contradiction | exact H].
Qed.

Lemma cleaner_blocked_mono (t1 t2 : date) (db : Database) :
  t1 <= t2 -> cleaner_blocked t1 db -> cleaner_blocked t2 db.
Proof.
  intros Hle [s [v [Hin [Hd H]]]]. exists s, v.
  split; [exact Hin|]. split; [lia | exact H].
Qed.

(** Removing slots unblocks nothing that was free. *)
Lemma cleaner_blocked_filter (today : date) (p : AppointmentSchedule -> bool)
  (db : Database) :
  cleaner_blocked today
    (with_appointment_schedules (filter p (appointment_schedules db)) db) ->
  cleaner_blocked today db.
Proof.
  intros [s [v [Hin H]]]. exists s, v. split; [|exact H].
  cbn [appointment_schedules with_appointment_schedules] in Hin.
  apply filter_In in Hin. tauto.
Qed.

(** After a run that completed on [t2], nothing is left for a run on an
    earlier date. *)
Lemma cleaned_not_blocked (t1 t2 : date) (db : Database) :
  t1 <= t2 ->
  ~ cleaner_blocked t1
      (with_appointment_schedules
         (delete_where (stale t2) (appointment_schedules db)) db).
Proof.
  intros Hle [s [v [Hin [Hd [Hs _]]]]].
  cbn [appointment_schedules with_appointment_schedules] in Hin.
  apply filter_In in Hin. destruct Hin as [_ Hk].
  assert (Hst : stale t2 s = true) by (apply stale_spec; split; [lia | exact Hs]).
  rewrite Hst in Hk. discriminate Hk.
Qed.

(** X4.  Running the cleaner again on the same date changes nothing,
    whether the run completes or stops on the foreign key.  For
    [t1 <= t2], when no slot the run on [t2] selects is referred to by a
    visit, the runs on [t1] and [t2] complete in either order, and cleaning
    on [t1] and then on [t2], or on [t2] and then on [t1], leaves the
    database that one run on [t2] leaves. *)
Theorem slot_cleaner_repeated (t1 t2 : date) (db : Database) :
  t1 <= t2 ->
  cleanup_past_schedules t1 (snd (cleanup_past_schedules t1 db))
  = (fst (cleanup_past_schedules t1 db), snd (cleanup_past_schedules t1 db))
  /\ (~ cleaner_blocked t2 db ->
      fst (cleanup_past_schedules t1 db) = OK tt
      /\ cleanup_past_schedules t2 (snd (cleanup_past_schedules t1 db))
         = cleanup_past_schedules t2 db
      /\ cleanup_past_schedules t1 (snd (cleanup_past_schedules t2 db))
         = cleanup_past_schedules t2 db).
Proof.
  intros Hle. split.
  - destruct (cleanup_cases t1 db) as [[Hb E]|[Hfree E]]; rewrite E;
      cbn [fst snd]; [exact E|].
    rewrite cleanup_free by (apply cleaned_not_blocked; lia).
    f_equal. unfold with_appointment_schedules.
    cbn [appointment_schedules availabilities clinic_visits complaints
           diagnoses].
    f_equal. unfold delete_where. apply filter_filter_implies. auto.
  - intros Hfree2.
    assert (Hfree1 : ~ cleaner_blocked t1 db)
      by (intros H; apply Hfree2; now apply (cleaner_blocked_mono t1 t2)).
    rewrite (cleanup_free t1 db Hfree1), (cleanup_free t2 db Hfree2).
    cbn [fst snd]. split; [reflexivity|]. split.
    + rewrite cleanup_free
        by (intros H; apply Hfree2; unfold delete_where in H;
            now apply cleaner_blocked_filter in H).
      f_equal. unfold with_appointment_schedules.
      cbn [appointment_schedules availabilities clinic_visits complaints
             diagnoses].
      f_equal. unfold delete_where. apply filter_filter_implies.
      intros s Hs. destruct (stale t1 s) eqn:E1; [|reflexivity].
      apply (stale_mono t1 t2 s Hle) in E1. rewrite E1 in Hs. discriminate.
    + rewrite cleanup_free by (now apply cleaned_not_blocked).
      f_equal. unfold with_appointment_schedules.
      cbn [appointment_schedules availabilities clinic_visits complaints
             diagnoses].
      f_equal. unfold delete_where. rewrite filter_all; [reflexivity|].
      apply Forall_forall. intros s Hs. apply filter_In in Hs.
      destruct Hs as [_ Hs]. destruct (stale t1 s) eqn:E1; [|reflexivity].
      apply (stale_mono t1 t2 s Hle) in E1. rewrite E1 in Hs. discriminate.
Qed.

(** A past available slot and a past booked slot with its visit: the run
    of today and the run of next Tuesday, in this order, leave the booked
    slot alone. *)
Lemma slot_cleaner_repeated_witness :
  let past := ex_today - 1 in
  let s1 :=
    mkAppointmentSchedule 1 "DOC001" None (Some 1) (hm 9 0) (hm 9 20) past
      AppointmentStatus.available in
  let s2 :=
    mkAppointmentSchedule 2 "DOC001" (Some 10) (Some 1) (hm 9 20) (hm 9 40)
      past AppointmentStatus.booked in
  let visits := [mkClinicVisit 1 10 "DOC001" (Some 2) past VisitStatus.pending] in
  let db := ex_db [s1; s2; set_schedule_id 3 (ex_slot AppointmentStatus.available None)] visits in
  cleanup_past_schedules (ex_monday + 1)
    (snd (cleanup_past_schedules ex_today db))
  = (OK tt, ex_db [s2] visits).
Proof.
  intros past s1 s2 visits db.
  assert (Hfree : ~ cleaner_blocked (ex_monday + 1) db).
  { intros H. apply cleaner_blocked_spec in H. vm_compute in H. discriminate H. }
  destruct (proj2 (slot_cleaner_repeated ex_today (ex_monday + 1) db
                     ltac:(vm_compute; discriminate)) Hfree)
    as [_ [H12 _]].
  rewrite H12. vm_compute. reflexivity.
Defined.

(** The new slots of a generator run do not block the cleaner. *)
Lemma cleaner_blocked_app (today : date) (db : Database)
  (new : list AppointmentSchedule) :
  Forall (fun r => stale today r = false) new ->
  (cleaner_blocked today
     (with_appointment_schedules (appointment_schedules db ++ new) db)
   <-> cleaner_blocked today db).
Proof.
  intros Hnew. split.
  - intros [s [v [Hin [Hd [Hs Hv]]]]].
    cbn [appointment_schedules with_appointment_schedules clinic_visits] in *.
    apply in_app_iff in Hin. destruct Hin as [Hin|Hin].
    + exists s, v. tauto.
    + rewrite Forall_forall in Hnew. specialize (Hnew s Hin).
      assert (Hst : stale today s = true) by (apply stale_spec; now split).
      congruence.
  - intros [s [v [Hin H]]]. exists s, v. split; [|exact H].
    cbn [appointment_schedules with_appointment_schedules].
    apply in_app_iff. now left.
Qed.

(** X5.  The slots a run of the generator inserts are dated in the coming
    week, so a cleaner run up to the next Monday removes none of them and
    is not stopped by them: it ends as it would have ended without the
    generator run, and leaves the slots it would have left, followed by
    every new slot. *)
Theorem cleaner_keeps_generated (today today' : date) (db db1 : Database) :
  today' <= next_monday today ->
  generate_schedules today db = (OK tt, db1) ->
  exists new,
    appointment_schedules db1 = appointment_schedules db ++ new
    /\ fst (cleanup_past_schedules today' db1)
       = fst (cleanup_past_schedules today' db)
    /\ appointment_schedules (snd (cleanup_past_schedules today' db1))
       = appointment_schedules (snd (cleanup_past_schedules today' db)) ++ new.
Proof.
  intros Hle Hrun.
  destruct (generate_schedules_new_slots today db db1 Hrun) as [new [-> HF]].
  exists new. split; [reflexivity|].
  assert (Hnew : Forall (fun r => stale today' r = false) new).
  { eapply Forall_impl; [|exact HF].
    intros r [c [id [Hc [_ ->]]]].
    destruct (candidates_In today db c Hc) as [w [i [_ [_ [_ ->]]]]].
    pose proof (day_index_range (av_day_of_week w)).
    unfold stale. cbn [set_schedule_id candidate_slot new_slot date_ fst snd].
    replace (_ <? today') with false by (symmetry; apply Z.ltb_ge; lia).
    reflexivity. }
  pose proof (cleaner_blocked_app today' db new Hnew) as Hiff.
  destruct (cleanup_cases today' db) as [[Hb E]|[Hfree E]]; rewrite E;
    cbn [fst snd].
  - destruct (cleanup_cases today'
                (with_appointment_schedules (appointment_schedules db ++ new) db))
      as [[_ E1]|[Hfree1 _]]; [|tauto].
    rewrite E1. split; reflexivity.
  - rewrite cleanup_free by tauto. cbn [fst snd]. split; [reflexivity|].
    cbn [appointment_schedules with_appointment_schedules].
    unfold delete_where. rewrite filter_app. f_equal.
    apply filter_all. eapply Forall_impl; [|exact Hnew].
    intros r Hr. cbv beta. now rewrite Hr.
Qed.

Lemma cleaner_keeps_generated_witness :
  appointment_schedules
    (snd (cleanup_past_schedules (ex_today + 1)
            (snd (generate_schedules ex_today (ex_db [] [])))))
  = appointment_schedules (snd (generate_schedules ex_today (ex_db [] []))).
Proof.
  destruct (cleaner_keeps_generated ex_today (ex_today + 1) (ex_db [] [])
              (snd (generate_schedules ex_today (ex_db [] [])))
              ltac:(vm_compute; discriminate) ltac:(vm_compute; reflexivity))
    as [new [Hnew [_ Hclean]]].
  rewrite Hclean, Hnew. reflexivity.
Defined.

(** ** Availability windows *)

Lemma ids_below_next (ids : list Z) (x : Z) : In x ids -> x <> next_id ids.
Proof. intros Hin ->. exact (next_id_fresh ids Hin). Qed.

Lemma create_availability_OK (req : AvailabilityCreate) (cu : CurrentUser)
  (db db' : Database) (a : Availability) :
  create_availability req cu db = (OK a, db') ->
  exists uid,
    cu_role cu = "doctor"%string
    /\ cu_user_id cu = Some uid
    /\ ac_start_time req < ac_end_time req
    /\ select_where (overlaps_window_request uid req) (availabilities db) = []
    /\ a = mkAvailability (next_id (map av_availability_id (availabilities db)))
             uid (ac_day_of_week req) (ac_start_time req) (ac_end_time req)
             (ac_status req)
    /\ db' = with_availabilities (availabilities db ++ [a]) db.
Proof.
  unfold create_availability, get_current_doctor.
  destruct (negb (String.eqb (cu_role cu) "doctor")) eqn:Hrole; [discriminate|].
  apply role_of_eqb in Hrole.
  destruct (ac_start_time req >=? ac_end_time req) eqn:Hge; [discriminate|].
  unfold attr_user_id. destruct (cu_user_id cu) as [uid|]; cbn [Py.bind];
    [|discriminate].
  destruct (select_where (overlaps_window_request uid req) (availabilities db))
    as [|w [|w' ws]] eqn:Hsel; cbn [scalar_one_or_none Py.bind];
    try discriminate.
  intros H. injection H as <- <-. exists uid.
  repeat split; try assumption; try reflexivity.
  rewrite Z.geb_leb in Hge. apply Z.leb_gt in Hge. exact Hge.
Qed.

(** X6.  Creating a window keeps the windows of a doctor on a day of the
    week from overlapping, starting from any window table in which they do
    not overlap; the window it adds starts before it ends, gets a key no
    other window has and is appended to the table, and no other table
    changes: the slots, the visits, the complaints and the diagnoses are
    as before. *)
Theorem create_availability_keeps_windows_apart (req : AvailabilityCreate)
  (cu : CurrentUser) (db db' : Database) (a : Availability) :
  windows_no_overlap (availabilities db) ->
  create_availability req cu db = (OK a, db') ->
  windows_no_overlap (availabilities db')
  /\ av_start_time a < av_end_time a
  /\ availabilities db' = availabilities db ++ [a]
  /\ ~ In (av_availability_id a) (map av_availability_id (availabilities db))
  /\ appointment_schedules db' = appointment_schedules db
  /\ clinic_visits db' = clinic_visits db
  /\ complaints db' = complaints db
  /\ diagnoses db' = diagnoses db.
Proof.
  intros Hinv Hrun.
  destruct (create_availability_OK req cu db db' a Hrun)
    as [uid [_ [_ [Hlt [Hsel [Ha ->]]]]]].
  cbn [availabilities appointment_schedules clinic_visits complaints diagnoses
         with_availabilities].
  split.
  - apply ForallOrdPairs_snoc; [exact Hinv|].
    apply select_where_nil in Hsel. subst a. exact Hsel.
  - subst a. cbn [av_start_time av_end_time av_availability_id].
    repeat split; try assumption. apply next_id_fresh.
Qed.

Lemma create_availability_keeps_windows_apart_witness :
  let req :=
    mkAvailabilityCreate DayOfWeek.Monday (hm 9 40) (hm 11 0)
      AvailabilityStatus.active in
  let out := create_availability req ex_doctor (ex_db [] []) in
  Py.is_OK (fst out) = true /\ windows_no_overlap (availabilities (snd out)).
Proof.
  intros req out. split; [reflexivity|].
  apply (create_availability_keeps_windows_apart req ex_doctor (ex_db [] [])
           (snd out)
           (mkAvailability 2 "DOC001" DayOfWeek.Monday (hm 9 40) (hm 11 0)
              AvailabilityStatus.active)).
  - repeat constructor.
  - reflexivity.
Defined.

(** X7.  A window that was created shows in the doctor's list and cannot
    be deleted through DELETE /doctor/availability/{id}: after
    [create_availability] has succeeded, the doctor's list of windows is
    the old list followed by the new window, and the doctor's request to
    delete the new window stops at [db.begin()] with [InvalidRequestError]
    and leaves the database as it is. *)
Theorem created_window_stays (req : AvailabilityCreate)
  (cu : CurrentUser) (db db' : Database) (a : Availability) :
  create_availability req cu db = (OK a, db') ->
  (exists own,
      get_availabilities cu db = OK own
      /\ get_availabilities cu db' = OK (own ++ [a]))
  /\ delete_availability (av_availability_id a) cu db'
     = (Raise
          (InvalidRequestError
             "A transaction is already begun on this Session."),
        db').
Proof.
  intros Hrun.
  destruct (create_availability_OK req cu db db' a Hrun)
    as [uid [Hrole [Huid [_ [_ [Ha ->]]]]]].
  assert (Hdoc : av_doctor_id a = uid) by (subst a; reflexivity).
  split.
  - exists (select_where (fun x => String.eqb (av_doctor_id x) uid)
              (availabilities db)).
    unfold get_availabilities, get_current_doctor.
    rewrite (role_eqb _ _ Hrole). cbn [Py.bind].
    unfold attr_user_id. rewrite Huid. cbn [Py.bind availabilities
      with_availabilities].
    split; [reflexivity|].
    unfold select_where. rewrite filter_app. cbn [filter].
    now rewrite Hdoc, String.eqb_refl.
  - unfold delete_availability, get_current_doctor.
    rewrite (role_eqb _ _ Hrole). cbn [Py.bind].
    now rewrite begin_request_session.
Qed.

Lemma created_window_stays_witness :
  let req :=
    mkAvailabilityCreate DayOfWeek.Monday (hm 9 40) (hm 11 0)
      AvailabilityStatus.active in
  let a :=
    mkAvailability 2 "DOC001" DayOfWeek.Monday (hm 9 40) (hm 11 0)
      AvailabilityStatus.active in
  let db' := snd (create_availability req ex_doctor (ex_db [ex_manual_slot] [])) in
  get_availabilities ex_doctor db' = OK [ex_window; a]
  /\ availabilities (snd (delete_availability 2 ex_doctor db'))
     = [ex_window; a].
Proof.
  intros req a db'.
  destruct (created_window_stays req ex_doctor (ex_db [ex_manual_slot] []) db' a
              eq_refl)
    as [[own [Hown Hlist]] Hdel].
  injection Hown as <-. split; [exact Hlist|].
  change (av_availability_id a) with 2 in Hdel. rewrite Hdel. reflexivity.
Defined.

(** ** Requests that overlap two rows *)

Lemma scalar_one_or_none_many {A : Type} (rows : list A) :
  (2 <= List.length rows)%nat ->
  scalar_one_or_none rows = Raise MultipleResultsFound.
Proof.
  destruct rows as [|r [|r' rows]]; simpl; intros H; (lia || reflexivity).
Qed.

(** X8.  The overlap checks of [create_availability] and [create_schedule]
    answer 409 only when exactly one existing row overlaps the request.
    When the request overlaps two or more rows (a window from 09:30 to 10:30
    against windows 09:00-10:00 and 10:00-11:00), [scalar_one_or_none]
    raises: [create_availability] lets [MultipleResultsFound] through, and
    [create_schedule] answers 500 "Failed to create schedule".  Nothing is
    written in either case. *)
Theorem overlap_with_two_rows_is_internal (cu : CurrentUser) (uid : string)
  (db : Database) :
  cu_role cu = "doctor"%string ->
  cu_user_id cu = Some uid ->
  (forall req,
      ac_start_time req < ac_end_time req ->
      (2 <= List.length
              (select_where (overlaps_window_request uid req)
                 (availabilities db)))%nat ->
      create_availability req cu db = (Raise MultipleResultsFound, db))
  /\ (forall req w,
         asc_start_time req < asc_end_time req ->
         select_where
           (fun a =>
              (av_availability_id a =? asc_availability_id req)
              && String.eqb (av_doctor_id a) uid
              && AvailabilityStatus.eqb (av_status a) AvailabilityStatus.active)
           (availabilities db) = [w] ->
         nth (Z.to_nat (weekday (asc_date req))) weekday_names EmptyString
         = DayOfWeek.value (av_day_of_week w) ->
         av_start_time w <= asc_start_time req ->
         asc_end_time req <= av_end_time w ->
         (2 <= List.length
                 (select_where (overlaps_request uid req)
                    (appointment_schedules db)))%nat ->
         create_schedule req cu db
         = (Raise (HTTPException 500 "Failed to create schedule"), db)).
Proof.
  intros Hrole Huid. split.
  - intros req Hlt Hmany.
    unfold create_availability, get_current_doctor.
    rewrite (role_eqb _ _ Hrole).
    replace (ac_start_time req >=? ac_end_time req) with false
      by (symmetry; rewrite Z.geb_leb; apply Z.leb_gt; exact Hlt).
    unfold attr_user_id. rewrite Huid. cbn [Py.bind].
    now rewrite (scalar_one_or_none_many _ Hmany).
  - intros req w Hlt Hav Hday Hs He Hmany.
    unfold create_schedule, get_current_doctor.
    rewrite (role_eqb _ _ Hrole).
    replace (asc_start_time req >=? asc_end_time req) with false
      by (symmetry; rewrite Z.geb_leb; apply Z.leb_gt; exact Hlt).
    unfold create_schedule_try, attr_user_id. rewrite Huid. cbn [Py.bind].
    rewrite Hav. cbn [scalar_one_or_none Py.bind].
    rewrite Hday, String.eqb_refl. cbn [negb].
    replace (asc_start_time req <? av_start_time w) with false
      by (symmetry; apply Z.ltb_ge; lia).
    replace (asc_end_time req >? av_end_time w) with false
      by (symmetry; rewrite Z.gtb_ltb; apply Z.ltb_ge; lia).
    cbn [orb]. now rewrite (scalar_one_or_none_many _ Hmany).
Qed.

Lemma overlap_with_two_rows_is_internal_witness :
  let windows :=
    [mkAvailability 1 "DOC001" DayOfWeek.Monday (hm 9 0) (hm 10 0)
       AvailabilityStatus.active;
     mkAvailability 2 "DOC001" DayOfWeek.Monday (hm 10 0) (hm 11 0)
       AvailabilityStatus.active] in
  let db := mkDatabase windows [] [] [] [] in
  let db2 := snd (generate_schedules ex_today (ex_db [] [])) in
  (windows_no_overlap windows
   /\ create_availability
        (mkAvailabilityCreate DayOfWeek.Monday (hm 9 30) (hm 10 30)
           AvailabilityStatus.active)
        ex_doctor db
      = (Raise MultipleResultsFound, db))
  /\ create_schedule ex_manual_request ex_doctor db2
     = (Raise (HTTPException 500 "Failed to create schedule"), db2).
Proof.
  intros windows db db2. split; [split; [repeat constructor|]|].
  - apply (proj1 (overlap_with_two_rows_is_internal ex_doctor "DOC001" db
                    eq_refl eq_refl)).
    + vm_compute. reflexivity.
    + vm_compute. repeat constructor.
  - apply (proj2 (overlap_with_two_rows_is_internal ex_doctor "DOC001" db2
                    eq_refl eq_refl) ex_manual_request ex_window).
    + vm_compute. reflexivity.
    + vm_compute. reflexivity.
    + vm_compute. reflexivity.
    + vm_compute. discriminate.
    + vm_compute. discriminate.
    + vm_compute. repeat constructor.
Defined.

(** ** Generation from windows that do not overlap *)

Lemma FOP_app {A : Type} (R : A -> A -> Prop) (l1 l2 : list A) :
  ForallOrdPairs R l1 -> ForallOrdPairs R l2 ->
  (forall a b, In a l1 -> In b l2 -> R a b) ->
  ForallOrdPairs R (l1 ++ l2).
Proof.
  induction 1 as [|a l Ha Hl IH]; intros H2 Hc; cbn [app]; [exact H2|].
  constructor.
  - apply Forall_app. split; [exact Ha|].
    apply Forall_forall. intros b Hb. apply Hc; [now left | exact Hb].
  - apply IH; [exact H2|]. intros x y Hx Hy. apply Hc; [now right | exact Hy].
Qed.

Lemma FOP_map {A B : Type} (f : A -> B) (R : B -> B -> Prop) (l : list A) :
  ForallOrdPairs (fun a b => R (f a) (f b)) l -> ForallOrdPairs R (map f l).
Proof.
  induction 1 as [|a l Ha Hl IH]; cbn [map]; constructor; [|exact IH].
  apply Forall_map. exact Ha.
Qed.

Lemma FOP_filter {A : Type} (R : A -> A -> Prop) (p : A -> bool) (l : list A) :
  ForallOrdPairs R l -> ForallOrdPairs R (filter p l).
Proof.
  induction 1 as [|a l Ha Hl IH]; cbn [filter]; [constructor|].
  destruct (p a); [|exact IH]. constructor; [|exact IH].
  rewrite Forall_forall in *. intros x Hx. apply Ha.
  apply filter_In in Hx. tauto.
Qed.

Lemma FOP_impl_in {A : Type} (R R' : A -> A -> Prop) (l : list A) :
  (forall a b, In a l -> In b l -> R a b -> R' a b) ->
  ForallOrdPairs R l -> ForallOrdPairs R' l.
Proof.
  intros H HF. induction HF as [|a l Ha Hl IH]; [constructor|].
  constructor.
  - rewrite Forall_forall in *. intros x Hx.
    apply H; [now left | now right | now apply Ha].
  - apply IH. intros x y Hx Hy. apply H; now right.
Qed.

Lemma FOP_flat_map {A B : Type} (f : A -> list B) (R : B -> B -> Prop)
  (l : list A) :
  (forall x, In x l -> ForallOrdPairs R (f x)) ->
  ForallOrdPairs (fun x y => forall a b, In a (f x) -> In b (f y) -> R a b) l ->
  ForallOrdPairs R (flat_map f l).
Proof.
  intros Hin HF. induction HF as [|x l Hx Hl IH]; cbn [flat_map]; [constructor|].
  apply FOP_app.
  - apply Hin. now left.
  - apply IH. intros y Hy. apply Hin. now right.
  - intros a b Ha Hb. apply in_flat_map in Hb. destruct Hb as [y [Hy Hb]].
    rewrite Forall_forall in Hx. exact (Hx y Hy a b Ha Hb).
Qed.

Lemma Forall2_In_r {A B : Type} (Q : A -> B -> Prop) (l : list A) (l' : list B)
  (b : B) :
  Forall2 Q l l' -> In b l' -> exists a, In a l /\ Q a b.
Proof.
  induction 1 as [|x y l l' Hxy _ IH]; intros Hin; [destruct Hin|].
  destruct Hin as [<-|Hin].
  - exists x. split; [now left | exact Hxy].
  - destruct (IH Hin) as [a [Ha Hq]]. exists a. split; [now right | exact Hq].
Qed.

Lemma FOP_Forall2 {A : Type} (Q R R' : A -> A -> Prop) (l l' : list A) :
  Forall2 Q l l' ->
  (forall a a' b b', Q a a' -> Q b b' -> R a b -> R' a' b') ->
  ForallOrdPairs R l -> ForallOrdPairs R' l'.
Proof.
  intros HQ Ht. induction HQ as [|x y l l' Hxy HQ IH]; intros HF;
    [constructor|].
  inversion HF as [|? ? Hx Hl]; subst. constructor; [|now apply IH].
  apply Forall_forall. intros b' Hb'.
  destruct (Forall2_In_r Q l l' b' HQ Hb') as [b [Hb Hq]].
  rewrite Forall_forall in Hx. exact (Ht x y b b' Hxy Hq (Hx b Hb)).
Qed.

Lemma FOP_lt_range (k : nat) : ForallOrdPairs Z.lt (range k).
Proof.
  induction k as [|k IH]; [constructor|].
  rewrite range_succ. constructor.
  - apply Forall_map. apply Forall_forall. intros i Hi. apply in_range in Hi.
    lia.
  - apply FOP_map. eapply FOP_impl_in; [|exact IH]. intros a b _ _ H. lia.
Qed.

Lemma run_candidates_all_absent (table : list AppointmentSchedule) :
  forall (cands : list Candidate) (acc : list AppointmentSchedule),
    Forall (fun c => absent table c = true) cands ->
    for_each cands (add_candidate table) acc
    = OK (acc ++ map candidate_slot cands).
Proof.
  induction cands as [|c cands IH]; intros acc H.
  - simpl. now rewrite app_nil_r.
  - inversion H as [|c' cs Hc Hcs]; subst.
    cbn [for_each]. rewrite add_candidate_cases. unfold absent in Hc.
    destruct (select_where (has_key (candidate_key c)) table); [|discriminate].
    cbn [Py.bind]. rewrite IH by assumption. cbn [map].
    now rewrite <- app_assoc.
Qed.

Lemma select_where_all_false {A : Type} (cond : A -> bool) (table : list A) :
  Forall (fun a => cond a = false) table -> select_where cond table = [].
Proof.
  induction 1 as [|a table Ha _ IH]; [reflexivity|].
  now rewrite select_where_cons, Ha.
Qed.

Lemma candidates_of_availability_range (today : date) (w : Availability) :
  candidates_of_availability today w
  = map
      (fun i =>
         (w, next_monday today + day_index (av_day_of_week w),
          (combine (next_monday today + day_index (av_day_of_week w))
             (av_start_time w) + i * SLOT,
           combine (next_monday today + day_index (av_day_of_week w))
             (av_start_time w) + (i + 1) * SLOT)))
      (range (slot_count (av_start_time w) (av_end_time w))).
Proof.
  unfold candidates_of_availability. rewrite next_week_dates.
  cbn [flat_map]. rewrite app_nil_r, slot_count_combine.
  now rewrite sub_intervals_range, map_map.
Qed.

Lemma day_index_inj (a b : DayOfWeek.t) : day_index a = day_index b -> a = b.
Proof. destruct a, b; simpl; intros H; (reflexivity || discriminate H). Qed.

Lemma DayOfWeek_eqb_refl (a : DayOfWeek.t) : DayOfWeek.eqb a a = true.
Proof. destruct a; reflexivity. Qed.

Lemma overlaps_set_schedule_id (i j : Z) (a b : AppointmentSchedule) :
  overlaps (set_schedule_id i a) (set_schedule_id j b) = overlaps a b.
Proof. reflexivity. Qed.

(** Two slots of one window do not overlap. *)
Lemma window_slots_apart (w : Availability) (d : date) (i j : Z) :
  i < j -> overlaps (window_slot w d i) (window_slot w d j) = false.
Proof.
  intros Hlt. unfold overlaps.
  cbn [window_slot doctor_id date_ start_time end_time].
  replace (av_start_time w + (i + 1) * SLOT >? av_start_time w + j * SLOT)
    with false; [now rewrite andb_false_r|].
  symmetry. rewrite Z.gtb_ltb. apply Z.ltb_ge. pose proof SLOT_value. nia.
Qed.

(** Slots of two windows that do not overlap do not overlap. *)
Lemma windows_apart_slots_apart (today : date) (w w' : Availability) (i j : Z) :
  windows_overlap w w' = false ->
  0 <= i < Z.of_nat (slot_count (av_start_time w) (av_end_time w)) ->
  0 <= j < Z.of_nat (slot_count (av_start_time w') (av_end_time w')) ->
  overlaps
    (window_slot w (next_monday today + day_index (av_day_of_week w)) i)
    (window_slot w' (next_monday today + day_index (av_day_of_week w')) j)
  = false.
Proof.
  intros Hno Hi Hj.
  destruct (overlaps _ _) eqn:E; [|reflexivity].
  unfold overlaps in E.
  cbn [window_slot doctor_id date_ start_time end_time] in E.
  rewrite !andb_true_iff in E. destruct E as [[[Hdoc Hd] Hs] He].
  apply Z.eqb_eq in Hd. apply Z.ltb_lt in Hs.
  rewrite Z.gtb_ltb in He. apply Z.ltb_lt in He.
  assert (Hday : av_day_of_week w = av_day_of_week w')
    by (apply day_index_inj; lia).
  destruct (slot_count_bounds _ _ (slot_count_pos _ _ _ Hi)) as [_ Hbi].
  destruct (slot_count_bounds _ _ (slot_count_pos _ _ _ Hj)) as [_ Hbj].
  pose proof SLOT_value as HS.
  unfold windows_overlap in Hno.
  rewrite Hdoc, Hday, DayOfWeek_eqb_refl in Hno. cbn [andb] in Hno.
  replace (av_start_time w <? av_end_time w') with true in Hno
    by (symmetry; apply Z.ltb_lt; nia).
  replace (av_end_time w >? av_start_time w') with true in Hno
    by (symmetry; rewrite Z.gtb_ltb; apply Z.ltb_lt; nia).
  discriminate Hno.
Qed.

Lemma candidates_apart (today : date) (db : Database) :
  windows_no_overlap (availabilities db) ->
  Forall valid_window (availabilities db) ->
  ForallOrdPairs
    (fun c c' => overlaps (candidate_slot c) (candidate_slot c') = false)
    (candidates today db).
Proof.
  intros Hwin Hvalid. rewrite Forall_forall in Hvalid.
  assert (Hslot : forall w i,
             In w (availabilities db) ->
             0 <= i < Z.of_nat (slot_count (av_start_time w) (av_end_time w)) ->
             candidate_slot
               (w, next_monday today + day_index (av_day_of_week w),
                (combine (next_monday today + day_index (av_day_of_week w))
                   (av_start_time w) + i * SLOT,
                 combine (next_monday today + day_index (av_day_of_week w))
                   (av_start_time w) + (i + 1) * SLOT))
             = window_slot w (next_monday today + day_index (av_day_of_week w)) i).
  { intros w i Hw Hi. destruct (Hvalid w Hw) as [Hs He].
    cbn [candidate_slot fst snd]. apply new_slot_window_slot; try assumption.
    exact (slot_count_pos _ _ _ Hi). }
  unfold candidates, active_availabilities, select_where.
  apply FOP_flat_map.
  - intros w Hw. apply filter_In in Hw. destruct Hw as [Hw _].
    rewrite candidates_of_availability_range. apply FOP_map.
    eapply FOP_impl_in; [|apply FOP_lt_range].
    intros i j Hi Hj Hlt. apply in_range in Hi, Hj. cbv beta.
    rewrite !Hslot by assumption. now apply window_slots_apart.
  - apply FOP_filter. eapply FOP_impl_in; [|exact Hwin].
    intros w w' Hw Hw' Hno c c' Hc Hc'.
    rewrite candidates_of_availability_range in Hc, Hc'.
    apply in_map_iff in Hc, Hc'.
    destruct Hc as [i [<- Hi]]. destruct Hc' as [j [<- Hj]].
    apply in_range in Hi, Hj. rewrite !Hslot by assumption.
    now apply windows_apart_slots_apart.
Qed.

(** X9.  When the windows do not overlap (as [create_availability] keeps
    them), their times are times of day, the slots of the table do not
    overlap and none of them is dated in the coming Monday-to-Sunday week,
    a run of the generator completes and the slots of the table still do
    not overlap afterwards. *)
Theorem generation_keeps_slots_apart (today : date) (db : Database) :
  windows_no_overlap (availabilities db) ->
  Forall valid_window (availabilities db) ->
  no_overlap (appointment_schedules db) ->
  Forall
    (fun o => date_ o < next_monday today \/ next_monday today + 6 < date_ o)
    (appointment_schedules db) ->
  exists db',
    generate_schedules today db = (OK tt, db')
    /\ no_overlap (appointment_schedules db').
Proof.
  intros Hwin Hvalid Hinv Hold.
  assert (Hdate : forall c,
             In c (candidates today db) ->
             next_monday today <= date_ (candidate_slot c)
             <= next_monday today + 6
             /\ candidate_key c
                = (doctor_id (candidate_slot c), date_ (candidate_slot c),
                   start_time (candidate_slot c), end_time (candidate_slot c))).
  { intros c Hc.
    destruct (candidates_In today db c Hc) as [w [i [_ [_ [_ ->]]]]].
    pose proof (day_index_range (av_day_of_week w)).
    cbn. split; [lia | reflexivity]. }
  assert (Habs : Forall (fun c => absent (appointment_schedules db) c = true)
                   (candidates today db)).
  { apply Forall_forall. intros c Hc. destruct (Hdate c Hc) as [Hd Hkey].
    unfold absent. rewrite Hkey. cbn [has_key].
    rewrite select_where_all_false; [reflexivity|].
    eapply Forall_impl; [|exact Hold]. intros o Ho. cbv beta in Ho.
    unfold has_key, filter_by_slot.
    replace (date_ o =? date_ (candidate_slot c)) with false
      by (symmetry; apply Z.eqb_neq; lia).
    now rewrite andb_false_r. }
  unfold generate_schedules. rewrite generate_session_spec.
  rewrite (run_candidates_all_absent _ _ [] Habs). cbn [app].
  eexists. split; [reflexivity|].
  cbn [appointment_schedules with_appointment_schedules].
  destruct (insert_schedules_spec (map candidate_slot (candidates today db))
              (appointment_schedules db)) as [new [-> HF]].
  apply FOP_app.
  - exact Hinv.
  - eapply (FOP_Forall2 _ (fun a b => overlaps a b = false) _ _ _ HF).
    + intros a a' b b' [i ->] [j ->] H. now rewrite overlaps_set_schedule_id.
    + apply FOP_map. now apply candidates_apart.
  - intros o r Ho Hr.
    destruct (Forall2_In_r _ _ _ r HF Hr) as [r0 [Hr0 [i ->]]].
    apply in_map_iff in Hr0. destruct Hr0 as [c [<- Hc]].
    destruct (Hdate c Hc) as [Hd _].
    rewrite Forall_forall in Hold. specialize (Hold o Ho). cbv beta in Hold.
    unfold overlaps. cbn [set_schedule_id date_].
    replace (date_ o =? date_ (candidate_slot c)) with false
      by (symmetry; apply Z.eqb_neq; lia).
    now rewrite andb_false_r.
Qed.

Lemma generation_keeps_slots_apart_witness :
  let db :=
    mkDatabase
      [ex_window;
       mkAvailability 2 "DOC001" DayOfWeek.Monday (hm 9 40) (hm 11 0)
         AvailabilityStatus.active]
      [set_schedule_id 7
         (mkAppointmentSchedule 0 "DOC001" None (Some 1) (hm 9 0) (hm 9 20)
            (ex_monday - 7) AppointmentStatus.completed)]
      [] [] [] in
  exists db',
    generate_schedules ex_today db = (OK tt, db')
    /\ no_overlap (appointment_schedules db').
Proof.
  intros db. apply generation_keeps_slots_apart.
  - repeat constructor.
  - destruct ex_window_times as [Hs [He _]].
    constructor; [split; assumption|].
    constructor; [|constructor].
    unfold valid_window, valid_time. vm_compute. intuition discriminate.
  - repeat constructor.
  - constructor; [|constructor]. left. vm_compute. reflexivity.
Defined.

(** ** Cancel: who may, and what follows *)

(** X10.  [cancel_schedule] writes nothing when it fails, and it fails with
    403 for a caller who is not a doctor; for a doctor and an id in the
    range of the key column (a 32-bit integer) it fails with 404 "Schedule
    not found" when no slot has the id, and with 403 "Not authorized to
    cancel this schedule" when the doctor does not own the slot, whatever
    the slot's status.  (An id outside that range does not reach the
    table: the driver refuses the parameter.) *)
Theorem cancel_schedule_rejections (sid : Z) (cu : CurrentUser) (db : Database) :
  (forall e db', cancel_schedule sid cu db = (Raise e, db') -> db' = db)
  /\ (cu_role cu <> "doctor"%string ->
      cancel_schedule sid cu db
      = (Raise (HTTPException 403 "Not authorized to perform this action"), db))
  /\ (int32 sid ->
      cu_role cu = "doctor"%string ->
      slot_rows sid db = [] ->
      cancel_schedule sid cu db
      = (Raise (HTTPException 404 "Schedule not found"), db))
  /\ (forall slot uid,
         int32 sid ->
         cu_role cu = "doctor"%string ->
         slot_rows sid db = [slot] ->
         cu_user_id cu = Some uid ->
         uid <> doctor_id slot ->
         cancel_schedule sid cu db
         = (Raise (HTTPException 403 "Not authorized to cancel this schedule"),
            db)).
Proof.
  split; [|split; [|split]].
  - intros e db'. unfold cancel_schedule.
    destruct (Py.bind _ _) as [s|e0]; intros H; [discriminate|].
    now injection H.
  - intros Hrole. unfold cancel_schedule, get_current_doctor.
    replace (String.eqb (cu_role cu) "doctor") with false; [reflexivity|].
    symmetry. now apply String.eqb_neq.
  - intros _ Hrole Hrows. unfold cancel_schedule, get_current_doctor.
    rewrite (role_eqb _ _ Hrole). cbn [Py.bind].
    unfold slot_rows in Hrows. now rewrite Hrows.
  - intros slot uid _ Hrole Hrows Huid Hne.
    unfold cancel_schedule, get_current_doctor.
    rewrite (role_eqb _ _ Hrole). cbn [Py.bind].
    unfold slot_rows in Hrows. rewrite Hrows.
    cbn [scalar_one_or_none Py.bind]. unfold attr_user_id. rewrite Huid.
    cbn [Py.bind].
    replace (String.eqb (doctor_id slot) uid) with false; [reflexivity|].
    symmetry. apply String.eqb_neq. congruence.
Qed.

Lemma cancel_schedule_rejections_witness :
  let db := ex_db [ex_slot AppointmentStatus.available None] [] in
  cancel_schedule 1 (mkCurrentUser "doctor" (Some "DOC002"%string) None) db
  = (Raise (HTTPException 403 "Not authorized to cancel this schedule"), db)
  /\ cancel_schedule 5 ex_doctor db
     = (Raise (HTTPException 404 "Schedule not found"), db)
  /\ cancel_schedule 1 ex_student_a db
     = (Raise (HTTPException 403 "Not authorized to perform this action"), db).
Proof.
  intros db. split; [|split].
  - apply (proj2 (proj2 (proj2 (cancel_schedule_rejections 1
             (mkCurrentUser "doctor" (Some "DOC002"%string) None) db)))
             (ex_slot AppointmentStatus.available None) "DOC002"%string);
      try reflexivity.
    + unfold int32. lia.
    + intros H. discriminate H.
  - apply (proj1 (proj2 (proj2 (cancel_schedule_rejections 5 ex_doctor db))));
      try reflexivity.
    unfold int32. lia.
  - apply (proj1 (proj2 (cancel_schedule_rejections 1 ex_student_a db))).
    intros H. discriminate H.
Defined.

(** No claim gets through on a slot that is not available and not a booked
    slot without student. *)
Lemma claim_unclaimable_fails (r : ClaimRequest) (db : Database)
  (s : AppointmentSchedule) :
  slot_rows (cr_schedule_id r) db = [s] ->
  status s <> AppointmentStatus.available ->
  status s <> AppointmentStatus.booked \/ student_id s <> None ->
  exists e, claim r db = (Raise e, db).
Proof.
  intros Hrows Hav Hbk. unfold slot_rows in Hrows.
  destruct (cr_endpoint r) eqn:Hep; [now apply claim_by_booking_fails|].
  unfold claim. rewrite Hep.
  - unfold create_visit_and_complaint, create_visit_and_complaint_read,
      create_visit_and_complaint_checks.
    rewrite (select_where_and _
               (fun s => schedule_id s =? cr_schedule_id r)
               (fun s =>
                  AppointmentStatus.eqb (status s) AppointmentStatus.available))
      by reflexivity.
    rewrite Hrows, select_where_cons.
    replace (AppointmentStatus.eqb (status s) AppointmentStatus.available)
      with false by (destruct (status s); (reflexivity || congruence)).
    cbn. eexists; reflexivity.
Qed.

(** X11.  Once the doctor who owns a slot has asked to cancel it, the slot
    is out of the booking flow: a further Cancel fails with "Schedule is
    already cancelled" and every Claim on it, through either endpoint and
    by any caller, fails, all without writing anything. *)
Theorem cancelled_slot_is_final (sid : Z) (cu : CurrentUser) (db : Database)
  (slot : AppointmentSchedule) :
  slot_rows sid db = [slot] ->
  cu_role cu = "doctor"%string ->
  cu_user_id cu = Some (doctor_id slot) ->
  let db1 := snd (cancel_schedule sid cu db) in
  slot_rows sid db1 = [set_status AppointmentStatus.cancelled slot]
  /\ cancel_schedule sid cu db1
     = (Raise (HTTPException 400 "Schedule is already cancelled"), db1)
  /\ (forall r,
         cr_schedule_id r = sid -> exists e, claim r db1 = (Raise e, db1)).
Proof.
  intros Hrows Hrole Huid db1.
  assert (Hrows1 : slot_rows sid db1
                   = [set_status AppointmentStatus.cancelled slot]).
  { subst db1. rewrite (cancel_schedule_guard sid cu db slot Hrows Hrole Huid).
    destruct (AppointmentStatus.eqb (status slot) AppointmentStatus.cancelled)
      eqn:Hst; cbn [snd].
    - rewrite Hrows. f_equal. symmetry. apply set_status_same.
      destruct (status slot); (reflexivity || discriminate).
    - unfold slot_rows in *.
      cbn [appointment_schedules with_appointment_schedules].
      rewrite select_update_where by reflexivity. now rewrite Hrows. }
  split; [exact Hrows1|]. split.
  - rewrite (cancel_schedule_guard sid cu db1 _ Hrows1 Hrole Huid).
    reflexivity.
  - intros r Hr. apply (claim_unclaimable_fails r db1
                          (set_status AppointmentStatus.cancelled slot)).
    + now rewrite Hr.
    + discriminate.
    + left. discriminate.
Qed.

Lemma cancelled_slot_is_final_witness :
  let db1 :=
    snd (cancel_schedule 1 ex_doctor
           (ex_db [ex_slot AppointmentStatus.available None] [])) in
  exists e,
    claim (ex_claim POST_students_complaints ex_student_a) db1 = (Raise e, db1).
Proof.
  intros db1.
  apply (proj2 (proj2 (cancelled_slot_is_final 1 ex_doctor
                         (ex_db [ex_slot AppointmentStatus.available None] [])
                         (ex_slot AppointmentStatus.available None)
                         eq_refl eq_refl eq_refl))).
  reflexivity.
Defined.

(** X12.  A claim succeeds only on a slot it may take: POST
    /students/complaints only on a slot in status available, POST
    /students/schedules only for a caller with role student on a slot in
    status booked with no student.  In both cases the caller has a student
    id. *)
Theorem claim_needs_claimable_slot (r : ClaimRequest) (db db' : Database) :
  claim r db = (OK tt, db') ->
  exists slot st,
    In slot (appointment_schedules db)
    /\ schedule_id slot = cr_schedule_id r
    /\ cu_student_id (cr_user r) = Some st
    /\ claimable slot
    /\ match cr_endpoint r with
       | POST_students_complaints => status slot = AppointmentStatus.available
       | POST_students_schedules =>
           status slot = AppointmentStatus.booked
           /\ student_id slot = None
           /\ cu_role (cr_user r) = "student"%string
       end.
Proof.
  intros Hrun. pose proof (claim_OK_endpoint r db db' Hrun) as Hep.
  revert Hrun. rewrite claim_read_commit. unfold claim_commit, claim_read.
  rewrite Hep.
  destruct (create_visit_and_complaint_read _ _ _ db) as [c|e] eqn:Hread;
    cbn [Py.bind]; [|discriminate].
  intros _. apply create_visit_and_complaint_read_OK in Hread.
  destruct Hread as [Hin [Hid [Hst [Hstu _]]]].
  exists (cc_schedule c), (cc_student_id c). unfold claimable. tauto.
Qed.

Lemma claim_needs_claimable_slot_witness :
  exists slot st,
    In slot [ex_slot AppointmentStatus.available None]
    /\ schedule_id slot = 1
    /\ cu_student_id ex_student_a = Some st
    /\ claimable slot
    /\ status slot = AppointmentStatus.available.
Proof.
  exact (claim_needs_claimable_slot
           (ex_claim POST_students_complaints ex_student_a)
           (ex_db [ex_slot AppointmentStatus.available None] [])
           (snd (claim (ex_claim POST_students_complaints ex_student_a)
                   (ex_db [ex_slot AppointmentStatus.available None] [])))
           eq_refl).
Defined.

(** ** Visits: completing once, reading diagnoses back *)

Lemma select_update_where_none {A : Type} (cond c : A -> bool) (f : A -> A)
  (table : list A) :
  (forall r, c r = true -> cond (f r) = false) ->
  (forall r, c r = false -> cond r = false) ->
  select_where cond (update_where c f table) = [].
Proof.
  intros Hf Hr. apply select_where_all_false. unfold update_where.
  apply Forall_map. apply Forall_forall. intros r _.
  destruct (c r) eqn:E; [now apply Hf | now apply Hr].
Qed.

Lemma complete_visit_OK_visits (vid : Z) (cu : CurrentUser) (db db' : Database)
  (v : ClinicVisit) :
  complete_visit vid cu db = (OK v, db') ->
  clinic_visits db'
  = update_where (fun x => visit_id x =? vid)
      (set_visit_status VisitStatus.completed) (clinic_visits db).
Proof.
  unfold complete_visit, get_current_doctor.
  destruct (negb (String.eqb (cu_role cu) "doctor")); cbn [Py.bind];
    [discriminate|].
  unfold attr_user_id. destruct (cu_user_id cu) as [uid|];
    cbn [Py.bind]; [|discriminate].
  fold (pending_visit_of vid uid).
  destruct (select_where (pending_visit_of vid uid) (clinic_visits db))
    as [|v0 [|r rows]] eqn:Hsel; cbn [scalar_one_or_none Py.bind];
    try discriminate.
  assert (Hin : In v0 (select_where (pending_visit_of vid uid) (clinic_visits db)))
    by (rewrite Hsel; now left).
  apply select_where_In in Hin. destruct Hin as [_ Hc].
  apply pending_visit_of_spec in Hc. destruct Hc as [Hid _]. rewrite Hid.
  destruct (complete_linked_schedule _ _) as [[u|e] db2] eqn:Hlink;
    [|discriminate].
  intros H. injection H as _ <-.
  apply complete_linked_schedule_OK in Hlink. now subst db2.
Qed.

(** X13.  A visit is completed once: after [complete_visit] has succeeded,
    the same call again fails with 404 "Visit not found, not assigned to
    this doctor, or not pending" and writes nothing. *)
Theorem complete_visit_once (vid : Z) (cu : CurrentUser) (db db' : Database)
  (v : ClinicVisit) :
  complete_visit vid cu db = (OK v, db') ->
  complete_visit vid cu db'
  = (Raise
       (HTTPException 404
          "Visit not found, not assigned to this doctor, or not pending"),
     db').
Proof.
  intros Hrun.
  pose proof (complete_visit_OK_visits vid cu db db' v Hrun) as Hvis.
  destruct (complete_visit_success vid cu db db' v Hrun)
    as [v0 [_ [_ [_ [Hrole Huid]]]]].
  unfold complete_visit, get_current_doctor.
  rewrite (role_eqb _ _ Hrole). cbn [Py.bind].
  unfold attr_user_id. rewrite Huid. cbn [Py.bind].
  rewrite Hvis, select_update_where_none; [reflexivity| |].
  - intros r _. cbn. now rewrite andb_false_r.
  - intros r Hr. now rewrite Hr.
Qed.

Lemma complete_visit_once_witness :
  let db := ex_db [ex_slot AppointmentStatus.booked (Some 10)] [ex_visit] in
  let db' := snd (complete_visit 1 ex_doctor db) in
  complete_visit 1 ex_doctor db'
  = (Raise
       (HTTPException 404
          "Visit not found, not assigned to this doctor, or not pending"),
     db').
Proof.
  intros db db'.
  apply (complete_visit_once 1 ex_doctor db db'
           (set_visit_status VisitStatus.completed ex_visit)).
  reflexivity.
Defined.

Lemma create_diagnosis_OK (diagnosis : DiagnosisCreate) (cu : CurrentUser)
  (db db' : Database) (dg : DoctorDiagnosis) :
  create_diagnosis diagnosis cu db = (OK dg, db') ->
  exists uid visit,
    cu_role cu = "doctor"%string
    /\ cu_user_id cu = Some uid
    /\ select_where
         (fun v =>
            (visit_id v =? dc_visit_id diagnosis)
            && String.eqb (cv_doctor_id v) uid)
         (clinic_visits db) = [visit]
    /\ complaint_exists (dc_complaint_id diagnosis) db = true
    /\ clinic_visits db' = clinic_visits db
    /\ diagnoses db' = diagnoses db ++ [dg]
    /\ dg = mkDoctorDiagnosis (next_id (map diagnosis_id (diagnoses db)))
              (dc_visit_id diagnosis) (dc_student_id diagnosis)
              (dc_complaint_id diagnosis) uid
              (dc_diagnosis_description diagnosis)
              (dc_treatment_plan diagnosis).
Proof.
  unfold create_diagnosis, get_current_doctor.
  destruct (negb (String.eqb (cu_role cu) "doctor")) eqn:Hrole;
    cbn [Py.bind]; [discriminate|].
  apply role_of_eqb in Hrole.
  unfold attr_user_id. destruct (cu_user_id cu) as [uid|];
    cbn [Py.bind]; [|discriminate].
  destruct (select_where _ (clinic_visits db)) as [|visit [|r rows]] eqn:Hsel;
    cbn [scalar_one_or_none Py.bind]; try discriminate.
  destruct (cv_student_id visit =? dc_student_id diagnosis);
    cbn [negb]; [|discriminate].
  destruct (complaint_exists (dc_complaint_id diagnosis) db) eqn:Hfk;
    cbn [negb]; [|discriminate].
  destruct (complete_linked_schedule _ _) as [[r|e] db2] eqn:Hlink;
    [|discriminate].
  intros H. injection H as <- <-.
  apply complete_linked_schedule_OK in Hlink. subst db2.
  exists uid, visit. repeat split; try assumption; reflexivity.
Qed.

(** X14.  A diagnosis can be read back: after [create_diagnosis] has
    succeeded, [get_diagnoses_by_visit] for that visit and doctor returns
    the diagnoses it returned before, followed by the new one, which has a
    key no other diagnosis has and carries the fields of the request; the
    complaint it names is a row of the complaint table. *)
Theorem diagnosis_read_back (diagnosis : DiagnosisCreate) (cu : CurrentUser)
  (db db' : Database) (dg : DoctorDiagnosis) :
  create_diagnosis diagnosis cu db = (OK dg, db') ->
  exists before,
    get_diagnoses_by_visit (dc_visit_id diagnosis) cu db = OK before
    /\ get_diagnoses_by_visit (dc_visit_id diagnosis) cu db'
       = OK (before ++ [dg])
    /\ (exists c, In c (complaints db) /\ complaint_id c = dd_complaint_id dg)
    /\ ~ In (diagnosis_id dg) (map diagnosis_id (diagnoses db))
    /\ dd_visit_id dg = dc_visit_id diagnosis
    /\ dd_student_id dg = dc_student_id diagnosis
    /\ dd_complaint_id dg = dc_complaint_id diagnosis
    /\ cu_user_id cu = Some (dd_doctor_id dg)
    /\ diagnosis_description dg = dc_diagnosis_description diagnosis
    /\ treatment_plan dg = dc_treatment_plan diagnosis.
Proof.
  intros Hrun.
  destruct (create_diagnosis_OK diagnosis cu db db' dg Hrun)
    as [uid [visit [Hrole [Huid [Hsel [Hfk [Hvis [Hdiag Hdg]]]]]]]].
  exists (select_where (fun d => dd_visit_id d =? dc_visit_id diagnosis)
            (diagnoses db)).
  unfold get_diagnoses_by_visit, get_current_doctor.
  rewrite (role_eqb _ _ Hrole). cbn [Py.bind].
  unfold attr_user_id. rewrite Huid. cbn [Py.bind].
  rewrite Hvis, Hsel. cbn [scalar_one_or_none Py.bind].
  split; [reflexivity|]. split; [|split].
  - rewrite Hdiag. unfold select_where. rewrite filter_app. cbn [filter].
    subst dg. cbn [dd_visit_id]. now rewrite Z.eqb_refl.
  - unfold complaint_exists in Hfk. apply existsb_exists in Hfk.
    destruct Hfk as [c [Hc Hcid]]. exists c. split; [exact Hc|].
    subst dg. now apply Z.eqb_eq.
  - subst dg. cbn. repeat split; try reflexivity. apply next_id_fresh.
Qed.

Lemma diagnosis_read_back_witness :
  let db :=
    ex_db_complaint [ex_slot AppointmentStatus.booked (Some 10)] [ex_visit] in
  get_diagnoses_by_visit 1 ex_doctor
    (snd (create_diagnosis ex_diagnosis ex_doctor db))
  = OK [mkDoctorDiagnosis 1 1 10 1 "DOC001" "malaria" None].
Proof.
  intros db.
  destruct (diagnosis_read_back ex_diagnosis ex_doctor db
              (snd (create_diagnosis ex_diagnosis ex_doctor db))
              (mkDoctorDiagnosis 1 1 10 1 "DOC001" "malaria" None) eq_refl)
    as [before [Hb [Ha _]]].
  injection Hb as <-. exact Ha.
Defined.

(** ** Handlers that open [async with db.begin():] *)

(** X15.  The three handlers here that open [async with db.begin():]
    never return success and never write: POST /students/schedules
    and POST /students/visits answer 403 to a caller who is not a student,
    DELETE /doctor/availability/{id} answers 403 to a caller who is not a
    doctor, and for every other caller [db.begin()] raises
    [InvalidRequestError], because [get_current_user] has already begun
    the transaction of the request's session.  The database is unchanged
    in every case. *)
Theorem begin_handlers_never_succeed (cu : CurrentUser) (db : Database) :
  let already_begun :=
    InvalidRequestError "A transaction is already begun on this Session." in
  (forall sid,
      book_schedule cu sid db
      = (Raise
           (if String.eqb (cu_role cu) "student" then already_begun
            else HTTPException 403 "Student access required"),
         db))
  /\ (forall visit,
         create_visit visit cu db
         = (Raise
              (if String.eqb (cu_role cu) "student" then already_begun
               else HTTPException 403 "Student access required"),
            db))
  /\ (forall aid,
         delete_availability aid cu db
         = (Raise
              (if String.eqb (cu_role cu) "doctor" then already_begun
               else HTTPException 403 "Not authorized to perform this action"),
            db)).
Proof.
  cbv zeta. split; [|split].
  - intros sid. unfold book_schedule. rewrite book_schedule_read_fails.
    destruct (String.eqb (cu_role cu) "student"); reflexivity.
  - intros visit. unfold create_visit. rewrite begin_request_session.
    destruct (String.eqb (cu_role cu) "student"); reflexivity.
  - intros aid. unfold delete_availability, get_current_doctor.
    rewrite begin_request_session.
    destruct (String.eqb (cu_role cu) "doctor"); reflexivity.
Qed.

(** ** POST /doctor/schedules: the slot that is entered *)




(** ** GET /students/schedules/available *)

Lemma insert_sorted_perm {A : Type} (leb : A -> A -> bool) (x : A) (l : list A) :
  Permutation (insert_sorted leb x l) (x :: l).
Proof.
  induction l as [|y l IH]; cbn [insert_sorted]; [reflexivity|].
  destruct (leb x y); [reflexivity|].
  etransitivity; [apply perm_skip, IH | apply perm_swap].
Qed.

Lemma order_by_perm {A : Type} (leb : A -> A -> bool) (rows : list A) :
  Permutation (order_by leb rows) rows.
Proof.
  unfold order_by. induction rows as [|x rows IH]; cbn [fold_right];
    [constructor|].
  etransitivity; [apply insert_sorted_perm | now apply perm_skip].
Qed.

Lemma insert_sorted_sorted {A : Type} (leb : A -> A -> bool) (x : A)
  (l : list A) :
  (forall a b, leb a b = false -> leb b a = true) ->
  Sorted (fun a b => leb a b = true) l ->
  Sorted (fun a b => leb a b = true) (insert_sorted leb x l).
Proof.
  intros Htotal. induction l as [|y l IH]; intros Hs; cbn [insert_sorted].
  - repeat constructor.
  - destruct (leb x y) eqn:E.
    + constructor; [exact Hs | constructor; exact E].
    + inversion Hs as [|? ? Hl Hhd]; subst.
      constructor; [now apply IH|].
      destruct l as [|z l]; cbn [insert_sorted].
      * constructor. now apply Htotal.
      * destruct (leb x z); constructor.
        -- now apply Htotal.
        -- now inversion Hhd.
Qed.

Lemma order_by_sorted {A : Type} (leb : A -> A -> bool) (rows : list A) :
  (forall a b, leb a b = false -> leb b a = true) ->
  Sorted (fun a b => leb a b = true) (order_by leb rows).
Proof.
  intros Htotal. unfold order_by.
  induction rows as [|x rows IH]; cbn [fold_right]; [constructor|].
  now apply insert_sorted_sorted.
Qed.

Lemma Sorted_impl {A : Type} (R S : A -> A -> Prop) (l : list A) :
  (forall a b, R a b -> S a b) -> Sorted R l -> Sorted S l.
Proof.
  intros HRS. induction 1 as [|x l _ IH Hhd]; constructor; [exact IH|].
  destruct Hhd; constructor. now apply HRS.
Qed.

Lemma date_start_leb_spec (a b : AppointmentSchedule) :
  date_start_leb a b = true <-> date_start_le a b.
Proof.
  unfold date_start_leb, date_start_le.
  rewrite orb_true_iff, andb_true_iff, Z.ltb_lt, Z.eqb_eq, Z.leb_le.
  reflexivity.
Qed.

Lemma date_start_leb_total (a b : AppointmentSchedule) :
  date_start_leb a b = false -> date_start_leb b a = true.
Proof.
  intros H. apply date_start_leb_spec.
  assert (Hn : ~ date_start_le a b)
    by (rewrite <- date_start_leb_spec; congruence).
  unfold date_start_le in *. lia.
Qed.

Lemma date_start_le_trans (a b c : AppointmentSchedule) :
  date_start_le a b -> date_start_le b c -> date_start_le a c.
Proof. unfold date_start_le. lia. Qed.

Lemma offered_spec (today : date) (s : AppointmentSchedule) :
  AppointmentStatus.eqb (status s) AppointmentStatus.available
  && (date_ s >=? today) = true
  <-> offered today s.
Proof.
  unfold offered. rewrite andb_true_iff, Z.geb_leb, Z.leb_le.
  split; intros [Hs Hd]; (split; [|exact Hd]).
  - destruct (status s); (reflexivity || discriminate Hs).
  - now rewrite Hs.
Qed.

Lemma listing_In (today : date) (db : Database) (s : AppointmentSchedule) :
  In s (get_student_available_schedules today db)
  <-> In s (appointment_schedules db) /\ offered today s.
Proof.
  unfold get_student_available_schedules. split.
  - intros H. apply (Permutation_in _ (order_by_perm _ _)) in H.
    apply select_where_In in H. now rewrite offered_spec in H.
  - intros H. apply (Permutation_in _ (Permutation_sym (order_by_perm _ _))).
    apply select_where_In. now rewrite offered_spec.
Qed.

(** X17.  GET /students/schedules/available on [today] lists exactly the
    slots that are available and dated [today] or later, ordered by date
    and, within a date, by start time: every row of the answer compares
    less or equal to every row after it.  The answer has as many rows as
    the table has such slots, and under the primary key no slot is listed
    twice. *)
Theorem available_listing_sorted (today : date) (db : Database) :
  (forall s,
      In s (get_student_available_schedules today db)
      <-> In s (appointment_schedules db)
          /\ status s = AppointmentStatus.available
          /\ today <= date_ s)
  /\ StronglySorted date_start_le (get_student_available_schedules today db)
  /\ List.length (get_student_available_schedules today db)
     = List.length
         (filter
            (fun s =>
               AppointmentStatus.eqb (status s) AppointmentStatus.available
               && (today <=? date_ s))
            (appointment_schedules db))
  /\ (schedules_pk db ->
      NoDup (map schedule_id (get_student_available_schedules today db))).
Proof.
  split; [intros s; apply listing_In|]. split; [|split].
  - apply Sorted_StronglySorted.
    + intros a b c. apply date_start_le_trans.
    + unfold get_student_available_schedules.
      eapply Sorted_impl; [|apply order_by_sorted, date_start_leb_total].
      intros a b. apply date_start_leb_spec.
  - unfold get_student_available_schedules.
    rewrite (Permutation_length (order_by_perm _ _)). unfold select_where.
    f_equal. apply filter_ext. intros s. now rewrite Z.geb_leb.
  - unfold schedules_pk, get_student_available_schedules. intros Hpk.
    eapply Permutation_NoDup;
      [apply Permutation_sym, Permutation_map, order_by_perm|].
    unfold select_where.
    set (p := fun s : AppointmentSchedule =>
                AppointmentStatus.eqb (status s) AppointmentStatus.available
                && (date_ s >=? today)).
    rewrite (filter_ext p (fun s => negb (negb (p s))))
      by (intros s; now rewrite negb_involutive).
    exact (delete_where_pk schedule_id (fun s => negb (p s)) _ Hpk).
Qed.

Lemma available_listing_sorted_witness :
  let db :=
    ex_db [ex_manual_slot;
           set_schedule_id 2 (ex_slot AppointmentStatus.available None);
           set_schedule_id 3 (ex_slot AppointmentStatus.booked (Some 10))] [] in
  StronglySorted date_start_le (get_student_available_schedules ex_today db)
  /\ NoDup (map schedule_id (get_student_available_schedules ex_today db)).
Proof.
  intros db.
  destruct (available_listing_sorted ex_today db) as [_ [Hsorted [_ Hpk]]].
  split; [exact Hsorted|]. apply Hpk.
  unfold schedules_pk.
  let ids := eval vm_compute in (map schedule_id (appointment_schedules db)) in
  change (NoDup ids).
  repeat (constructor; [cbn [In]; intros H; repeat destruct H as [H|H];
                        (discriminate H || exact H)|]).
  constructor.
Defined.

(** X18.  The slot cleaner does not change what students are offered.  After
    a cleaner run on a date not later than [today], the listing of
    [today] is the same list as before the run. *)
Theorem listing_unaffected_by_cleaner (cleaned today : date) (db : Database) :
  cleaned <= today ->
  get_student_available_schedules today
    (snd (cleanup_past_schedules cleaned db))
  = get_student_available_schedules today db.
Proof.
  intros Hle.
  destruct (cleanup_cases cleaned db) as [[_ ->]|[_ ->]]; cbn [snd];
    [reflexivity|].
  unfold get_student_available_schedules.
  unfold with_appointment_schedules. cbn [appointment_schedules].
  f_equal. unfold select_where, delete_where.
  apply filter_filter_implies. intros s Hs.
  apply andb_true_iff in Hs. destruct Hs as [_ Hd].
  rewrite Z.geb_leb in Hd. apply Z.leb_le in Hd.
  unfold stale. apply negb_true_iff, andb_false_iff. left.
  apply Z.ltb_ge. lia.
Qed.

Lemma listing_unaffected_by_cleaner_witness :
  let db := ex_db [ex_slot AppointmentStatus.available None] [] in
  get_student_available_schedules ex_monday
    (snd (cleanup_past_schedules ex_today db))
  = [ex_slot AppointmentStatus.available None].
Proof.
  intros db.
  rewrite (listing_unaffected_by_cleaner ex_today ex_monday db)
    by (vm_compute; discriminate).
  reflexivity.
Defined.

(** X19.  A claimed slot is no longer offered, and nothing else changes in
    the listing.  Under the primary key, after a successful Claim through
    either endpoint the listing of any date has exactly the rows it had
    before, less the claimed slot. *)
Theorem claimed_slot_leaves_listing (r : ClaimRequest) (db db' : Database)
  (today : date) :
  schedules_pk db ->
  claim r db = (OK tt, db') ->
  forall s,
    In s (get_student_available_schedules today db')
    <-> In s (get_student_available_schedules today db)
        /\ schedule_id s <> cr_schedule_id r.
Proof.
  intros Hpk Hrun s.
  destruct (claim_post_state r db db' Hpk Hrun)
    as [slot [st [v [_ [_ [Hrows' _]]]]]].
  destruct (claim_slots r db db' Hrun) as [st' [_ Htab]].
  rewrite !listing_In.
  destruct (schedule_id s =? cr_schedule_id r) eqn:E.
  - split.
    + intros [Hin [Hst _]]. exfalso.
      assert (Hs : In s (slot_rows (cr_schedule_id r) db'))
        by (apply select_where_In; split; assumption).
      rewrite Hrows' in Hs. destruct Hs as [<-|[]].
      destruct slot; discriminate Hst.
    + apply Z.eqb_eq in E. intros [_ Hne]. contradiction.
  - rewrite Htab.
    rewrite (update_where_other
               (fun s => schedule_id s =? cr_schedule_id r) _ _ s)
      by (cbv beta; intros; (reflexivity || exact E)).
    apply Z.eqb_neq in E. tauto.
Qed.

Lemma claimed_slot_leaves_listing_witness :
  let db := ex_db [ex_slot AppointmentStatus.available None] [] in
  let r := ex_claim POST_students_complaints ex_student_a in
  In (ex_slot AppointmentStatus.available None)
    (get_student_available_schedules ex_today db)
  /\ ~ In (ex_slot AppointmentStatus.available None)
         (get_student_available_schedules ex_today (snd (claim r db))).
Proof.
  intros db r. split; [left; reflexivity|].
  intros H.
  apply (claimed_slot_leaves_listing r db (snd (claim r db)) ex_today) in H.
  - destruct H as [_ Hne]. apply Hne. reflexivity.
  - unfold schedules_pk. cbn. constructor; [intros []|constructor].
  - reflexivity.
Defined.

(** X20.  What the generator adds is offered at once.  After a completed
    run on [today], the listing of any date up to the coming Monday has
    exactly the rows it had before the run and the new slots. *)
Theorem generation_extends_listing (today : date) (db db' : Database) :
  generate_schedules today db = (OK tt, db') ->
  exists new,
    appointment_schedules db' = appointment_schedules db ++ new
    /\ forall t s,
         t <= next_monday today ->
         (In s (get_student_available_schedules t db')
          <-> In s (get_student_available_schedules t db) \/ In s new).
Proof.
  intros Hrun.
  destruct (generate_schedules_new_slots today db db' Hrun) as [new [Hdb HF]].
  exists new. split; [rewrite Hdb; reflexivity|].
  intros t s Ht. rewrite !listing_In. rewrite Hdb.
  unfold with_appointment_schedules. cbn [appointment_schedules].
  rewrite in_app_iff.
  assert (Hnew : In s new -> offered t s).
  { intros Hs. rewrite Forall_forall in HF.
    destruct (HF s Hs) as [c [id [Hc [_ ->]]]].
    destruct (candidates_In today db c Hc) as [w [i [_ [_ [_ ->]]]]].
    pose proof (day_index_range (av_day_of_week w)).
    split; [reflexivity|]. cbn. lia. }
  tauto.
Qed.

Lemma generation_extends_listing_witness :
  exists new,
    appointment_schedules (snd (generate_schedules ex_today (ex_db [] []))) = new
    /\ forall s,
         In s new ->
         In s (get_student_available_schedules ex_today
                 (snd (generate_schedules ex_today (ex_db [] [])))).
Proof.
  destruct (generation_extends_listing ex_today (ex_db [] [])
              (snd (generate_schedules ex_today (ex_db [] [])))
              ltac:(vm_compute; reflexivity))
    as [new [Hdb Hlist]].
  exists new. split; [exact Hdb|].
  intros s Hs. apply (Hlist ex_today s); [vm_compute; discriminate|].
  right. exact Hs.
Defined.

(** ** Rejected requests, and the keys of the tables *)

Ltac frame_step :=
  let H := fresh "H" in
  intros H; first [discriminate H | now injection H].

Lemma complete_linked_schedule_frame (visit : ClinicVisit) (db : Database) :
  let db' := snd (complete_linked_schedule visit db) in
  clinic_visits db' = clinic_visits db
  /\ availabilities db' = availabilities db
  /\ diagnoses db' = diagnoses db
  /\ map schedule_id (appointment_schedules db')
     = map schedule_id (appointment_schedules db).
Proof.
  unfold complete_linked_schedule.
  destruct (truthy (cv_schedule_id visit)) as [sid|]; [|now cbn].
  destruct (scalar_one_or_none _) as [[schedule|]|e]; cbn; repeat split.
  apply update_where_keys. intros r. now destruct r.
Qed.

(** X21.  A request that is rejected writes nothing.  Under the primary key
    of the slot table, whenever one of the writing handlers answers with
    an error, the database is the one it started from: a Claim through
    either endpoint, POST /students/visits, the doctor's slot creation,
    completing a visit, entering a diagnosis, and creating or deleting an
    availability window. *)
Theorem rejected_requests_write_nothing (db db' : Database) (e : exn) :
  schedules_pk db ->
  (forall r, claim r db = (Raise e, db') -> db' = db)
  /\ (forall visit cu, create_visit visit cu db = (Raise e, db') -> db' = db)
  /\ (forall request cu, create_schedule request cu db = (Raise e, db') -> db' = db)
  /\ (forall vid cu, complete_visit vid cu db = (Raise e, db') -> db' = db)
  /\ (forall dg cu, create_diagnosis dg cu db = (Raise e, db') -> db' = db)
  /\ (forall request cu,
         create_availability request cu db = (Raise e, db') -> db' = db)
  /\ (forall aid cu, delete_availability aid cu db = (Raise e, db') -> db' = db).
Proof.
  intros Hpk. repeat split.
  - intros r. apply claim_failure_unchanged.
  - intros visit cu. unfold create_visit.
    destruct (negb _); [frame_step|].
    rewrite begin_request_session. cbn [Py.bind]. frame_step.
  - intros request cu. unfold create_schedule.
    destruct (get_current_doctor cu) as [cu'|e0]; [|frame_step].
    destruct (_ >=? _); [frame_step|].
    destruct (create_schedule_try request cu' db) as [[s db0]|e0];
      cbn [except_HTTPException_reraise]; [frame_step|].
    destruct e0; frame_step.
  - intros vid cu. unfold complete_visit.
    destruct (Py.bind _ _) as [visit|e0]; [|frame_step]. cbv zeta.
    match goal with
    | |- context [complete_linked_schedule ?v ?d] =>
        destruct (complete_linked_schedule_total v d Hpk) as [db2 Heq];
        rewrite Heq
    end.
    frame_step.
  - intros dg cu. unfold create_diagnosis.
    destruct (Py.bind _ _) as [[visit uid]|e0]; [|frame_step]. cbv zeta.
    destruct (negb (complaint_exists _ db)); [frame_step|].
    match goal with
    | |- context [complete_linked_schedule ?v ?d] =>
        destruct (complete_linked_schedule_total v d Hpk) as [db2 Heq];
        rewrite Heq
    end.
    frame_step.
  - intros request cu. unfold create_availability.
    destruct (get_current_doctor cu) as [cu'|e0]; [|frame_step].
    destruct (_ >=? _); [frame_step|].
    destruct (Py.bind _ _) as [uid|e0]; frame_step.
  - intros aid cu. unfold delete_availability, get_current_doctor.
    destruct (negb _); cbn [Py.bind]; [frame_step|].
    rewrite begin_request_session. cbn [Py.bind]. frame_step.
Qed.

Lemma rejected_requests_write_nothing_witness :
  let db := ex_db [ex_slot AppointmentStatus.booked (Some 10)] [ex_visit] in
  snd (claim (ex_claim POST_students_schedules ex_student_b) db) = db
  /\ snd (complete_visit 1 ex_student_a db) = db.
Proof.
  intros db.
  assert (Hpk : schedules_pk db)
    by (unfold schedules_pk; cbn; constructor; [intros []|constructor]).
  split.
  - refine (proj1 (rejected_requests_write_nothing db _
                     (InvalidRequestError
                        "A transaction is already begun on this Session.")
                     Hpk) (ex_claim POST_students_schedules ex_student_b) _).
    vm_compute. reflexivity.
  - refine (proj1 (proj2 (proj2 (proj2
              (rejected_requests_write_nothing db _
                 (HTTPException 403 "Not authorized to perform this action")
                 Hpk)))) 1 ex_student_a _).
    vm_compute. reflexivity.
Defined.

Lemma create_schedule_try_frame (schedule : AppointmentScheduleCreate)
  (cu : CurrentUser) (db db' : Database) (s : AppointmentSchedule) :
  create_schedule_try schedule cu db = OK (s, db') ->
  clinic_visits db' = clinic_visits db
  /\ availabilities db' = availabilities db.
Proof.
  unfold create_schedule_try, attr_user_id.
  destruct (cu_user_id cu) as [uid|]; cbn [Py.bind]; [|discriminate].
  destruct (scalar_one_or_none _) as [[availability|]|e]; cbn [Py.bind];
    try discriminate.
  destruct (negb _); [discriminate|].
  destruct (_ || _); [discriminate|].
  destruct (scalar_one_or_none _) as [[existing|]|e]; cbn [Py.bind];
    try discriminate.
  intros H. injection H as _ <-. split; reflexivity.
Qed.

Lemma visit_keys_snoc (table : list ClinicVisit) (v : ClinicVisit) :
  NoDup (map visit_id table) ->
  NoDup (map visit_id
           (table ++ [set_visit_id (next_id (map visit_id table)) v])).
Proof.
  intros H. rewrite map_app. cbn [map visit_id set_visit_id].
  now apply NoDup_snoc_fresh.
Qed.

(** X22.  No writer breaks a key.  From a database whose slot, visit and
    window keys are unique, every modelled writer leaves one whose keys
    are unique, whether the request succeeds or fails: the generator, the
    cleaner, a Claim through either endpoint, POST /students/visits, the
    doctor's slot creation and cancellation, completing a visit, entering a
    diagnosis, and creating or deleting a window.  New rows get the next
    key, and no update assigns a key column. *)
Theorem writers_keep_keys_unique (db : Database) :
  keys_unique db ->
  (forall today, keys_unique (snd (generate_schedules today db)))
  /\ (forall today, keys_unique (snd (cleanup_past_schedules today db)))
  /\ (forall r, keys_unique (snd (claim r db)))
  /\ (forall visit cu, keys_unique (snd (create_visit visit cu db)))
  /\ (forall request cu, keys_unique (snd (create_schedule request cu db)))
  /\ (forall sid cu, keys_unique (snd (cancel_schedule sid cu db)))
  /\ (forall vid cu, keys_unique (snd (complete_visit vid cu db)))
  /\ (forall dg cu, keys_unique (snd (create_diagnosis dg cu db)))
  /\ (forall request cu, keys_unique (snd (create_availability request cu db)))
  /\ (forall aid cu, keys_unique (snd (delete_availability aid cu db))).
Proof.
  intros Hkeys. pose proof Hkeys as [Hs [Hv Ha]].
  destruct (schedules_pk_preserved db Hs) as [Hgen [Hclean [Hclaim [Hcancel Hcreate]]]].
  unfold keys_unique, schedules_pk, visits_pk in *.
  split; [|split; [|split; [|split; [|split; [|split; [|split; [|split;
    [|split]]]]]]]].
  - intros today. split; [apply Hgen|].
    unfold generate_schedules. destruct (generate_session today db);
      cbn; now split.
  - intros today. split; [apply Hclean|].
    destruct (cleanup_cases today db) as [[_ ->]|[_ ->]]; cbn; now split.
  - intros r. split; [apply Hclaim|]. split; [now apply visits_pk_preserved|].
    rewrite claim_read_commit. unfold claim_commit.
    destruct (claim_read r db) as [[[s st]|c]|e]; cbn; exact Ha.
  - intros visit cu. unfold create_visit.
    destruct (negb _); [exact Hkeys|].
    destruct (Py.bind _ _) as [[s sid]|e]; [|exact Hkeys].
    cbn. split; [exact Hs|]. split; [|exact Ha].
    now apply visit_keys_snoc.
  - intros request cu. split; [apply Hcreate|].
    unfold create_schedule.
    destruct (get_current_doctor cu) as [cu'|e]; [|now split].
    destruct (_ >=? _); [now split|].
    destruct (create_schedule_try request cu' db) as [[s db0]|e] eqn:Htry;
      cbn [except_HTTPException_reraise].
    + apply create_schedule_try_frame in Htry. cbn [snd].
      destruct Htry as [-> ->]. now split.
    + destruct e; now split.
  - intros sid cu. split; [apply Hcancel|].
    unfold cancel_schedule. destruct (Py.bind _ _) as [s|e]; cbn; now split.
  - intros vid cu. unfold complete_visit.
    destruct (Py.bind _ _) as [visit|e]; [|exact Hkeys]. cbv zeta.
    match goal with
    | |- context [complete_linked_schedule ?v ?d] =>
        pose proof (complete_linked_schedule_frame v d) as Hf;
        destruct (complete_linked_schedule v d) as [[u|e] db2]
    end; cbn [snd] in *; destruct Hf as [-> [-> [_ ->]]]; cbn;
      (split; [exact Hs|]); (split; [|exact Ha]);
      rewrite update_where_keys; try exact Hv; intros r; now destruct r.
  - intros dg cu. unfold create_diagnosis.
    destruct (Py.bind _ _) as [[visit uid]|e]; [|exact Hkeys]. cbv zeta.
    destruct (negb (complaint_exists _ db)); [exact Hkeys|].
    match goal with
    | |- context [complete_linked_schedule ?v ?d] =>
        pose proof (complete_linked_schedule_frame v d) as Hf;
        destruct (complete_linked_schedule v d) as [[u|e] db2]
    end; cbn [snd] in *; destruct Hf as [-> [-> [_ ->]]]; cbn; exact Hkeys.
  - intros request cu. unfold create_availability.
    destruct (get_current_doctor cu) as [cu'|e]; [|exact Hkeys].
    destruct (_ >=? _); [exact Hkeys|].
    destruct (Py.bind _ _) as [uid|e]; [|exact Hkeys].
    cbn. split; [exact Hs|]. split; [exact Hv|].
    rewrite map_app. cbn [map av_availability_id]. now apply NoDup_snoc_fresh.
  - intros aid cu. unfold delete_availability.
    destruct (Py.bind _ _) as [a|e]; [|exact Hkeys].
    cbn. split; [|split; [exact Hv | now apply delete_where_pk]].
    rewrite update_where_keys; [exact Hs|]. intros r. now destruct r.
Qed.

Lemma writers_keep_keys_unique_witness :
  let db := ex_db [ex_slot AppointmentStatus.available None] [] in
  keys_unique
    (snd (claim (ex_claim POST_students_complaints ex_student_a)
            (snd (generate_schedules ex_today db)))).
Proof.
  intros db.
  assert (Hkeys : keys_unique db).
  { unfold keys_unique, schedules_pk, visits_pk. cbn.
    repeat split; repeat (constructor; [intros []|]); constructor. }
  apply (writers_keep_keys_unique _
           (proj1 (writers_keep_keys_unique db Hkeys) ex_today)).
Defined.

(** * C2: what a run of the generator creates *)

Lemma map_filter_comm {A B : Type} (f : A -> B) (p : B -> bool) (l : list A) :
  map f (filter (fun x => p (f x)) l) = filter p (map f l).
Proof.
  induction l as [|x l IH]; [reflexivity|].
  cbn [filter map]. destruct (p (f x)); cbn [map]; now rewrite IH.
Qed.

Lemma map_flat_map_comm {A B C : Type} (f : B -> C) (g : A -> list B)
  (l : list A) :
  map f (flat_map g l) = flat_map (fun x => map f (g x)) l.
Proof.
  induction l as [|x l IH]; [reflexivity|].
  cbn [flat_map]. now rewrite map_app, IH.
Qed.

Lemma filter_flat_map_comm {A B : Type} (p : B -> bool) (g : A -> list B)
  (l : list A) :
  filter p (flat_map g l) = flat_map (fun x => filter p (g x)) l.
Proof.
  induction l as [|x l IH]; [reflexivity|].
  cbn [flat_map]. now rewrite filter_app, IH.
Qed.

Lemma flat_map_ext_in {A B : Type} (g h : A -> list B) (l : list A) :
  (forall x, In x l -> g x = h x) -> flat_map g l = flat_map h l.
Proof.
  induction l as [|x l IH]; intros H; [reflexivity|].
  cbn [flat_map]. rewrite (H x) by now left.
  rewrite IH; [reflexivity|]. intros y Hy. apply H. now right.
Qed.

(** The slot objects the loop builds for a window are the window's
    tiling. *)
Lemma candidate_slots_tiling (today : date) (w : Availability) :
  valid_window w ->
  map candidate_slot (candidates_of_availability today w) = tiling today w.
Proof.
  intros [Hs He]. rewrite candidates_of_availability_range, map_map.
  unfold tiling. apply map_ext_in. intros i Hi. apply in_range in Hi.
  cbn [candidate_slot fst snd].
  rewrite new_slot_window_slot;
    [reflexivity | exact Hs | exact He | exact (slot_count_pos _ _ _ Hi)
    | exact Hi].
Qed.

Lemma rows_like_has_key (table : list AppointmentSchedule)
  (s : AppointmentSchedule) :
  rows_like table s = select_where (has_key (slot_key s)) table.
Proof. reflexivity. Qed.

Lemma absent_missing (table : list AppointmentSchedule) (c : Candidate) :
  absent table c = missing table (candidate_slot c).
Proof.
  unfold absent, missing. rewrite rows_like_has_key.
  now rewrite slot_key_candidate_slot.
Qed.

(** What a completed run adds to its session, window by window. *)
Lemma session_slots_tiling (today : date) (db : Database) :
  Forall valid_window (active_availabilities db) ->
  map candidate_slot
    (filter (absent (appointment_schedules db)) (candidates today db))
  = flat_map
      (fun w => filter (missing (appointment_schedules db)) (tiling today w))
      (active_availabilities db).
Proof.
  intros Hvalid.
  rewrite (filter_ext _
             (fun c => missing (appointment_schedules db) (candidate_slot c)))
    by (intros c; apply absent_missing).
  rewrite map_filter_comm. unfold candidates.
  rewrite map_flat_map_comm, filter_flat_map_comm.
  apply flat_map_ext_in. intros w Hw. f_equal.
  apply candidate_slots_tiling. rewrite Forall_forall in Hvalid. now apply Hvalid.
Qed.

(** The flush gives the new rows keys that no row of the table has and
    that differ from one another, and changes no other column. *)
Lemma insert_schedules_fresh :
  forall (new table : list AppointmentSchedule),
    exists new',
      insert_schedules table new = table ++ new'
      /\ Forall2 same_but_key new new'
      /\ NoDup (map schedule_id new')
      /\ Forall (fun r => ~ In (schedule_id r) (map schedule_id table)) new'.
Proof.
  unfold insert_schedules.
  induction new as [|s new IH]; intros table.
  - exists []. cbn [fold_left]. rewrite app_nil_r.
    repeat split; constructor.
  - cbn [fold_left]. destruct (IH (insert_schedule table s))
      as [new' [Heq [HF [Hnd Hfresh]]]].
    unfold insert_schedule in *.
    exists (set_schedule_id (next_id (map schedule_id table)) s :: new').
    split; [rewrite Heq, <- app_assoc; reflexivity|].
    split; [constructor; [repeat split | exact HF]|].
    rewrite Forall_forall in Hfresh.
    split.
    + cbn [map schedule_id set_schedule_id]. constructor; [|exact Hnd].
      intros Hin. apply in_map_iff in Hin. destruct Hin as [r [Hr Hin]].
      apply (Hfresh r Hin). rewrite map_app, in_app_iff. right.
      cbn [map schedule_id set_schedule_id]. left. now rewrite Hr.
    + constructor.
      * cbn [schedule_id set_schedule_id]. apply next_id_fresh.
      * apply Forall_forall. intros r Hr Hin. apply (Hfresh r Hr).
        rewrite map_app, in_app_iff. now left.
Qed.

(** C2, as the code has it.  A run looks each interval up by its exact
    (doctor, date, start, end) and creates a slot only where no slot has
    it.  When the times of the active windows are times of day and no
    interval of a tiling has two or more slots already, the run completes,
    appends its new rows to the slot table and changes nothing else; the
    new rows are, window by window in table order, the slots of the
    window's tiling that have no slot yet, each under a new key of its
    own.  The tiling of a window with start [s] and end [e] is on the one
    date of the coming Monday-to-Sunday week that has the window's day of
    the week, and has [k] slots, the [i]-th from [s + 20 i] to
    [s + 20 (i + 1)] minutes, where for [s < e] the number [k] is
    [(e - s) / 20 min] rounded down, so that the remainder after the last
    slot is shorter than a slot. *)
Theorem generator_tiles_window (today : date) (db : Database) :
  Forall valid_window (active_availabilities db) ->
  Forall
    (fun s => (List.length (rows_like (appointment_schedules db) s) <= 1)%nat)
    (flat_map (tiling today) (active_availabilities db)) ->
  (exists new,
      generate_schedules today db
      = (OK tt,
         with_appointment_schedules (appointment_schedules db ++ new) db)
      /\ Forall2 same_but_key
           (flat_map
              (fun w =>
                 filter (missing (appointment_schedules db)) (tiling today w))
              (active_availabilities db))
           new
      /\ NoDup (map schedule_id new)
      /\ Forall
           (fun r =>
              ~ In (schedule_id r) (map schedule_id (appointment_schedules db)))
           new)
  /\ (forall w,
         In w (availabilities db) ->
         av_status w = AvailabilityStatus.active ->
         let s := av_start_time w in
         let e := av_end_time w in
         let d := next_monday today + day_index (av_day_of_week w) in
         let k := slot_count s e in
         get_next_week_dates_for_day today (DayOfWeek.value (av_day_of_week w))
         = [d]
         /\ weekday (next_monday today) = 0
         /\ today < next_monday today <= today + 7
         /\ next_monday today <= d <= next_monday today + 6
         /\ calendar_day_name (weekday d) = DayOfWeek.value (av_day_of_week w)
         /\ List.length (tiling today w) = k
         /\ Forall (fun r => date_ r = d) (tiling today w)
         /\ (s < e ->
             Z.of_nat k = (e - s) / (20 * 60000000)
             /\ s + Z.of_nat k * (20 * 60000000) <= e
                < s + (Z.of_nat k + 1) * (20 * 60000000))).
Proof.
  intros Hvalid Hone. split.
  - assert (Hcands :
             Forall
               (fun c =>
                  (List.length
                     (select_where (has_key (candidate_key c))
                        (appointment_schedules db)) <= 1)%nat)
               (candidates today db)).
    { apply Forall_forall. intros c Hc.
      rewrite <- slot_key_candidate_slot, <- rows_like_has_key.
      rewrite Forall_forall in Hone. apply Hone.
      assert (Hin : In (candidate_slot c)
                      (map candidate_slot (candidates today db)))
        by now apply in_map.
      unfold candidates in Hin. rewrite map_flat_map_comm in Hin.
      rewrite (flat_map_ext_in _ (tiling today)) in Hin; [exact Hin|].
      intros w Hw. apply candidate_slots_tiling.
      rewrite Forall_forall in Hvalid. now apply Hvalid. }
    destruct (run_candidates_at_most_one_OK (appointment_schedules db)
                (candidates today db) [] Hcands) as [new0 Hrun].
    pose proof (run_candidates_OK _ _ _ _ Hrun) as Hnew0. cbn [app] in Hnew0.
    rewrite session_slots_tiling in Hnew0 by exact Hvalid.
    destruct (insert_schedules_fresh new0 (appointment_schedules db))
      as [new [Heq [HF [Hnd Hfresh]]]].
    exists new. unfold generate_schedules.
    rewrite generate_session_spec, Hrun, Heq. subst new0.
    repeat split; assumption.
  - intros w Hw Hact s e d k.
    pose proof (day_index_range (av_day_of_week w)) as Hidx.
    split; [apply next_week_dates|].
    split; [apply weekday_next_monday|].
    split; [apply next_monday_bounds|].
    split; [subst d; lia|].
    split.
    { subst d. change (day_index (av_day_of_week w))
        with (timedelta_days (day_index (av_day_of_week w))).
      rewrite weekday_in_next_week by exact Hidx.
      apply calendar_day_name_index. }
    split.
    { unfold tiling, range. now rewrite !length_map, length_seq. }
    split.
    { unfold tiling. apply Forall_forall. intros r Hr.
      apply in_map_iff in Hr. destruct Hr as [i [<- _]]. reflexivity. }
    intros Hlt. pose proof (slot_count_bounds s e Hlt) as H.
    rewrite SLOT_value in H. exact H.
Qed.

(** The claim fails in two ways.  On the second of two runs: the window
    Monday 09:00 to 09:40 has room for two slots, both are in the table
    after the first run, and the second run appends nothing.  And on a
    table that has the interval Monday 09:00 to 09:20 twice (there is no
    unique constraint on the tuple, and PUT /doctor/schedules/{id} moves a
    slot without an overlap check): the look-up raises
    [MultipleResultsFound] and the run creates no slot at all, not even
    the one from 09:20 to 09:40. *)
Lemma rerun_creates_no_slot :
  let db1 := snd (generate_schedules ex_today (ex_db [] [])) in
  let db2 :=
    ex_db
      [ex_slot AppointmentStatus.available None;
       mkAppointmentSchedule 2 "DOC001" None (Some 1) (hm 9 0) (hm 9 20)
         ex_monday AppointmentStatus.available] [] in
  In ex_window (availabilities db1)
  /\ av_status ex_window = AvailabilityStatus.active
  /\ av_start_time ex_window < av_end_time ex_window
  /\ (av_end_time ex_window - av_start_time ex_window) / (20 * 60000000) = 2
  /\ ~ (exists new,
           appointment_schedules (snd (generate_schedules ex_today db1))
           = appointment_schedules db1 ++ new
           /\ List.length new = 2%nat)
  /\ generate_schedules ex_today db2 = (Raise MultipleResultsFound, db2).
Proof.
  split; [left; reflexivity|]. split; [reflexivity|].
  split; [vm_compute; reflexivity|]. split; [vm_compute; reflexivity|].
  split; [|vm_compute; reflexivity].
  intros [new [Heq Hlen]].
  assert (Hrun : appointment_schedules
                   (snd (generate_schedules ex_today
                           (snd (generate_schedules ex_today (ex_db [] [])))))
                 = appointment_schedules
                     (snd (generate_schedules ex_today (ex_db [] []))) ++ [])
    by (vm_compute; reflexivity).
  rewrite Hrun in Heq. apply app_inv_head in Heq. subst new. discriminate Hlen.
Qed.

(** Windows Monday 09:00 to 09:40 of DOC001 and Tuesday 10:00 to 10:50 of
    DOC002, and a table that has the slot Monday 09:00 to 09:20 and a slot
    the doctor entered by hand: the run adds Monday 09:20 to 09:40 and the
    two slots of Tuesday, and leaves the last ten minutes of Tuesday's
    window out. *)
Lemma generator_tiles_window_witness :
  let w2 :=
    mkAvailability 2 "DOC002" DayOfWeek.Tuesday (hm 10 0) (hm 10 50)
      AvailabilityStatus.active in
  let table :=
    [ex_slot AppointmentStatus.available None;
     mkAppointmentSchedule 2 "DOC001" None (Some 1) (hm 9 10) (hm 9 30)
       ex_monday AppointmentStatus.available] in
  let db := mkDatabase [ex_window; w2] table [] [] [] in
  exists new,
    generate_schedules ex_today db
    = (OK tt, mkDatabase [ex_window; w2] (table ++ new) [] [] [])
    /\ Forall2 same_but_key
         [mkAppointmentSchedule 0 "DOC001" None (Some 1) (hm 9 20) (hm 9 40)
            ex_monday AppointmentStatus.available;
          mkAppointmentSchedule 0 "DOC002" None (Some 2) (hm 10 0) (hm 10 20)
            (ex_monday + 1) AppointmentStatus.available;
          mkAppointmentSchedule 0 "DOC002" None (Some 2) (hm 10 20) (hm 10 40)
            (ex_monday + 1) AppointmentStatus.available]
         new.
Proof.
  intros w2 table db.
  assert (Hvalid : Forall valid_window (active_availabilities db)).
  { repeat constructor; vm_compute; discriminate. }
  assert (Hone : Forall
                   (fun s =>
                      (List.length (rows_like (appointment_schedules db) s)
                       <= 1)%nat)
                   (flat_map (tiling ex_today) (active_availabilities db))).
  { let l :=
      eval vm_compute in (flat_map (tiling ex_today) (active_availabilities db))
    in change (flat_map (tiling ex_today) (active_availabilities db)) with l.
    repeat (constructor; [vm_compute; lia|]). constructor. }
  destruct (generator_tiles_window ex_today db Hvalid Hone)
    as [[new [Hrun [HF _]]] _].
  exists new. split; [exact Hrun|].
  let l :=
    eval vm_compute in
      (flat_map
         (fun w => filter (missing (appointment_schedules db)) (tiling ex_today w))
         (active_availabilities db))
  in change (flat_map
               (fun w =>
                  filter (missing (appointment_schedules db)) (tiling ex_today w))
               (active_availabilities db)) with l in HF.
  exact HF.
Defined.
